(** * Question prompt and agent modes of mistral-vibe: a shallow embedding

    The development follows three source files:
    - [vibe/core/modes.py]: the mode enumeration, its configuration table,
      string parsing and the cycle order;
    - [vibe/cli/textual_ui/widgets/mode_indicator.py]: the mode indicator;
    - [vibe/cli/textual_ui/widgets/question_app.py]: the question panels and
      the tabbed question widget.

    Python objects become records, methods become functions from the state
    before the call to the state after it, exceptions become the [Raise]
    constructor of [Result], and the messages a handler posts are returned
    next to the new state. *)

From Stdlib Require Import ZArith String Ascii List Lia Bool.
From stdpp Require Import base option list gmap strings pretty.

Local Open Scope string_scope.
Local Open Scope list_scope.
Local Open Scope Z_scope.

(** ** Python exceptions and the [Result] monad *)

Inductive PyExc : Type :=
  | IndexError
  | ZeroDivisionError
  | ValueError
  | KeyError
  | NoMatches.

Inductive Result (A : Type) : Type :=
  | Ok (a : A)
  | Raise (e : PyExc).
Arguments Ok {A} a.
Arguments Raise {A} e.

#[global] Instance Result_ret : MRet Result := fun _ a => Ok a.
#[global] Instance Result_bind : MBind Result := fun _ _ k m =>
  match m with
  | Ok a => k a
  | Raise e => Raise e
  end.

Definition is_Ok {A} (r : Result A) : Prop := exists a, r = Ok a.

(** ** Python integers, lists and strings *)

(** [a % b] on Python integers: floor modulo, the sign follows the divisor,
    a zero divisor raises. *)
Definition py_mod (a b : Z) : Result Z :=
  if b =? 0 then Raise ZeroDivisionError else Ok (a `mod` b).

Definition py_len {A} (l : list A) : Z := Z.of_nat (length l).

(** Position denoted by a Python index: a negative index counts from the
    end, anything outside [-n, n) is out of range. *)
Definition py_norm (n i : Z) : option nat :=
  if 0 <=? i then (if i <? n then Some (Z.to_nat i) else None)
  else if 0 <=? n + i then Some (Z.to_nat (n + i)) else None.

(** [l[i]] *)
Definition py_get {A} (l : list A) (i : Z) : Result A :=
  match py_norm (py_len l) i with
  | Some k => match l !! k with Some x => Ok x | None => Raise IndexError end
  | None => Raise IndexError
  end.

(** [l[i]] handed to a method that mutates the object found there: the
    object at that position is replaced by its new state. *)
Definition py_modify {A} (l : list A) (i : Z) (f : A -> Result A)
    : Result (list A) :=
  match py_norm (py_len l) i with
  | Some k => match l !! k with
              | Some x => y ← f x; Ok (<[k := y]> l)
              | None => Raise IndexError
              end
  | None => Raise IndexError
  end.

(** [l.index(x)] *)
Fixpoint py_index_of `{EqDecision A} (l : list A) (x : A) : Result Z :=
  match l with
  | [] => Raise ValueError
  | y :: l' => if decide (y = x) then Ok 0
               else i ← py_index_of l' x; Ok (i + 1)
  end.

(** Strings are [string]s whose characters are the code points U+0000 to
    U+00FF; on this range [py_lower] and [py_isspace] are Python's
    [str.lower] and [str.isspace]. *)
Definition code (c : ascii) : Z := Z.of_N (N_of_ascii c).

Definition py_lower_char (c : ascii) : ascii :=
  let n := code c in
  if ((65 <=? n) && (n <=? 90))
     || ((192 <=? n) && (n <=? 222) && negb (n =? 215))
  then ascii_of_N (Z.to_N (n + 32)) else c.

Fixpoint py_lower (s : string) : string :=
  match s with
  | EmptyString => EmptyString
  | String c s' => String (py_lower_char c) (py_lower s')
  end.

Definition py_upper_ascii (c : ascii) : ascii :=
  let n := code c in
  if (97 <=? n) && (n <=? 122) then ascii_of_N (Z.to_N (n - 32)) else c.

Definition py_isspace (c : ascii) : bool :=
  let n := code c in
  ((9 <=? n) && (n <=? 13)) || ((28 <=? n) && (n <=? 32))
  || (n =? 133) || (n =? 160).

Fixpoint py_lstrip (s : string) : string :=
  match s with
  | EmptyString => EmptyString
  | String c s' => if py_isspace c then py_lstrip s' else s
  end.

Fixpoint py_rstrip (s : string) : string :=
  match s with
  | EmptyString => EmptyString
  | String c s' =>
      match py_rstrip s' with
      | EmptyString => if py_isspace c then EmptyString else String c EmptyString
      | r => String c r
      end
  end.

(** [s.strip()] *)
Definition py_strip (s : string) : string := py_lstrip (py_rstrip s).

(** [s * n] *)
Definition py_repeat (s : string) (n : Z) : string :=
  Nat.iter (Z.to_nat n) (String.append s) EmptyString.

(** Truth value of a [str | None]. *)
Definition py_truthy (o : option string) : bool :=
  match o with
  | Some (String _ _) => true
  | _ => false
  end.

(** Values stored under [Any] in the configuration overrides. *)
Inductive PyVal : Type :=
  | VNone
  | VStr (s : string)
  | VStrList (l : list string).

(** ** vibe/core/modes.py *)

Inductive ModeSafety : Type := SAFE | NEUTRAL | YOLO.

Inductive AgentMode : Type := DEFAULT | AUTO_APPROVE | PLAN.

#[global] Instance ModeSafety_eq_dec : EqDecision ModeSafety.
Proof. solve_decision. Defined.

#[global] Instance AgentMode_eq_dec : EqDecision AgentMode.
Proof. solve_decision. Defined.

#[global] Instance AgentMode_countable : Countable AgentMode.
Proof.
  refine (inj_countable'
    (fun m => match m with DEFAULT => 0%nat | AUTO_APPROVE => 1%nat | PLAN => 2%nat end)
    (fun n => match n with 0%nat => DEFAULT | 1%nat => AUTO_APPROVE | _ => PLAN end) _).
  intros []; reflexivity.
Defined.

#[global] Instance ModeSafety_countable : Countable ModeSafety.
Proof.
  refine (inj_countable'
    (fun m => match m with SAFE => 0%nat | NEUTRAL => 1%nat | YOLO => 2%nat end)
    (fun n => match n with 0%nat => SAFE | 1%nat => NEUTRAL | _ => YOLO end) _).
  intros []; reflexivity.
Defined.

Module AgentModeEnum.

(** Members in declaration order, as iterating the class yields them. *)
Definition members : list AgentMode := [DEFAULT; AUTO_APPROVE; PLAN].

Definition name (m : AgentMode) : string :=
  match m with
  | DEFAULT => "DEFAULT"
  | AUTO_APPROVE => "AUTO_APPROVE"
  | PLAN => "PLAN"
  end.

(** [auto()] in a [StrEnum]: the lower-cased member name. *)
Definition value (m : AgentMode) : string := py_lower (name m).

(** [cls(v)]: the member whose value is [v], [ValueError] if none. *)
Fixpoint lookup_value (ms : list AgentMode) (v : string) : Result AgentMode :=
  match ms with
  | [] => Raise ValueError
  | m :: ms' => if String.eqb (value m) v then Ok m else lookup_value ms' v
  end.

Definition call (v : string) : Result AgentMode := lookup_value members v.

End AgentModeEnum.

Record ModeConfig : Type := mkModeConfig {
  display_name : string;
  description : string;
  safety : ModeSafety;
  auto_approve : bool;
  config_overrides : gmap string PyVal
}.

(** The dataclass defaults of [safety], [auto_approve] and
    [config_overrides]. *)
Definition ModeConfig_default_safety : ModeSafety := NEUTRAL.
Definition ModeConfig_default_auto_approve : bool := false.
Definition ModeConfig_default_overrides : gmap string PyVal := ∅.

Definition PLAN_MODE_TOOLS : list string := ["grep"; "read_file"; "todo"].

Definition MODE_CONFIGS : gmap AgentMode ModeConfig :=
  <[AUTO_APPROVE :=
      mkModeConfig "Auto Approve" "Auto-approves all tool executions"
        YOLO true ModeConfig_default_overrides]>
  (<[PLAN :=
      mkModeConfig "Plan" "Read-only mode for exploration and planning"
        SAFE true {[ "enabled_tools" := VStrList PLAN_MODE_TOOLS ]}]>
  (<[DEFAULT :=
      mkModeConfig "Default" "Requires approval for tool executions"
        NEUTRAL false ModeConfig_default_overrides]> ∅)).

(** [d[k]] on a dict *)
Definition py_getitem `{Countable K} {V} (d : gmap K V) (k : K) : Result V :=
  match d !! k with
  | Some v => Ok v
  | None => Raise KeyError
  end.

(** The properties of [AgentMode], each a lookup in [MODE_CONFIGS]. *)
Definition mode_display_name (m : AgentMode) : Result string :=
  c ← py_getitem MODE_CONFIGS m; Ok (display_name c).
Definition mode_description (m : AgentMode) : Result string :=
  c ← py_getitem MODE_CONFIGS m; Ok (description c).
Definition mode_config_overrides (m : AgentMode) : Result (gmap string PyVal) :=
  c ← py_getitem MODE_CONFIGS m; Ok (config_overrides c).
Definition mode_auto_approve (m : AgentMode) : Result bool :=
  c ← py_getitem MODE_CONFIGS m; Ok (auto_approve c).
Definition mode_safety (m : AgentMode) : Result ModeSafety :=
  c ← py_getitem MODE_CONFIGS m; Ok (safety c).

(** [AgentMode.from_string]: only [ValueError] is caught. *)
Definition from_string (value : string) : Result (option AgentMode) :=
  match AgentModeEnum.call (py_lower value) with
  | Ok m => Ok (Some m)
  | Raise ValueError => Ok None
  | Raise e => Raise e
  end.

Definition get_mode_order : list AgentMode := [AUTO_APPROVE; PLAN; DEFAULT].

Definition next_mode (current : AgentMode) : Result AgentMode :=
  let order := get_mode_order in
  idx ← py_index_of order current;
  i ← py_mod (idx + 1) (py_len order);
  py_get order i.

(** ** vibe/core/tools/builtins/ask_user.py *)

Module AskUser.

(** Modelled from the spec: the declarations of [Choice], [Question] and
    [AskUserArgs] are imported by the widget but their file is not part of
    the sources at hand.  A choice is a label with an optional
    description, a question is a prompt text with an ordered, possibly
    empty, sequence of choices. *)
Record Choice : Type := mkChoice {
  label : string;
  description : option string
}.

Record Question : Type := mkQuestion {
  question : string;
  choices : list Choice
}.

Record AskUserArgs : Type := mkArgs {
  questions : list Question
}.

End AskUser.

(** ** The Textual widgets the question prompt is built from *)

(** A [Static]: what it currently shows and its style classes. *)
Record Static : Type := mkStatic {
  renderable : string;
  classes : list string
}.

(** [Static.update] with content that Textual's markup parser accepts: the
    widget shows the new content and keeps its classes.  Content the parser
    rejects makes Textual raise [MarkupError]; the parser is not part of
    this model, so the statements on widgets that show text taken from the
    questions take the success of mounting and of the commands as a
    hypothesis. *)
Definition update (r : string) (w : Static) : Static :=
  mkStatic r (classes w).

Definition add_class (c : string) (w : Static) : Static :=
  if bool_decide (c ∈ classes w) then w
  else mkStatic (renderable w) (classes w ++ [c]).

Definition remove_class (c : string) (w : Static) : Static :=
  mkStatic (renderable w) (filter (fun x => x <> c) (classes w)).

(** An [Input]: the text typed so far, the placeholder and the classes. *)
Record Input : Type := mkInput {
  value : string;
  placeholder : string;
  input_classes : list string
}.

(** Messages that travel up the widget tree. *)
Inductive Message : Type :=
  | Key (key : string)
  | InputSubmitted
  | EscapePressed
  | CancelRequested
  | Answered (answers : list (string * string * bool))
  | Cancelled.

(** What a handler did with the event it was given: whether it called
    [event.stop()] and which messages it posted. *)
Record Handled : Type := mkHandled {
  stopped : bool;
  posted : list Message
}.

Definition newline : string := String (ascii_of_nat 10) EmptyString.

(** A key binding: [Binding(key, action, description, show=..., priority=...)];
    [priority] is false when the argument is left out. *)
Record Binding : Type := mkBinding {
  binding_key : string;
  binding_action : string;
  binding_description : string;
  binding_show : bool;
  binding_priority : bool
}.

(** ** vibe/cli/textual_ui/widgets/question_app.py *)

Module EscapableInput.

(** A fresh input is an [Input] without initial text. *)
Definition __init__ (placeholder classes : string) : Input :=
  mkInput "" placeholder [classes].

Definition on_key (key : string) : Handled :=
  if String.eqb key "escape"
  then mkHandled true [EscapePressed]
  else mkHandled false [].

End EscapableInput.

Module QuestionTab.

Record t : Type := mk {
  tab_label : string;
  tab_index : Z;
  is_active : bool;
  static : Static
}.

Definition __init__ (label : string) (index : Z) (is_active : bool) : t :=
  mk label index is_active (mkStatic "" ["question-tab"]).

Definition _update_display (self : t) : t :=
  let w := update (tab_label self) (static self) in
  mk (tab_label self) (tab_index self) (is_active self)
     (if is_active self
      then add_class "question-tab-active" w
      else remove_class "question-tab-active" w).

Definition on_mount (self : t) : t := _update_display self.

Definition set_active (active : bool) (self : t) : t :=
  _update_display (mk (tab_label self) (tab_index self) active (static self)).

End QuestionTab.

(** Where a panel asks the focus to go. *)
Inductive FocusTarget : Type :=
  | FocusTextInput
  | FocusPanel.

Module QuestionPanel.

Import AskUser.

Record t : Type := mk {
  question_data : Question;
  index : Z;
  choices : list Choice;
  max_choices : Z;
  selected_option : Z;
  total_options : Z;
  option_widgets : list Static;
  text_input : option Input;
  other_cursor : option Static;
  is_other_mode : bool;
  (* children yielded by [compose] and found again by class *)
  question_text : option Static;
  padding : option Static;
  (* the widget's [display] attribute, set by the question widget *)
  display : bool
}.

Definition set_selected_option (n : Z) (p : t) : t :=
  mk (question_data p) (index p) (choices p) (max_choices p) n
     (total_options p) (option_widgets p) (text_input p) (other_cursor p)
     (is_other_mode p) (question_text p) (padding p) (display p).

Definition set_option_widgets (ws : list Static) (p : t) : t :=
  mk (question_data p) (index p) (choices p) (max_choices p)
     (selected_option p) (total_options p) ws (text_input p)
     (other_cursor p) (is_other_mode p) (question_text p) (padding p)
     (display p).

Definition set_text_input (i : option Input) (p : t) : t :=
  mk (question_data p) (index p) (choices p) (max_choices p)
     (selected_option p) (total_options p) (option_widgets p) i
     (other_cursor p) (is_other_mode p) (question_text p) (padding p)
     (display p).

Definition set_other_cursor (c : option Static) (p : t) : t :=
  mk (question_data p) (index p) (choices p) (max_choices p)
     (selected_option p) (total_options p) (option_widgets p)
     (text_input p) c (is_other_mode p) (question_text p) (padding p)
     (display p).

Definition set_is_other_mode (b : bool) (p : t) : t :=
  mk (question_data p) (index p) (choices p) (max_choices p)
     (selected_option p) (total_options p) (option_widgets p)
     (text_input p) (other_cursor p) b (question_text p) (padding p)
     (display p).

Definition set_question_text (q : option Static) (p : t) : t :=
  mk (question_data p) (index p) (choices p) (max_choices p)
     (selected_option p) (total_options p) (option_widgets p)
     (text_input p) (other_cursor p) (is_other_mode p) q (padding p)
     (display p).

Definition set_padding (q : option Static) (p : t) : t :=
  mk (question_data p) (index p) (choices p) (max_choices p)
     (selected_option p) (total_options p) (option_widgets p)
     (text_input p) (other_cursor p) (is_other_mode p) (question_text p) q
     (display p).

Definition set_display (b : bool) (p : t) : t :=
  mk (question_data p) (index p) (choices p) (max_choices p)
     (selected_option p) (total_options p) (option_widgets p)
     (text_input p) (other_cursor p) (is_other_mode p) (question_text p)
     (padding p) b.

Definition BINDINGS : list Binding :=
  [ mkBinding "escape" "cancel" "Cancel" false true ].

Definition action_cancel : list Message := [CancelRequested].

Definition on_escapable_input_escape_pressed : list Message :=
  [CancelRequested].

Definition on_key (key : string) : Handled :=
  if String.eqb key "escape"
  then mkHandled true [CancelRequested]
  else mkHandled false [].

(** [x or []] on a list *)
Definition or_empty {A} (x : list A) : list A :=
  match x with
  | [] => []
  | _ :: _ => x
  end.

Definition __init__ (question : Question) (index max_choices : Z) : t :=
  let choices := or_empty (AskUser.choices question) in
  mk question index choices max_choices
     0 (py_len choices + 1) []
     None None false
     None None true.

Definition compose (self : t) : t :=
  let self := set_question_text
    (Some (mkStatic (question (question_data self)) ["question-text"])) self in
  let self := set_option_widgets
    (option_widgets self
     ++ replicate (length (choices self)) (mkStatic "" ["question-option"]))
    self in
  let self := set_other_cursor
    (Some (mkStatic "  " ["question-other-cursor"])) self in
  let self := set_text_input
    (Some (EscapableInput.__init__ "_" "question-other-input")) self in
  let padding_lines := max_choices self - py_len (choices self) in
  if 0 <? padding_lines
  then set_padding
         (Some (mkStatic (py_repeat newline (padding_lines - 1))
                         ["question-padding"])) self
  else self.

(** Rendered line of one choice: the label, then the description when
    there is one. *)
Definition option_text (choice : Choice) : string :=
  if py_truthy (description choice)
  then label choice +:+ " - " +:+ default "" (description choice)
  else label choice.

(** The loop of [_update_options] over [enumerate(self.option_widgets)],
    from position [idx] on, for option texts that [update] accepts. *)
Fixpoint update_option_widgets (choices : list Choice) (selected idx : Z)
    (ws : list Static) : Result (list Static) :=
  match ws with
  | [] => Ok []
  | widget :: ws' =>
      let is_selected := idx =? selected in
      choice ← py_get choices idx;
      let text := option_text choice in
      let cursor := if is_selected then "> " else "  " in
      let widget := update (cursor +:+ text) widget in
      let widget := remove_class "question-option-selected" widget in
      let widget := if is_selected
                    then add_class "question-option-selected" widget
                    else widget in
      rest ← update_option_widgets choices selected (idx + 1) ws';
      Ok (widget :: rest)
  end.

Definition _update_options (self : t) : Result (t * list FocusTarget) :=
  ws ← update_option_widgets (choices self) (selected_option self) 0
                             (option_widgets self);
  let self := set_option_widgets ws self in
  let is_other_selected := selected_option self =? py_len (choices self) in
  let was_other_mode := is_other_mode self in
  let self :=
    match other_cursor self with
    | Some c =>
        set_other_cursor
          (Some (update (if is_other_selected then "> " else "  ") c)) self
    | None => self
    end in
  match text_input self with
  | Some _ =>
      let self := set_is_other_mode is_other_selected self in
      if is_other_selected then Ok (self, [FocusTextInput])
      else if was_other_mode then Ok (self, [FocusPanel])
      else Ok (self, [])
  | None => Ok (self, [])
  end.

Definition on_mount (self : t) : Result (t * list FocusTarget) :=
  _update_options self.

Definition move_up (self : t) : Result (t * list FocusTarget) :=
  n ← py_mod (selected_option self - 1) (total_options self);
  _update_options (set_selected_option n self).

Definition move_down (self : t) : Result (t * list FocusTarget) :=
  n ← py_mod (selected_option self + 1) (total_options self);
  _update_options (set_selected_option n self).

Definition get_answer (self : t) : Result (string * bool) :=
  if selected_option self <? py_len (choices self)
  then c ← py_get (choices self) (selected_option self);
       Ok (label c, false)
  else match text_input self with
       | Some inp => Ok (py_strip (value inp), true)
       | None => Ok ("", true)
       end.

Definition focus_input (self : t) : list FocusTarget :=
  if is_other_mode self && bool_decide (is_Some (text_input self))
  then [FocusTextInput]
  else [FocusPanel].

(** The user edits the free-text line: Textual's [Input] replaces its
    [value]; nothing else of the panel changes.  The classes Textual
    itself maintains on an input after validation ([-valid], [-invalid])
    are not tracked. *)
Definition edit_text (s : string) (self : t) : t :=
  match text_input self with
  | Some inp =>
      set_text_input (Some (mkInput s (placeholder inp) (input_classes inp)))
                     self
  | None => self
  end.

(** [self.query_one(".question-text")] followed by a change of the
    widget found; [NoMatches] before [compose] has run. *)
Definition with_question_text (f : Static -> Static) (self : t) : Result t :=
  match question_text self with
  | Some w => Ok (set_question_text (Some (f w)) self)
  | None => Raise NoMatches
  end.

End QuestionPanel.

(** What the question widget hands to the framework: a message posted on
    itself, or a request to move the focus into or onto a panel. *)
Inductive Effect : Type :=
  | Post (m : Message)
  | Focus (panel : Z) (target : FocusTarget).

Module QuestionApp.

Import AskUser.

Record t : Type := mk {
  args : AskUserArgs;
  questions : list Question;
  current_tab : Z;
  tab_widgets : list QuestionTab.t;
  panel_widgets : list QuestionPanel.t;
  max_choices : Z
}.

Definition BINDINGS : list Binding :=
  [ mkBinding "up" "move_up" "Up" false false;
    mkBinding "down" "move_down" "Down" false false;
    mkBinding "left" "prev_tab" "Previous Tab" false false;
    mkBinding "right" "next_tab" "Next Tab" false false;
    mkBinding "tab" "next_tab" "Next Tab" false false;
    mkBinding "shift+tab" "prev_tab" "Previous Tab" false false;
    mkBinding "enter" "submit" "Submit" false false;
    mkBinding "escape" "cancel" "Cancel" false true ].

Definition set_current_tab (n : Z) (a : t) : t :=
  mk (args a) (questions a) n (tab_widgets a) (panel_widgets a)
     (max_choices a).

Definition set_tab_widgets (ts : list QuestionTab.t) (a : t) : t :=
  mk (args a) (questions a) (current_tab a) ts (panel_widgets a)
     (max_choices a).

Definition set_panel_widgets (ps : list QuestionPanel.t) (a : t) : t :=
  mk (args a) (questions a) (current_tab a) (tab_widgets a) ps
     (max_choices a).

Definition focus_effects (p : QuestionPanel.t) (fs : list FocusTarget)
    : list Effect :=
  Focus (QuestionPanel.index p) <$> fs.

(** [max(len(q.choices) for q in self.questions) if self.questions else 6] *)
Definition initial_max_choices (qs : list Question) : Z :=
  match qs with
  | [] => 6
  | q :: qs' =>
      foldl Z.max (py_len (choices q)) ((fun q => py_len (choices q)) <$> qs')
  end.

Definition __init__ (args : AskUserArgs) : t :=
  mk args (AskUser.questions args) 0 [] []
     (initial_max_choices (AskUser.questions args)).

(** The tabs and panels [compose] creates and records; the containers
    around them and the help line are only handed to the framework. *)
Definition compose (self : t) : t :=
  let self :=
    if 1 <? py_len (questions self)
    then set_tab_widgets
           (tab_widgets self
            ++ imap (fun i _ =>
                       QuestionTab.__init__ ("Q" +:+ pretty (Z.of_nat i + 1))
                         (Z.of_nat i) (Z.of_nat i =? 0))
                    (questions self))
           self
    else self in
  set_panel_widgets
    (panel_widgets self
     ++ imap (fun i q =>
                QuestionPanel.set_display (Z.of_nat i =? 0)
                  (QuestionPanel.__init__ q (Z.of_nat i) (max_choices self)))
             (questions self))
    self.

Definition on_mount (self : t) : Result (t * list Effect) :=
  match panel_widgets self with
  | [] => Ok (self, [])
  | _ :: _ =>
      ps ← py_modify (panel_widgets self) 0
             (QuestionPanel.with_question_text
                (add_class "question-text-active"));
      p0 ← py_get ps 0;
      Ok (set_panel_widgets ps self,
          focus_effects p0 (QuestionPanel.focus_input p0))
  end.

Definition _get_current_panel (self : t) : Result (option QuestionPanel.t) :=
  if (0 <=? current_tab self)
     && (current_tab self <? py_len (panel_widgets self))
  then p ← py_get (panel_widgets self) (current_tab self); Ok (Some p)
  else Ok None.

Definition _switch_tab (new_tab : Z) (self : t) : Result (t * list Effect) :=
  if new_tab =? current_tab self then Ok (self, [])
  else
    tabs ←
      match tab_widgets self with
      | [] => Ok []
      | _ :: _ =>
          ts ← py_modify (tab_widgets self) (current_tab self)
                 (fun w => Ok (QuestionTab.set_active false w));
          py_modify ts new_tab (fun w => Ok (QuestionTab.set_active true w))
      end;
    let self := set_tab_widgets tabs self in
    _ ← py_get (panel_widgets self) (current_tab self);
    _ ← py_get (panel_widgets self) new_tab;
    ps ← py_modify (panel_widgets self) (current_tab self)
           (QuestionPanel.with_question_text
              (remove_class "question-text-active"));
    ps ← py_modify ps new_tab
           (QuestionPanel.with_question_text
              (add_class "question-text-active"));
    ps ← py_modify ps (current_tab self)
           (fun p => Ok (QuestionPanel.set_display false p));
    ps ← py_modify ps new_tab
           (fun p => Ok (QuestionPanel.set_display true p));
    let self := set_current_tab new_tab (set_panel_widgets ps self) in
    new_panel ← py_get ps new_tab;
    Ok (self, focus_effects new_panel (QuestionPanel.focus_input new_panel)).

(** A panel method run on the current panel, which is changed in place. *)
Definition on_current_panel
    (m : QuestionPanel.t -> Result (QuestionPanel.t * list FocusTarget))
    (self : t) : Result (t * list Effect) :=
  panel ← _get_current_panel self;
  match panel with
  | Some p =>
      '(p', fs) ← m p;
      Ok (set_panel_widgets
            (<[Z.to_nat (current_tab self) := p']> (panel_widgets self)) self,
          focus_effects p' fs)
  | None => Ok (self, [])
  end.

Definition action_move_up (self : t) : Result (t * list Effect) :=
  on_current_panel QuestionPanel.move_up self.

Definition action_move_down (self : t) : Result (t * list Effect) :=
  on_current_panel QuestionPanel.move_down self.

Definition action_next_tab (self : t) : Result (t * list Effect) :=
  if 1 <? py_len (panel_widgets self)
  then new_tab ← py_mod (current_tab self + 1) (py_len (panel_widgets self));
       _switch_tab new_tab self
  else Ok (self, []).

Definition action_prev_tab (self : t) : Result (t * list Effect) :=
  if 1 <? py_len (panel_widgets self)
  then new_tab ← py_mod (current_tab self - 1) (py_len (panel_widgets self));
       _switch_tab new_tab self
  else Ok (self, []).

(** The loop of [_do_submit]: one record per panel, in list order. *)
Fixpoint collect_answers (ps : list QuestionPanel.t)
    : Result (list (string * string * bool)) :=
  match ps with
  | [] => Ok []
  | panel :: ps' =>
      '(answer, is_other) ← QuestionPanel.get_answer panel;
      rest ← collect_answers ps';
      Ok ((question (QuestionPanel.question_data panel), answer, is_other)
            :: rest)
  end.

Definition _do_submit (self : t) : Result (t * list Effect) :=
  answers ← collect_answers (panel_widgets self);
  Ok (self, [Post (Answered answers)]).

Definition action_submit (self : t) : Result (t * list Effect) :=
  _do_submit self.

Definition action_cancel (self : t) : Result (t * list Effect) :=
  Ok (self, [Post Cancelled]).

Definition on_input_submitted (self : t) : Result (t * list Effect) :=
  _do_submit self.

Definition on_question_panel_cancel_requested (self : t)
    : Result (t * list Effect) :=
  Ok (self, [Post Cancelled]).

End QuestionApp.

(** ** The life of one question prompt *)

Module Session.

Import QuestionApp.

(** Textual composes and mounts the children before the parent's own
    [on_mount] runs: every panel is composed, then receives [on_mount]. *)
Fixpoint mount_panels (ps : list QuestionPanel.t)
    : Result (list QuestionPanel.t * list Effect) :=
  match ps with
  | [] => Ok ([], [])
  | p :: ps' =>
      '(p', fs) ← QuestionPanel.on_mount (QuestionPanel.compose p);
      '(rest, es) ← mount_panels ps';
      Ok (p' :: rest, focus_effects p' fs ++ es)
  end.

(** Construction up to the end of mounting. *)
Definition start (args : AskUser.AskUserArgs) : Result (t * list Effect) :=
  let self := compose (__init__ args) in
  let self :=
    set_tab_widgets (QuestionTab.on_mount <$> tab_widgets self) self in
  '(ps, es1) ← mount_panels (panel_widgets self);
  '(self, es2) ← on_mount (set_panel_widgets ps self);
  Ok (self, es1 ++ es2).

(** What the operator can do once the prompt is shown.  Text typed goes
    to the input that has the focus, which Textual only gives to a
    displayed widget, hence to the input of the current panel. *)
Inductive Command : Type :=
  | MoveUp
  | MoveDown
  | NextTab
  | PrevTab
  | EditText (s : string)
  | Submit
  | Cancel.

Definition step (c : Command) (self : t) : Result (t * list Effect) :=
  match c with
  | MoveUp => action_move_up self
  | MoveDown => action_move_down self
  | NextTab => action_next_tab self
  | PrevTab => action_prev_tab self
  | EditText s =>
      on_current_panel (fun p => Ok (QuestionPanel.edit_text s p, [])) self
  | Submit => action_submit self
  | Cancel => action_cancel self
  end.

Fixpoint run (cs : list Command) (self : t) : Result (t * list Effect) :=
  match cs with
  | [] => Ok (self, [])
  | c :: cs' =>
      '(self, es1) ← step c self;
      '(self, es2) ← run cs' self;
      Ok (self, es1 ++ es2)
  end.

(** The session events among the effects, in order. *)
Definition session_events (es : list Effect) : list Message :=
  omap (fun e => match e with
                 | Post (Answered a) => Some (Answered a)
                 | Post Cancelled => Some Cancelled
                 | _ => None
                 end) es.

End Session.

(** ** How a key press travels through the prompt *)

Module Dispatch.

(** The widgets a key can meet: the free-text input of the current
    panel, the current panel, the question widget. *)
Inductive Node : Type := NInput | NPanel | NApp.

Definition parent (n : Node) : option Node :=
  match n with
  | NInput => Some NPanel
  | NPanel => Some NApp
  | NApp => None
  end.

(** From the focused widget up to the question widget. *)
Definition chain (focus : Node) : list Node :=
  match focus with
  | NInput => [NInput; NPanel; NApp]
  | NPanel => [NPanel; NApp]
  | NApp => [NApp]
  end.

(** Priority bindings of each widget; Textual's [Input] declares none. *)
Definition priority_bindings (n : Node) : list Binding :=
  filter (fun b => binding_priority b = true)
    match n with
    | NInput => []
    | NPanel => QuestionPanel.BINDINGS
    | NApp => QuestionApp.BINDINGS
    end.

Definition posts (es : list Effect) : list Message :=
  omap (fun e => match e with Post m => Some m | _ => None end) es.

Definition focuses (es : list Effect) : list Effect :=
  omap (fun e => match e with
                 | Focus p f => Some (Focus p f)
                 | _ => None
                 end) es.

(** [action_<name>] of the widget, when it has one: the new state, the
    messages the widget posted on itself, the focus requests. *)
Definition run_action (n : Node) (name : string) (a : QuestionApp.t)
    : option (Result (QuestionApp.t * list Message * list Effect)) :=
  let app (m : QuestionApp.t -> Result (QuestionApp.t * list Effect)) :=
    Some ('(a', es) ← m a; Ok (a', posts es, focuses es)) in
  match n with
  | NInput => None
  | NPanel =>
      if String.eqb name "cancel"
      then Some (Ok (a, QuestionPanel.action_cancel, []))
      else None
  | NApp =>
      if String.eqb name "move_up" then app QuestionApp.action_move_up
      else if String.eqb name "move_down" then app QuestionApp.action_move_down
      else if String.eqb name "prev_tab" then app QuestionApp.action_prev_tab
      else if String.eqb name "next_tab" then app QuestionApp.action_next_tab
      else if String.eqb name "submit" then app QuestionApp.action_submit
      else if String.eqb name "cancel" then app QuestionApp.action_cancel
      else None
  end.

(** The handler widget [n] has for message [m], if any: [on_key] for a
    key, [on_<widget>_<message>] for the others. *)
Definition handle (n : Node) (m : Message) (a : QuestionApp.t)
    : Result (QuestionApp.t * Handled * list Effect) :=
  match n, m with
  | NInput, Key k => Ok (a, EscapableInput.on_key k, [])
  | NPanel, Key k => Ok (a, QuestionPanel.on_key k, [])
  | NPanel, EscapePressed =>
      Ok (a, mkHandled false QuestionPanel.on_escapable_input_escape_pressed, [])
  | NApp, InputSubmitted =>
      '(a', es) ← QuestionApp.on_input_submitted a;
      Ok (a', mkHandled false (posts es), focuses es)
  | NApp, CancelRequested =>
      '(a', es) ← QuestionApp.on_question_panel_cancel_requested a;
      Ok (a', mkHandled false (posts es), focuses es)
  | _, _ => Ok (a, mkHandled false [], [])
  end.

(** The pending message number [k] (the last one when [k] is too
    large) and the others. *)
Fixpoint take_nth {A} (k : nat) (l : list A) {struct l}
    : option (A * list A) :=
  match l with
  | [] => None
  | x :: l' =>
      match l' with
      | [] => Some (x, [])
      | _ :: _ =>
          match k with
          | O => Some (x, l')
          | S k' => '(y, r) ← take_nth k' l'; Some (y, x :: r)
          end
      end
  end.

(** The message pump.  [queue] holds the messages still to be handled,
    each with the widget it has reached.  [sched] picks, step by step,
    which pending message is handled next, so that every order in which
    the widgets may get to run is covered.  A message a handler posts
    starts at the posting widget; a message that was not stopped moves
    on to the parent, and leaves the prompt (as a [Post] of the result)
    above the question widget.  [None]: [sched] ended with messages
    still pending. *)
Fixpoint pump (sched : list nat) (queue : list (Node * Message))
    (a : QuestionApp.t) (out : list Effect)
    : option (Result (QuestionApp.t * list Effect)) :=
  match queue with
  | [] => Some (Ok (a, out))
  | _ :: _ =>
      match sched with
      | [] => None
      | k :: sched' =>
          match take_nth k queue with
          | None => None
          | Some ((n, m), queue') =>
              match handle n m a with
              | Raise e => Some (Raise e)
              | Ok (a', h, fx) =>
                  let here := (fun m' => (n, m')) <$> posted h in
                  let up :=
                    if stopped h then []
                    else match parent n with
                         | Some p => [(p, m)]
                         | None => []
                         end in
                  let leaving :=
                    if stopped h then []
                    else match parent n with
                         | Some _ => []
                         | None => [Post m]
                         end in
                  pump sched' (queue' ++ here ++ up) a' (out ++ fx ++ leaving)
              end
          end
      end
  end.

(** The key is given to the focused widget and bubbles from there. *)
Definition forward_key (sched : list nat) (key : string) (focus : Node)
    (a : QuestionApp.t) : option (Result (QuestionApp.t * list Effect)) :=
  pump sched [(focus, Key key)] a [].

(** The first priority binding for [key] among the widgets [ns] whose
    action exists, and the outcome of that action. *)
Fixpoint check_priority (key : string) (ns : list Node) (a : QuestionApp.t)
    : option (Node * Result (QuestionApp.t * list Message * list Effect)) :=
  match ns with
  | [] => None
  | n :: ns' =>
      let found :=
        b ← List.find (fun b => String.eqb (binding_key b) key)
                      (priority_bindings n);
        run_action n (binding_action b) a in
      match found with
      | Some r => Some (n, r)
      | None => check_priority key ns' a
      end
  end.

(** A key press: priority bindings are looked up from the outermost
    widget down to the focused one and the first one found takes the
    key; otherwise the key is forwarded to the focused widget. *)
Definition press_key (sched : list nat) (key : string) (focus : Node)
    (a : QuestionApp.t) : option (Result (QuestionApp.t * list Effect)) :=
  match check_priority key (rev (chain focus)) a with
  | Some (n, Ok (a', ms, fx)) =>
      pump sched ((fun m => (n, m)) <$> ms) a' fx
  | Some (_, Raise e) => Some (Raise e)
  | None => forward_key sched key focus a
  end.

End Dispatch.

(** ** vibe/cli/textual_ui/widgets/mode_indicator.py *)

Module ModeIndicator.

Section Icons.

(** The glyphs of the three icons lie outside the character range of
    the strings used here; the table keeps its keys and takes the
    glyphs as given. *)
Variables icon_default icon_plan icon_auto_approve : string.

Definition MODE_ICONS : gmap AgentMode string :=
  <[AUTO_APPROVE := icon_auto_approve]>
  (<[PLAN := icon_plan]> (<[DEFAULT := icon_default]> ∅)).

Definition SAFETY_CLASSES : gmap ModeSafety string :=
  <[YOLO := "mode-yolo"]>
  (<[NEUTRAL := "mode-neutral"]> (<[SAFE := "mode-safe"]> ∅)).

Record t : Type := mk {
  can_focus : bool;
  _mode : AgentMode;
  static : Static
}.

Definition _update_display (self : t) : Result t :=
  let icon := default "??" (MODE_ICONS !! _mode self) in
  dn ← mode_display_name (_mode self);
  let name := py_lower dn in
  let w := update (icon +:+ " " +:+ name +:+ " mode (shift+tab to cycle)")
                  (static self) in
  let w := foldl (fun w c => remove_class c w) w
                 ((map_to_list SAFETY_CLASSES).*2) in
  sf ← mode_safety (_mode self);
  c ← py_getitem SAFETY_CLASSES sf;
  Ok (mk (can_focus self) (_mode self) (add_class c w)).

(** [mode] is [None] when the caller leaves the argument out. *)
Definition __init__ (mode : option AgentMode) : Result t :=
  _update_display (mk false (default AUTO_APPROVE mode) (mkStatic "" [])).

Definition mode (self : t) : AgentMode := _mode self.

Definition set_mode (mode : AgentMode) (self : t) : Result t :=
  _update_display (mk (can_focus self) mode (static self)).

End Icons.

End ModeIndicator.

(** ** Vocabulary of the statements *)

(** One casing of a string: the characters marked in [mask] are put in
    upper case, the others are kept. *)
Fixpoint recase (mask : list bool) (s : string) : string :=
  match s, mask with
  | String c s', b :: mask' =>
      String (if b then py_upper_ascii c else c) (recase mask' s')
  | _, _ => s
  end.

(** Every option widget has a choice to show. *)
Definition widgets_fit (p : QuestionPanel.t) : Prop :=
  (length (QuestionPanel.option_widgets p)
   <= length (QuestionPanel.choices p))%nat.

(** [n] calls of a panel method in a row. *)
Fixpoint repeat_move
    (move : QuestionPanel.t -> Result (QuestionPanel.t * list FocusTarget))
    (n : nat) (p : QuestionPanel.t) : Result QuestionPanel.t :=
  match n with
  | O => Ok p
  | S n' => '(p', _) ← move p; repeat_move move n' p'
  end.

(** A panel with two choices, as [compose] leaves it. *)
Definition example_panel : QuestionPanel.t :=
  QuestionPanel.compose
    (QuestionPanel.__init__
       (AskUser.mkQuestion "Proceed?"
          [AskUser.mkChoice "yes" None; AskUser.mkChoice "no" (Some "stop here")])
       0 2).

(** The states of a panel from its construction on: composition, mounting,
    the two moves and text edits, in any order. *)
Inductive panel_reachable (q : AskUser.Question) (idx mc : Z)
    : QuestionPanel.t -> Prop :=
  | pr_init : panel_reachable q idx mc (QuestionPanel.__init__ q idx mc)
  | pr_compose p :
      panel_reachable q idx mc p ->
      panel_reachable q idx mc (QuestionPanel.compose p)
  | pr_on_mount p p' fs :
      panel_reachable q idx mc p ->
      QuestionPanel.on_mount p = Ok (p', fs) ->
      panel_reachable q idx mc p'
  | pr_move_up p p' fs :
      panel_reachable q idx mc p ->
      QuestionPanel.move_up p = Ok (p', fs) ->
      panel_reachable q idx mc p'
  | pr_move_down p p' fs :
      panel_reachable q idx mc p ->
      QuestionPanel.move_down p = Ok (p', fs) ->
      panel_reachable q idx mc p'
  | pr_edit_text p s :
      panel_reachable q idx mc p ->
      panel_reachable q idx mc (QuestionPanel.edit_text s p).

(** The states of a panel once it is mounted: it was constructed,
    composed and has received [on_mount]; from then on it is moved, edited,
    shown, hidden and highlighted. *)
Inductive panel_mounted (q : AskUser.Question) (idx mc : Z)
    : QuestionPanel.t -> Prop :=
  | pm_mount p fs :
      QuestionPanel.on_mount
        (QuestionPanel.compose (QuestionPanel.__init__ q idx mc)) = Ok (p, fs) ->
      panel_mounted q idx mc p
  | pm_move_up p p' fs :
      panel_mounted q idx mc p ->
      QuestionPanel.move_up p = Ok (p', fs) ->
      panel_mounted q idx mc p'
  | pm_move_down p p' fs :
      panel_mounted q idx mc p ->
      QuestionPanel.move_down p = Ok (p', fs) ->
      panel_mounted q idx mc p'
  | pm_edit_text p s :
      panel_mounted q idx mc p ->
      panel_mounted q idx mc (QuestionPanel.edit_text s p)
  | pm_set_display p b :
      panel_mounted q idx mc p ->
      panel_mounted q idx mc (QuestionPanel.set_display b p)
  | pm_question_text p p' f :
      panel_mounted q idx mc p ->
      QuestionPanel.with_question_text f p = Ok p' ->
      panel_mounted q idx mc p'.

(** What holds of a mounted panel. *)
Record panel_ok (q : AskUser.Question) (p : QuestionPanel.t) : Prop := {
  ok_question : QuestionPanel.question_data p = q;
  ok_choices : QuestionPanel.choices p = AskUser.choices q;
  ok_total : QuestionPanel.total_options p
             = py_len (QuestionPanel.choices p) + 1;
  ok_selected : 0 <= QuestionPanel.selected_option p
                < QuestionPanel.total_options p;
  ok_widgets : length (QuestionPanel.option_widgets p)
               = length (QuestionPanel.choices p);
  ok_input : is_Some (QuestionPanel.text_input p);
  ok_question_text : is_Some (QuestionPanel.question_text p);
  ok_other_mode : QuestionPanel.is_other_mode p
                  = (QuestionPanel.selected_option p
                     =? py_len (QuestionPanel.choices p))
}.

(** The example panel once mounted. *)
Definition example_mounted : QuestionPanel.t :=
  match QuestionPanel.on_mount example_panel with
  | Ok (p, _) => p
  | Raise _ => example_panel
  end.

(** A panel for a question without choices, right after construction. *)
Definition fresh_panel_no_choices : QuestionPanel.t :=
  QuestionPanel.__init__ (AskUser.mkQuestion "Anything else?" []) 0 6.

(** The free-text buffer of a panel: the value of its input, empty as long
    as the panel has no input. *)
Definition other_text (p : QuestionPanel.t) : string :=
  match QuestionPanel.text_input p with
  | Some inp => value inp
  | None => ""
  end.

(** The same panel with other descriptions on its choices. *)
Definition redescribe (f : AskUser.Choice -> option string)
    (p : QuestionPanel.t) : QuestionPanel.t :=
  QuestionPanel.mk
    (QuestionPanel.question_data p) (QuestionPanel.index p)
    ((fun c => AskUser.mkChoice (AskUser.label c) (f c))
       <$> QuestionPanel.choices p)
    (QuestionPanel.max_choices p) (QuestionPanel.selected_option p)
    (QuestionPanel.total_options p) (QuestionPanel.option_widgets p)
    (QuestionPanel.text_input p) (QuestionPanel.other_cursor p)
    (QuestionPanel.is_other_mode p) (QuestionPanel.question_text p)
    (QuestionPanel.padding p) (QuestionPanel.display p).

Fixpoint all_space (s : string) : bool :=
  match s with
  | EmptyString => true
  | String c s' => py_isspace c && all_space s'
  end.

Definition starts_with_space (s : string) : bool :=
  match s with
  | EmptyString => false
  | String c _ => py_isspace c
  end.

Fixpoint ends_with_space (s : string) : bool :=
  match s with
  | EmptyString => false
  | String c EmptyString => py_isspace c
  | String _ s' => ends_with_space s'
  end.

(** A panel whose selection and free-text line are as mounting left
    them. *)
Definition pristine (p : QuestionPanel.t) : Prop :=
  QuestionPanel.selected_option p = 0
  /\ QuestionPanel.text_input p
     = Some (EscapableInput.__init__ "_" "question-other-input").

(** Two states of a panel that differ at most in what the question widget
    sets from outside: whether it is displayed and how its question text is
    styled. *)
Definition cosmetic (p p' : QuestionPanel.t) : Prop :=
  QuestionPanel.question_data p' = QuestionPanel.question_data p
  /\ QuestionPanel.index p' = QuestionPanel.index p
  /\ QuestionPanel.choices p' = QuestionPanel.choices p
  /\ QuestionPanel.selected_option p' = QuestionPanel.selected_option p
  /\ QuestionPanel.total_options p' = QuestionPanel.total_options p
  /\ QuestionPanel.option_widgets p' = QuestionPanel.option_widgets p
  /\ QuestionPanel.text_input p' = QuestionPanel.text_input p
  /\ QuestionPanel.is_other_mode p' = QuestionPanel.is_other_mode p
  /\ (is_Some (QuestionPanel.question_text p)
      -> is_Some (QuestionPanel.question_text p')).

(** What holds of the question widget once it is mounted. *)
Record session_ok (a : QuestionApp.t) : Prop := {
  so_panels : Forall2 panel_ok (QuestionApp.questions a)
                               (QuestionApp.panel_widgets a);
  so_tabs : QuestionApp.tab_widgets a = []
            \/ length (QuestionApp.tab_widgets a)
               = length (QuestionApp.panel_widgets a);
  so_current : 0 <= QuestionApp.current_tab a
               /\ (QuestionApp.current_tab a
                   < py_len (QuestionApp.panel_widgets a)
                   \/ QuestionApp.current_tab a = 0)
}.

(** Tab [i] is not the current one at any point of the run of [cs] from
    [a]. *)
Fixpoint unvisited (i : Z) (cs : list Session.Command) (a : QuestionApp.t)
    : bool :=
  negb (QuestionApp.current_tab a =? i)
  && match cs with
     | [] => true
     | c :: cs' =>
         match Session.step c a with
         | Ok (a', _) => unvisited i cs' a'
         | Raise _ => true
         end
     end.

(** The record an untouched panel contributes for its question. *)
Definition default_answer (q : AskUser.Question) : string * string * bool :=
  match AskUser.choices q with
  | c :: _ => (AskUser.question q, AskUser.label c, false)
  | [] => (AskUser.question q, "", true)
  end.

(** [n] calls of an action of the question widget in a row. *)
Fixpoint repeat_action
    (act : QuestionApp.t -> Result (QuestionApp.t * list Effect))
    (n : nat) (a : QuestionApp.t) : Result QuestionApp.t :=
  match n with
  | O => Ok a
  | S n' => '(a', _) ← act a; repeat_action act n' a'
  end.

(** The two questions of the end-to-end example. *)
Definition example_args : AskUser.AskUserArgs :=
  AskUser.mkArgs
    [ AskUser.mkQuestion "Q1 text"
        [AskUser.mkChoice "yes" None; AskUser.mkChoice "no" None];
      AskUser.mkQuestion "Q2 text" [] ].

(** A mounted panel without choices in which the operator typed
    ["  hi  "]. *)
Definition example_other : QuestionPanel.t :=
  match QuestionPanel.on_mount
          (QuestionPanel.compose
             (QuestionPanel.__init__ (AskUser.mkQuestion "Anything else?" []) 0 2))
  with
  | Ok (p, _) => QuestionPanel.edit_text "  hi  " p
  | Raise _ => fresh_panel_no_choices
  end.

(** The example prompt once mounted, and after two commands. *)
Definition example_started : QuestionApp.t * list Effect :=
  match Session.start example_args with
  | Ok r => r
  | Raise _ => (QuestionApp.__init__ example_args, [])
  end.

Definition example_commands : list Session.Command :=
  [Session.NextTab; Session.MoveDown].

Definition example_state : QuestionApp.t * list Effect :=
  match Session.run example_commands example_started.1 with
  | Ok r => r
  | Raise _ => example_started
  end.

(** The class names of the safety tiers, as iterating the values of
    [SAFETY_CLASSES] yields them. *)
Definition safety_class_names : list string :=
  (map_to_list ModeIndicator.SAFETY_CLASSES).*2.

(** The focus request a move issues on a mounted panel with [len]
    choices, from the selection before and after it: to the free-text input
    when the selection is on it afterwards, back to the panel when the
    selection has just left it, none otherwise. *)
Definition focus_directive (len before after : Z) : list FocusTarget :=
  if after =? len then [FocusTextInput]
  else if before =? len then [FocusPanel]
  else [].

(** A panel that is drawn for its current selection: redrawing the option
    widgets gives them back unchanged, and the cursor of the free-text line
    is the one for the selection. *)
Definition panel_stable (p : QuestionPanel.t) : Prop :=
  QuestionPanel.update_option_widgets (QuestionPanel.choices p)
    (QuestionPanel.selected_option p) 0 (QuestionPanel.option_widgets p)
  = Ok (QuestionPanel.option_widgets p)
  /\ exists oc,
       QuestionPanel.other_cursor p = Some oc
       /\ renderable oc
          = (if QuestionPanel.selected_option p
                =? py_len (QuestionPanel.choices p)
             then "> " else "  ").

(** The padding [compose] gives a panel with [len] choices when the largest
    question has [mc]. *)
Definition padding_for (mc len : Z) : option Static :=
  if 0 <? mc - len
  then Some (mkStatic (py_repeat newline (mc - len - 1)) ["question-padding"])
  else None.

(** The question text of a panel restyled by [f]. *)
Definition restyle (f : Static -> Static) (p : QuestionPanel.t)
    : QuestionPanel.t :=
  QuestionPanel.set_question_text (f <$> QuestionPanel.question_text p) p.

(** The classes of a question text and of a tab, highlighted or not. *)
Definition question_text_classes (active : bool) : list string :=
  if active then ["question-text"; "question-text-active"]
  else ["question-text"].

Definition tab_classes (active : bool) : list string :=
  if active then ["question-tab"; "question-tab-active"]
  else ["question-tab"].

(** Panel number [i] as the question widget keeps it while tab [cur] is the
    current one. *)
Definition panel_view (cur mcs : Z) (i : nat) (p : QuestionPanel.t) : Prop :=
  QuestionPanel.index p = Z.of_nat i
  /\ QuestionPanel.display p = (Z.of_nat i =? cur)
  /\ QuestionPanel.question_text p
     = Some (mkStatic (AskUser.question (QuestionPanel.question_data p))
               (question_text_classes (Z.of_nat i =? cur)))
  /\ QuestionPanel.max_choices p = mcs
  /\ QuestionPanel.padding p
     = padding_for mcs (py_len (QuestionPanel.choices p)).

(** Tab number [i] while tab [cur] is the current one. *)
Definition tab_view (cur : Z) (i : nat) (t : QuestionTab.t) : Prop :=
  t = QuestionTab.mk ("Q" +:+ pretty (Z.of_nat i + 1)) (Z.of_nat i)
        (Z.of_nat i =? cur)
        (mkStatic ("Q" +:+ pretty (Z.of_nat i + 1))
           (tab_classes (Z.of_nat i =? cur))).

(** What the mounted question widget shows. *)
Record session_view (a : QuestionApp.t) : Prop := {
  sv_ok : session_ok a;
  sv_panels : forall (i : nat) p,
      QuestionApp.panel_widgets a !! i = Some p ->
      panel_view (QuestionApp.current_tab a) (QuestionApp.max_choices a) i p;
  sv_tabs : forall (i : nat) t,
      QuestionApp.tab_widgets a !! i = Some t ->
      tab_view (QuestionApp.current_tab a) i t;
  sv_tab_count :
      length (QuestionApp.tab_widgets a)
      = if 1 <? py_len (QuestionApp.questions a)
        then length (QuestionApp.questions a) else 0%nat;
  sv_max : QuestionApp.max_choices a
           = QuestionApp.initial_max_choices (QuestionApp.questions a)
}.

(** Two states of a panel that agree on everything the question widget
    lays out: position, visibility, question text, padding, choices. *)
Definition same_frame (p p' : QuestionPanel.t) : Prop :=
  QuestionPanel.question_data p' = QuestionPanel.question_data p
  /\ QuestionPanel.index p' = QuestionPanel.index p
  /\ QuestionPanel.choices p' = QuestionPanel.choices p
  /\ QuestionPanel.max_choices p' = QuestionPanel.max_choices p
  /\ QuestionPanel.question_text p' = QuestionPanel.question_text p
  /\ QuestionPanel.padding p' = QuestionPanel.padding p
  /\ QuestionPanel.display p' = QuestionPanel.display p.

(** The panels [compose] creates for the questions [qs]. *)
Definition fresh_panels (qs : list AskUser.Question) : list QuestionPanel.t :=
  imap (fun i q =>
          QuestionPanel.set_display (Z.of_nat i =? 0)
            (QuestionPanel.__init__ q (Z.of_nat i)
               (QuestionApp.initial_max_choices qs))) qs.

(** The tabs [compose] creates for the questions [qs]. *)
Definition fresh_tabs (qs : list AskUser.Question) : list QuestionTab.t :=
  if 1 <? py_len qs
  then imap (fun i _ =>
               QuestionTab.__init__ ("Q" +:+ pretty (Z.of_nat i + 1))
                 (Z.of_nat i) (Z.of_nat i =? 0)) qs
  else [].

(** * Properties *)

(** ** Python helpers *)

Lemma py_mod_ok (a b : Z) : b <> 0 -> py_mod a b = Ok (a `mod` b).
Proof.
  intros Hb. unfold py_mod.
  destruct (Z.eqb_spec b 0) as [->|_]; [contradiction | reflexivity].
Qed.

Lemma py_norm_in_range (n i : Z) :
  0 <= i < n -> py_norm n i = Some (Z.to_nat i).
Proof.
  intros [H0 Hn]. unfold py_norm.
  destruct (Z.leb_spec 0 i); [|lia].
  destruct (Z.ltb_spec i n); [reflexivity | lia].
Qed.

Lemma py_get_in_range {A} (l : list A) (i : Z) :
  0 <= i < py_len l ->
  exists x, l !! Z.to_nat i = Some x /\ py_get l i = Ok x.
Proof.
  intros Hi. unfold py_get. rewrite py_norm_in_range by exact Hi.
  destruct (l !! Z.to_nat i) as [x|] eqn:Hx.
  - exists x. split; reflexivity.
  - apply lookup_ge_None in Hx. unfold py_len in Hi. lia.
Qed.

(** ** Modes *)

Lemma mode_config_total (m : AgentMode) :
  exists c, MODE_CONFIGS !! m = Some c.
Proof. destruct m; eexists; vm_compute; reflexivity. Qed.

Lemma enum_call_spec (v : string) :
  (exists m, AgentModeEnum.value m = v /\ AgentModeEnum.call v = Ok m)
  \/ ((forall m, AgentModeEnum.value m <> v)
      /\ AgentModeEnum.call v = Raise ValueError).
Proof.
  unfold AgentModeEnum.call, AgentModeEnum.members. cbn [AgentModeEnum.lookup_value].
  destruct (String.eqb_spec (AgentModeEnum.value DEFAULT) v) as [E1|N1];
    [left; exists DEFAULT; auto|].
  destruct (String.eqb_spec (AgentModeEnum.value AUTO_APPROVE) v) as [E2|N2];
    [left; exists AUTO_APPROVE; auto|].
  destruct (String.eqb_spec (AgentModeEnum.value PLAN) v) as [E3|N3];
    [left; exists PLAN; auto|].
  right. split; [intros []; assumption | reflexivity].
Qed.

Lemma enum_value_inj (m1 m2 : AgentMode) :
  AgentModeEnum.value m1 = AgentModeEnum.value m2 -> m1 = m2.
Proof. destruct m1, m2; vm_compute; congruence. Qed.

Lemma from_string_spec (s : string) (m : AgentMode) :
  from_string s = Ok (Some m) <-> py_lower s = AgentModeEnum.value m.
Proof.
  unfold from_string.
  destruct (enum_call_spec (py_lower s)) as [(m' & Hv & ->)|[Hn ->]].
  - split.
    + intros [= ->]. symmetry. exact Hv.
    + intros H. rewrite H in Hv. apply enum_value_inj in Hv. congruence.
  - split; [discriminate|]. intros H. symmetry in H. destruct (Hn m H).
Qed.

Lemma lower_upper_char (c : ascii) :
  py_lower_char c = c -> py_lower_char (py_upper_ascii c) = c.
Proof.
  destruct c as [[] [] [] [] [] [] [] []]; vm_compute; congruence.
Qed.

Lemma lower_recase (mask : list bool) (s : string) :
  py_lower s = s -> py_lower (recase mask s) = s.
Proof.
  revert mask. induction s as [|c s IH]; intros mask Hs.
  - destruct mask; reflexivity.
  - cbn [py_lower] in Hs. injection Hs as Hc Hs'.
    destruct mask as [|b mask]; cbn [recase py_lower].
    + rewrite Hc, Hs'. reflexivity.
    + rewrite (IH mask Hs'). destruct b.
      * rewrite lower_upper_char by exact Hc. reflexivity.
      * rewrite Hc. reflexivity.
Qed.

(** C5. [next_mode] follows the fixed order AUTO_APPROVE, PLAN, DEFAULT,
    which is not the declaration order of the variants: it yields the
    successor modulo 3 in that order, so AUTO_APPROVE goes to PLAN, PLAN to
    DEFAULT, DEFAULT to AUTO_APPROVE, and three applications lead back to
    the mode one started from. *)
Theorem next_mode_cycle :
  get_mode_order = [AUTO_APPROVE; PLAN; DEFAULT]
  /\ get_mode_order <> AgentModeEnum.members
  /\ next_mode AUTO_APPROVE = Ok PLAN
  /\ next_mode PLAN = Ok DEFAULT
  /\ next_mode DEFAULT = Ok AUTO_APPROVE
  /\ (forall m : AgentMode,
        (m1 ← next_mode m; m2 ← next_mode m1; next_mode m2) = Ok m)
  /\ (forall m : AgentMode, exists (i : nat) (m' : AgentMode),
        get_mode_order !! i = Some m
        /\ next_mode m = Ok m'
        /\ get_mode_order !! ((i + 1) mod 3)%nat = Some m').
Proof.
  repeat split; try reflexivity.
  - discriminate.
  - intros []; reflexivity.
  - intros [].
    + exists 2%nat, AUTO_APPROVE. repeat split; reflexivity.
    + exists 0%nat, PLAN. repeat split; reflexivity.
    + exists 1%nat, DEFAULT. repeat split; reflexivity.
Qed.

(** C7. [from_string] never raises; it returns the variant for every
    casing of a variant name (and, more generally, exactly for the strings
    whose lower-cased form is a variant's value), so strings that differ
    only in case parse alike; for a string that matches no variant name it
    returns [None]. *)
Theorem from_string_total_case_insensitive :
  (forall s : string, exists r, from_string s = Ok r)
  /\ (forall (m : AgentMode) (mask : list bool),
        from_string (recase mask (AgentModeEnum.value m)) = Ok (Some m)
        /\ from_string (recase mask (AgentModeEnum.name m)) = Ok (Some m))
  /\ (forall s1 s2 : string,
        py_lower s1 = py_lower s2 -> from_string s1 = from_string s2)
  /\ (forall (s : string) (m : AgentMode),
        from_string s = Ok (Some m) <-> py_lower s = AgentModeEnum.value m)
  /\ (forall s : string,
        (forall m, py_lower s <> AgentModeEnum.value m) ->
        from_string s = Ok None)
  /\ from_string "plan" = Ok (Some PLAN)
  /\ from_string "PLAN" = Ok (Some PLAN)
  /\ from_string "bogus" = Ok None.
Proof.
  split; [|split; [|split; [|split; [|split]]]].
  - intros s. unfold from_string.
    destruct (enum_call_spec (py_lower s)) as [(m & _ & ->)|[_ ->]]; eauto.
  - intros m mask. split.
    + apply from_string_spec, lower_recase. destruct m; reflexivity.
    + apply from_string_spec.
      assert (Hn : forall s t, py_lower t = t -> py_lower s = t ->
                               py_lower (recase mask s) = t).
      { clear. intros s t. revert mask t.
        induction s as [|c s IH]; intros mask t Ht Hs.
        - destruct mask; exact Hs.
        - destruct mask as [|b mask]; [exact Hs|].
          cbn [py_lower] in Hs. subst t. cbn [py_lower] in Ht.
          injection Ht as Hc Ht.
          cbn [recase py_lower]. rewrite (IH mask _ Ht eq_refl).
          destruct b; [|reflexivity].
          f_equal. clear.
          destruct c as [[] [] [] [] [] [] [] []]; vm_compute; reflexivity. }
      apply Hn; destruct m; reflexivity.
  - intros s1 s2 H. unfold from_string. rewrite H. reflexivity.
  - exact from_string_spec.
  - intros s Hn. unfold from_string.
    destruct (enum_call_spec (py_lower s)) as [(m & Hv & _)|[_ ->]].
    + destruct (Hn m). symmetry. exact Hv.
    + reflexivity.
  - repeat split; reflexivity.
Qed.

Lemma from_string_witness :
  (forall m, py_lower "bogus" <> AgentModeEnum.value m)
  /\ from_string "bogus" = Ok None.
Proof.
  assert (H : forall m, py_lower "bogus" <> AgentModeEnum.value m).
  { intros []; vm_compute; discriminate. }
  split; [exact H|].
  destruct from_string_total_case_insensitive as (_ & _ & _ & _ & Hnone & _).
  exact (Hnone "bogus" H).
Defined.

(** C9. The mode table has an entry for each of the three variants and for
    nothing else, so a lookup cannot fail; PLAN's overrides are exactly the
    entry [enabled_tools] holding the fixed list grep, read_file, todo, and
    DEFAULT and AUTO_APPROVE have no overrides. *)
Theorem mode_registry_total :
  (forall m : AgentMode, exists c,
      MODE_CONFIGS !! m = Some c /\ py_getitem MODE_CONFIGS m = Ok c)
  /\ size MODE_CONFIGS = 3%nat
  /\ PLAN_MODE_TOOLS = ["grep"; "read_file"; "todo"]
  /\ mode_config_overrides PLAN
     = Ok {[ "enabled_tools" := VStrList ["grep"; "read_file"; "todo"] ]}
  /\ mode_config_overrides DEFAULT = Ok ∅
  /\ mode_config_overrides AUTO_APPROVE = Ok ∅.
Proof.
  split; [|repeat split; vm_compute; reflexivity].
  intros m. destruct (mode_config_total m) as [c Hc].
  exists c. split; [exact Hc|]. unfold py_getitem. rewrite Hc. reflexivity.
Qed.

(** C10. A mode indicator built without a mode argument shows
    AUTO_APPROVE and not DEFAULT; AUTO_APPROVE approves tools by itself, is
    the only mode of the YOLO tier and the only auto-approving mode without
    a restriction on the tools. *)
Theorem mode_indicator_default_mode (icon_default icon_plan icon_auto : string) :
  (exists w,
      ModeIndicator.__init__ icon_default icon_plan icon_auto None = Ok w
      /\ ModeIndicator.mode w = AUTO_APPROVE
      /\ ModeIndicator.mode w <> DEFAULT)
  /\ mode_auto_approve AUTO_APPROVE = Ok true
  /\ mode_safety AUTO_APPROVE = Ok YOLO
  /\ (forall m, mode_safety m = Ok YOLO <-> m = AUTO_APPROVE)
  /\ (forall m, mode_auto_approve m = Ok true
                /\ mode_config_overrides m = Ok ∅ <-> m = AUTO_APPROVE).
Proof.
  split; [|split; [reflexivity|split; [reflexivity|split]]].
  - unfold ModeIndicator.__init__, ModeIndicator._update_display.
    cbn [default ModeIndicator._mode].
    eexists. split; [vm_compute; reflexivity|].
    split; [reflexivity | discriminate].
  - intros []; vm_compute; split; congruence.
  - intros m. split.
    + intros [H1 H2]. destruct m; [discriminate H1 | reflexivity |].
      apply (f_equal (fun r => match r with
                               | Ok d => d !! "enabled_tools"
                               | Raise _ => None
                               end)) in H2.
      vm_compute in H2. discriminate H2.
    + intros ->. split; reflexivity.
Qed.

(** ** Panels *)

Lemma update_option_widgets_ok (cs : list AskUser.Choice) (sel : Z)
    (ws : list Static) (idx : Z) :
  0 <= idx -> idx + py_len ws <= py_len cs ->
  exists ws', QuestionPanel.update_option_widgets cs sel idx ws = Ok ws'
              /\ length ws' = length ws.
Proof.
  revert idx. induction ws as [|w ws IH]; intros idx H0 Hfit.
  - exists []. split; reflexivity.
  - unfold py_len in Hfit. cbn [length] in Hfit.
    destruct (py_get_in_range cs idx) as (c & _ & Hc);
      [unfold py_len; lia|].
    destruct (IH (idx + 1)) as (ws' & Hws & Hlen);
      [lia | unfold py_len; lia |].
    cbn [QuestionPanel.update_option_widgets].
    rewrite Hc. cbn [mbind Result_bind]. rewrite Hws.
    eexists. split; [reflexivity|]. cbn [length]. rewrite Hlen. reflexivity.
Qed.

(** What [_update_options] changes: the option widgets are redrawn, the
    cursor of the free-text line too, and [is_other_mode] is brought up to
    date when the input exists. *)
Lemma _update_options_spec (p : QuestionPanel.t) :
  widgets_fit p ->
  exists ws oc fs,
    length ws = length (QuestionPanel.option_widgets p)
    /\ QuestionPanel._update_options p
       = Ok (QuestionPanel.mk
               (QuestionPanel.question_data p) (QuestionPanel.index p)
               (QuestionPanel.choices p) (QuestionPanel.max_choices p)
               (QuestionPanel.selected_option p)
               (QuestionPanel.total_options p) ws
               (QuestionPanel.text_input p) oc
               (match QuestionPanel.text_input p with
                | Some _ => QuestionPanel.selected_option p
                            =? py_len (QuestionPanel.choices p)
                | None => QuestionPanel.is_other_mode p
                end)
               (QuestionPanel.question_text p) (QuestionPanel.padding p)
               (QuestionPanel.display p), fs).
Proof.
  intros Hfit. unfold widgets_fit in Hfit.
  destruct (update_option_widgets_ok (QuestionPanel.choices p)
              (QuestionPanel.selected_option p)
              (QuestionPanel.option_widgets p) 0) as (ws & Hws & Hlen);
    [lia | unfold py_len; lia |].
  unfold QuestionPanel._update_options. rewrite Hws.
  destruct p as [qd ix cs mc sel tot ows ti oc om qt pd dp].
  cbn in *.
  destruct oc as [c|], ti as [i|]; cbn;
    destruct (sel =? py_len cs); cbn; try destruct om; cbn;
    eexists _, _, _; (split; [exact Hlen | reflexivity]).
Qed.

Lemma move_down_spec (p : QuestionPanel.t) :
  QuestionPanel.total_options p <> 0 -> widgets_fit p ->
  exists ws oc fs,
    length ws = length (QuestionPanel.option_widgets p)
    /\ QuestionPanel.move_down p
       = Ok (QuestionPanel.mk
               (QuestionPanel.question_data p) (QuestionPanel.index p)
               (QuestionPanel.choices p) (QuestionPanel.max_choices p)
               ((QuestionPanel.selected_option p + 1)
                  `mod` QuestionPanel.total_options p)
               (QuestionPanel.total_options p) ws
               (QuestionPanel.text_input p) oc
               (match QuestionPanel.text_input p with
                | Some _ => (QuestionPanel.selected_option p + 1)
                              `mod` QuestionPanel.total_options p
                            =? py_len (QuestionPanel.choices p)
                | None => QuestionPanel.is_other_mode p
                end)
               (QuestionPanel.question_text p) (QuestionPanel.padding p)
               (QuestionPanel.display p), fs).
Proof.
  intros Hk Hfit. unfold QuestionPanel.move_down.
  rewrite py_mod_ok by exact Hk. cbn [mbind Result_bind].
  apply (_update_options_spec
           (QuestionPanel.set_selected_option _ p)). exact Hfit.
Qed.

Lemma move_up_spec (p : QuestionPanel.t) :
  QuestionPanel.total_options p <> 0 -> widgets_fit p ->
  exists ws oc fs,
    length ws = length (QuestionPanel.option_widgets p)
    /\ QuestionPanel.move_up p
       = Ok (QuestionPanel.mk
               (QuestionPanel.question_data p) (QuestionPanel.index p)
               (QuestionPanel.choices p) (QuestionPanel.max_choices p)
               ((QuestionPanel.selected_option p - 1)
                  `mod` QuestionPanel.total_options p)
               (QuestionPanel.total_options p) ws
               (QuestionPanel.text_input p) oc
               (match QuestionPanel.text_input p with
                | Some _ => (QuestionPanel.selected_option p - 1)
                              `mod` QuestionPanel.total_options p
                            =? py_len (QuestionPanel.choices p)
                | None => QuestionPanel.is_other_mode p
                end)
               (QuestionPanel.question_text p) (QuestionPanel.padding p)
               (QuestionPanel.display p), fs).
Proof.
  intros Hk Hfit. unfold QuestionPanel.move_up.
  rewrite py_mod_ok by exact Hk. cbn [mbind Result_bind].
  apply (_update_options_spec
           (QuestionPanel.set_selected_option _ p)). exact Hfit.
Qed.

Lemma repeat_move_down (n : nat) (p : QuestionPanel.t) :
  0 < QuestionPanel.total_options p -> widgets_fit p ->
  exists p',
    repeat_move QuestionPanel.move_down n p = Ok p'
    /\ QuestionPanel.total_options p' = QuestionPanel.total_options p
    /\ (n <> O ->
        QuestionPanel.selected_option p'
        = (QuestionPanel.selected_option p + Z.of_nat n)
            `mod` QuestionPanel.total_options p).
Proof.
  revert p. induction n as [|n IH]; intros p Hk Hfit.
  - exists p. repeat split; try reflexivity; congruence.
  - destruct (move_down_spec p) as (ws & oc & fs & Hlen & Hmove);
      [lia | exact Hfit |].
    cbn [repeat_move]. rewrite Hmove. cbn [mbind Result_bind].
    match goal with |- context [repeat_move _ n ?q] =>
      destruct (IH q) as (p' & Hrun & Htot & Hsel) end.
    { exact Hk. }
    { unfold widgets_fit in *. cbn. lia. }
    exists p'. split; [exact Hrun|]. cbn in Htot, Hsel.
    split; [exact Htot|]. intros _.
    destruct n as [|n'].
    + cbn in Hrun. injection Hrun as <-. reflexivity.
    + rewrite Hsel by discriminate.
      rewrite Z.add_mod_idemp_l by lia. f_equal. lia.
Qed.

Lemma repeat_move_up (n : nat) (p : QuestionPanel.t) :
  0 < QuestionPanel.total_options p -> widgets_fit p ->
  exists p',
    repeat_move QuestionPanel.move_up n p = Ok p'
    /\ QuestionPanel.total_options p' = QuestionPanel.total_options p
    /\ (n <> O ->
        QuestionPanel.selected_option p'
        = (QuestionPanel.selected_option p - Z.of_nat n)
            `mod` QuestionPanel.total_options p).
Proof.
  revert p. induction n as [|n IH]; intros p Hk Hfit.
  - exists p. repeat split; try reflexivity; congruence.
  - destruct (move_up_spec p) as (ws & oc & fs & Hlen & Hmove);
      [lia | exact Hfit |].
    cbn [repeat_move]. rewrite Hmove. cbn [mbind Result_bind].
    match goal with |- context [repeat_move _ n ?q] =>
      destruct (IH q) as (p' & Hrun & Htot & Hsel) end.
    { exact Hk. }
    { unfold widgets_fit in *. cbn. lia. }
    exists p'. split; [exact Hrun|]. cbn in Htot, Hsel.
    split; [exact Htot|]. intros _.
    destruct n as [|n'].
    + cbn in Hrun. injection Hrun as <-. reflexivity.
    + rewrite Hsel by discriminate.
      rewrite Zminus_mod_idemp_l. f_equal. lia.
Qed.

(** What a successful redraw and a successful move leave of the
    selection, whatever the option widgets are. *)
Lemma _update_options_inv (p p' : QuestionPanel.t) (fs : list FocusTarget) :
  QuestionPanel._update_options p = Ok (p', fs) ->
  QuestionPanel.selected_option p' = QuestionPanel.selected_option p
  /\ QuestionPanel.total_options p' = QuestionPanel.total_options p.
Proof.
  unfold QuestionPanel._update_options.
  destruct (QuestionPanel.update_option_widgets _ _ _ _) as [ws|e];
    [|discriminate].
  destruct p as [qd ix cs mc sel tot ows ti oc om qt pd dp].
  cbn.
  destruct oc as [c|], ti as [i|]; cbn;
    destruct (sel =? py_len cs); cbn; try destruct om; cbn;
    intros H; injection H as <- _; split; reflexivity.
Qed.

Lemma move_down_inv (p p' : QuestionPanel.t) (fs : list FocusTarget) :
  QuestionPanel.move_down p = Ok (p', fs) ->
  QuestionPanel.total_options p <> 0
  /\ QuestionPanel.total_options p' = QuestionPanel.total_options p
  /\ QuestionPanel.selected_option p'
     = (QuestionPanel.selected_option p + 1)
         `mod` QuestionPanel.total_options p.
Proof.
  unfold QuestionPanel.move_down, py_mod.
  destruct (Z.eqb_spec (QuestionPanel.total_options p) 0) as [|Hk];
    [discriminate|].
  cbn [mbind Result_bind]. intros H.
  apply _update_options_inv in H. cbn in H. destruct H as [Hs Ht]. auto.
Qed.

Lemma move_up_inv (p p' : QuestionPanel.t) (fs : list FocusTarget) :
  QuestionPanel.move_up p = Ok (p', fs) ->
  QuestionPanel.total_options p <> 0
  /\ QuestionPanel.total_options p' = QuestionPanel.total_options p
  /\ QuestionPanel.selected_option p'
     = (QuestionPanel.selected_option p - 1)
         `mod` QuestionPanel.total_options p.
Proof.
  unfold QuestionPanel.move_up, py_mod.
  destruct (Z.eqb_spec (QuestionPanel.total_options p) 0) as [|Hk];
    [discriminate|].
  cbn [mbind Result_bind]. intros H.
  apply _update_options_inv in H. cbn in H. destruct H as [Hs Ht]. auto.
Qed.

Lemma repeat_move_down_inv (n : nat) (p p' : QuestionPanel.t) :
  repeat_move QuestionPanel.move_down n p = Ok p' ->
  QuestionPanel.total_options p' = QuestionPanel.total_options p
  /\ (n <> O ->
      QuestionPanel.selected_option p'
      = (QuestionPanel.selected_option p + Z.of_nat n)
          `mod` QuestionPanel.total_options p).
Proof.
  revert p. induction n as [|n IH]; intros p H.
  - cbn in H. injection H as <-. split; [reflexivity | congruence].
  - cbn [repeat_move] in H.
    destruct (QuestionPanel.move_down p) as [[p1 fs]|e] eqn:E1; [|discriminate].
    cbn [mbind Result_bind] in H.
    destruct (move_down_inv _ _ _ E1) as (Hk & Ht1 & Hs1).
    destruct (IH p1 H) as (Ht & Hs).
    split; [congruence|]. intros _.
    destruct n as [|n'].
    + cbn in H. injection H as <-. exact Hs1.
    + rewrite Hs by discriminate. rewrite Ht1, Hs1.
      rewrite Z.add_mod_idemp_l by exact Hk. f_equal. lia.
Qed.

Lemma repeat_move_up_inv (n : nat) (p p' : QuestionPanel.t) :
  repeat_move QuestionPanel.move_up n p = Ok p' ->
  QuestionPanel.total_options p' = QuestionPanel.total_options p
  /\ (n <> O ->
      QuestionPanel.selected_option p'
      = (QuestionPanel.selected_option p - Z.of_nat n)
          `mod` QuestionPanel.total_options p).
Proof.
  revert p. induction n as [|n IH]; intros p H.
  - cbn in H. injection H as <-. split; [reflexivity | congruence].
  - cbn [repeat_move] in H.
    destruct (QuestionPanel.move_up p) as [[p1 fs]|e] eqn:E1; [|discriminate].
    cbn [mbind Result_bind] in H.
    destruct (move_up_inv _ _ _ E1) as (Hk & Ht1 & Hs1).
    destruct (IH p1 H) as (Ht & Hs).
    split; [congruence|]. intros _.
    destruct n as [|n'].
    + cbn in H. injection H as <-. exact Hs1.
    + rewrite Hs by discriminate. rewrite Ht1, Hs1.
      rewrite Zminus_mod_idemp_l. f_equal. lia.
Qed.

(** C4. On a panel with [total_options = k > 0] whose selection starts in
    [0, k), [n] calls of [move_down] that succeed leave the selection at
    [(start + n) mod k], [n] calls of [move_up] at [(start - n) mod k]; the
    selection stays in [0, k), and with [k = 1] (no choices) it stays 0. *)
Theorem move_wraps_modulo (p pd pu : QuestionPanel.t) (n : nat) :
  0 < QuestionPanel.total_options p ->
  0 <= QuestionPanel.selected_option p < QuestionPanel.total_options p ->
  repeat_move QuestionPanel.move_down n p = Ok pd ->
  repeat_move QuestionPanel.move_up n p = Ok pu ->
  QuestionPanel.selected_option pd
  = (QuestionPanel.selected_option p + Z.of_nat n)
      `mod` QuestionPanel.total_options p
  /\ QuestionPanel.selected_option pu
     = (QuestionPanel.selected_option p - Z.of_nat n)
         `mod` QuestionPanel.total_options p
  /\ 0 <= QuestionPanel.selected_option pd < QuestionPanel.total_options pd
  /\ 0 <= QuestionPanel.selected_option pu < QuestionPanel.total_options pu
  /\ (QuestionPanel.total_options p = 1 ->
      QuestionPanel.selected_option pd = 0
      /\ QuestionPanel.selected_option pu = 0).
Proof.
  intros Hk Hsel Hd Hu.
  destruct (repeat_move_down_inv n p pd Hd) as (Htd & Hsd).
  destruct (repeat_move_up_inv n p pu Hu) as (Htu & Hsu).
  assert (Ed : QuestionPanel.selected_option pd
               = (QuestionPanel.selected_option p + Z.of_nat n)
                   `mod` QuestionPanel.total_options p).
  { destruct n as [|n']; [|apply Hsd; discriminate].
    cbn in Hd. injection Hd as <-.
    rewrite Z.add_0_r, Z.mod_small by exact Hsel. reflexivity. }
  assert (Eu : QuestionPanel.selected_option pu
               = (QuestionPanel.selected_option p - Z.of_nat n)
                   `mod` QuestionPanel.total_options p).
  { destruct n as [|n']; [|apply Hsu; discriminate].
    cbn in Hu. injection Hu as <-.
    rewrite Z.sub_0_r, Z.mod_small by exact Hsel. reflexivity. }
  split; [exact Ed|]. split; [exact Eu|].
  split; [rewrite Ed, Htd; apply Z.mod_pos_bound; exact Hk|].
  split; [rewrite Eu, Htu; apply Z.mod_pos_bound; exact Hk|].
  intros H1. rewrite Ed, Eu, H1, !Z.mod_1_r. split; reflexivity.
Qed.

Lemma move_wraps_modulo_witness :
  exists pd pu,
    repeat_move QuestionPanel.move_down 4 example_panel = Ok pd
    /\ repeat_move QuestionPanel.move_up 4 example_panel = Ok pu
    /\ QuestionPanel.selected_option pd
       = (QuestionPanel.selected_option example_panel + Z.of_nat 4)
           `mod` QuestionPanel.total_options example_panel
    /\ QuestionPanel.selected_option pu
       = (QuestionPanel.selected_option example_panel - Z.of_nat 4)
           `mod` QuestionPanel.total_options example_panel
    /\ 0 <= QuestionPanel.selected_option pd < QuestionPanel.total_options pd
    /\ 0 <= QuestionPanel.selected_option pu < QuestionPanel.total_options pu
    /\ (QuestionPanel.total_options example_panel = 1 ->
        QuestionPanel.selected_option pd = 0
        /\ QuestionPanel.selected_option pu = 0).
Proof.
  eexists _, _.
  split; [vm_compute; reflexivity|]. split; [vm_compute; reflexivity|].
  apply (move_wraps_modulo example_panel _ _ 4).
  - vm_compute. reflexivity.
  - vm_compute. split; [discriminate | reflexivity].
  - vm_compute. reflexivity.
  - vm_compute. reflexivity.
Defined.

Lemma or_empty_id {A} (l : list A) : QuestionPanel.or_empty l = l.
Proof. destruct l; reflexivity. Qed.

Lemma panel_ok_fit (q : AskUser.Question) (p : QuestionPanel.t) :
  panel_ok q p -> widgets_fit p.
Proof. intros H. unfold widgets_fit. rewrite (ok_widgets _ _ H). lia. Qed.

(** The panels the code builds have a choice for every option widget,
    before [compose] and after it. *)
Lemma widgets_fit_fresh (q : AskUser.Question) (idx mc : Z) :
  widgets_fit (QuestionPanel.__init__ q idx mc)
  /\ widgets_fit (QuestionPanel.compose (QuestionPanel.__init__ q idx mc)).
Proof.
  split.
  - unfold widgets_fit. cbn. lia.
  - unfold widgets_fit, QuestionPanel.compose, QuestionPanel.__init__.
    rewrite or_empty_id.
    destruct (0 <? _); cbn; rewrite length_replicate; lia.
Qed.

Lemma panel_ok_total_nonzero (q : AskUser.Question) (p : QuestionPanel.t) :
  panel_ok q p -> QuestionPanel.total_options p <> 0.
Proof. intros H. rewrite (ok_total _ _ H). unfold py_len. lia. Qed.

(** What [compose] makes of a freshly built panel. *)
Lemma compose_fresh_panel (q : AskUser.Question) (idx mc : Z) (d : bool) :
  let p0 := QuestionPanel.compose
              (QuestionPanel.set_display d (QuestionPanel.__init__ q idx mc)) in
  QuestionPanel.question_data p0 = q
  /\ QuestionPanel.choices p0 = AskUser.choices q
  /\ QuestionPanel.total_options p0 = py_len (AskUser.choices q) + 1
  /\ QuestionPanel.selected_option p0 = 0
  /\ length (QuestionPanel.option_widgets p0) = length (AskUser.choices q)
  /\ QuestionPanel.text_input p0
     = Some (EscapableInput.__init__ "_" "question-other-input")
  /\ is_Some (QuestionPanel.question_text p0)
  /\ QuestionPanel.index p0 = idx
  /\ QuestionPanel.display p0 = d.
Proof.
  cbv zeta. unfold QuestionPanel.compose, QuestionPanel.__init__.
  rewrite or_empty_id.
  destruct (0 <? _);
    cbv beta iota zeta delta
      [QuestionPanel.set_display QuestionPanel.set_question_text
       QuestionPanel.set_option_widgets QuestionPanel.set_other_cursor
       QuestionPanel.set_text_input QuestionPanel.set_padding
       QuestionPanel.question_data QuestionPanel.index QuestionPanel.choices
       QuestionPanel.max_choices QuestionPanel.selected_option
       QuestionPanel.total_options QuestionPanel.option_widgets
       QuestionPanel.text_input QuestionPanel.other_cursor
       QuestionPanel.is_other_mode QuestionPanel.question_text
       QuestionPanel.padding QuestionPanel.display];
    rewrite app_nil_l, length_replicate; repeat split; eauto.
Qed.

(** With option texts that [update] accepts, mounting a freshly built
    panel succeeds, shown or hidden. *)
Lemma mount_fresh_panel (q : AskUser.Question) (idx mc : Z) (d : bool) :
  exists p fs,
    QuestionPanel.on_mount
      (QuestionPanel.compose
         (QuestionPanel.set_display d (QuestionPanel.__init__ q idx mc)))
    = Ok (p, fs)
    /\ panel_ok q p
    /\ QuestionPanel.selected_option p = 0
    /\ QuestionPanel.index p = idx
    /\ QuestionPanel.text_input p
       = Some (EscapableInput.__init__ "_" "question-other-input")
    /\ QuestionPanel.display p = d.
Proof.
  pose proof (compose_fresh_panel q idx mc d) as Hp0. cbv zeta in Hp0.
  generalize dependent
    (QuestionPanel.compose
       (QuestionPanel.set_display d (QuestionPanel.__init__ q idx mc))).
  intros p0 (Hq & Hc & Ht & Hs & Hw & Hi & Hqt & Hix & Hd).
  destruct (_update_options_spec p0) as (ws & oc & fs & Hlen & Hupd).
  { unfold widgets_fit. rewrite Hw, Hc. lia. }
  unfold QuestionPanel.on_mount. rewrite Hupd. eexists _, _.
  split; [reflexivity|]. rewrite Hi.
  cbn [QuestionPanel.question_data QuestionPanel.index QuestionPanel.choices
       QuestionPanel.max_choices QuestionPanel.selected_option
       QuestionPanel.total_options QuestionPanel.option_widgets
       QuestionPanel.text_input QuestionPanel.other_cursor
       QuestionPanel.is_other_mode QuestionPanel.question_text
       QuestionPanel.padding QuestionPanel.display].
  split; [|repeat split; assumption].
  split;
    cbn [QuestionPanel.question_data QuestionPanel.index QuestionPanel.choices
         QuestionPanel.max_choices QuestionPanel.selected_option
         QuestionPanel.total_options QuestionPanel.option_widgets
         QuestionPanel.text_input QuestionPanel.other_cursor
         QuestionPanel.is_other_mode QuestionPanel.question_text
         QuestionPanel.padding QuestionPanel.display];
    try congruence; eauto.
  rewrite Hs, Ht. unfold py_len. lia.
Qed.

Lemma panel_ok_move_up (q : AskUser.Question) (p : QuestionPanel.t) :
  panel_ok q p ->
  exists p' fs, QuestionPanel.move_up p = Ok (p', fs) /\ panel_ok q p'
    /\ QuestionPanel.index p' = QuestionPanel.index p.
Proof.
  intros Hok.
  destruct (move_up_spec p) as (ws & oc & fs & Hlen & Hmove);
    [eapply panel_ok_total_nonzero; eauto | eapply panel_ok_fit; eauto |].
  rewrite Hmove. eexists _, _. split; [reflexivity|].
  destruct Hok as [Hq Hc Ht Hs Hw [i Hi] Hqt Hm].
  assert (Hk : 0 < QuestionPanel.total_options p)
    by (rewrite Ht; unfold py_len; lia).
  split; [|reflexivity].
  split; cbn; try assumption; try congruence; eauto.
  - apply Z.mod_pos_bound. exact Hk.
  - rewrite Hi. reflexivity.
Qed.

Lemma panel_ok_move_down (q : AskUser.Question) (p : QuestionPanel.t) :
  panel_ok q p ->
  exists p' fs, QuestionPanel.move_down p = Ok (p', fs) /\ panel_ok q p'
    /\ QuestionPanel.index p' = QuestionPanel.index p.
Proof.
  intros Hok.
  destruct (move_down_spec p) as (ws & oc & fs & Hlen & Hmove);
    [eapply panel_ok_total_nonzero; eauto | eapply panel_ok_fit; eauto |].
  rewrite Hmove. eexists _, _. split; [reflexivity|].
  destruct Hok as [Hq Hc Ht Hs Hw [i Hi] Hqt Hm].
  assert (Hk : 0 < QuestionPanel.total_options p)
    by (rewrite Ht; unfold py_len; lia).
  split; [|reflexivity].
  split; cbn; try assumption; try congruence; eauto.
  - apply Z.mod_pos_bound. exact Hk.
  - rewrite Hi. reflexivity.
Qed.

Lemma panel_ok_edit_text (q : AskUser.Question) (p : QuestionPanel.t)
    (s : string) :
  panel_ok q p -> panel_ok q (QuestionPanel.edit_text s p).
Proof.
  intros [Hq Hc Ht Hs Hw [i Hi] Hqt Hm].
  unfold QuestionPanel.edit_text. rewrite Hi.
  split; cbn; try assumption; eauto.
Qed.

Lemma panel_ok_set_display (q : AskUser.Question) (p : QuestionPanel.t)
    (b : bool) :
  panel_ok q p -> panel_ok q (QuestionPanel.set_display b p).
Proof. intros [Hq Hc Ht Hs Hw Hi Hqt Hm]. split; cbn; assumption. Qed.

Lemma panel_ok_question_text (q : AskUser.Question) (p : QuestionPanel.t)
    (f : Static -> Static) :
  panel_ok q p ->
  exists p', QuestionPanel.with_question_text f p = Ok p' /\ panel_ok q p'
    /\ p' = QuestionPanel.set_question_text
              (f <$> QuestionPanel.question_text p) p.
Proof.
  intros [Hq Hc Ht Hs Hw Hi [w Hqt] Hm].
  unfold QuestionPanel.with_question_text. rewrite Hqt.
  eexists. split; [reflexivity|]. split; [|reflexivity].
  split; cbn; try assumption; eauto.
Qed.

Lemma panel_mounted_ok (q : AskUser.Question) (idx mc : Z)
    (p : QuestionPanel.t) :
  panel_mounted q idx mc p -> panel_ok q p.
Proof.
  induction 1 as [p fs Hm | p p' fs _ IH Hm | p p' fs _ IH Hm
                  | p s _ IH | p b _ IH | p p' f _ IH Hm].
  - destruct (mount_fresh_panel q idx mc true) as (p1 & fs1 & E & Hok & _).
    change (QuestionPanel.set_display true (QuestionPanel.__init__ q idx mc))
      with (QuestionPanel.__init__ q idx mc) in E.
    rewrite E in Hm. injection Hm as <- _. exact Hok.
  - destruct (panel_ok_move_up q p IH) as (p1 & fs1 & E & Hok & _).
    rewrite E in Hm. injection Hm as <- _. exact Hok.
  - destruct (panel_ok_move_down q p IH) as (p1 & fs1 & E & Hok & _).
    rewrite E in Hm. injection Hm as <- _. exact Hok.
  - apply panel_ok_edit_text. exact IH.
  - apply panel_ok_set_display. exact IH.
  - destruct (panel_ok_question_text q p f IH) as (p1 & E & Hok & _).
    rewrite E in Hm. injection Hm as <-. exact Hok.
Qed.

(** C3 (amended). In every state of a mounted panel, whatever the choice
    list, [is_other_mode] is true exactly when
    [selected_option = len(choices)], both moves succeeding from there;
    right after construction [is_other_mode] is false. *)
Theorem is_other_mode_tracks_selection (q : AskUser.Question) (idx mc : Z) :
  (forall p, panel_mounted q idx mc p ->
     (QuestionPanel.is_other_mode p = true
      <-> QuestionPanel.selected_option p
          = py_len (QuestionPanel.choices p))
     /\ is_Ok (QuestionPanel.move_up p)
     /\ is_Ok (QuestionPanel.move_down p))
  /\ QuestionPanel.is_other_mode (QuestionPanel.__init__ q idx mc) = false.
Proof.
  split; [|reflexivity].
  intros p Hp. apply panel_mounted_ok in Hp.
  split; [|split].
  - rewrite (ok_other_mode _ _ Hp). apply Z.eqb_eq.
  - destruct (panel_ok_move_up q p Hp) as (p' & fs & E & _).
    exists (p', fs). exact E.
  - destruct (panel_ok_move_down q p Hp) as (p' & fs & E & _).
    exists (p', fs). exact E.
Qed.

Lemma is_other_mode_tracks_selection_witness :
  panel_mounted
    (AskUser.mkQuestion "Proceed?"
       [AskUser.mkChoice "yes" None; AskUser.mkChoice "no" (Some "stop here")])
    0 2 example_mounted
  /\ (QuestionPanel.is_other_mode example_mounted = true
      <-> QuestionPanel.selected_option example_mounted
          = py_len (QuestionPanel.choices example_mounted))
  /\ is_Ok (QuestionPanel.move_up example_mounted)
  /\ is_Ok (QuestionPanel.move_down example_mounted).
Proof.
  assert (Hm : panel_mounted
                 (AskUser.mkQuestion "Proceed?"
                    [AskUser.mkChoice "yes" None;
                     AskUser.mkChoice "no" (Some "stop here")])
                 0 2 example_mounted)
    by (eapply pm_mount; vm_compute; reflexivity).
  split; [exact Hm|].
  destruct (is_other_mode_tracks_selection
              (AskUser.mkQuestion "Proceed?"
                 [AskUser.mkChoice "yes" None;
                  AskUser.mkChoice "no" (Some "stop here")]) 0 2)
    as (H & _).
  apply H. exact Hm.
Defined.

(** C3 as stated fails right after construction when the question has no
    choice: the selection is on the free-text line and [is_other_mode] is
    false. *)
Lemma is_other_mode_fresh_counterexample :
  panel_reachable (AskUser.mkQuestion "Anything else?" []) 0 6
    fresh_panel_no_choices
  /\ ~ (QuestionPanel.is_other_mode fresh_panel_no_choices = true
        <-> QuestionPanel.selected_option fresh_panel_no_choices
            = py_len (QuestionPanel.choices fresh_panel_no_choices)).
Proof.
  split.
  - apply pr_init.
  - intros [_ H]. discriminate (H eq_refl).
Qed.

(** ** Stripping *)

Lemma append_cons (c : ascii) (a b : string) :
  String c a +:+ b = String c (a +:+ b).
Proof. reflexivity. Qed.

Lemma append_nil (b : string) : "" +:+ b = b.
Proof. reflexivity. Qed.

Lemma append_assoc (a b c : string) : (a +:+ b) +:+ c = a +:+ (b +:+ c).
Proof.
  induction a as [|x a IH]; [reflexivity|].
  rewrite !append_cons, IH. reflexivity.
Qed.

Lemma py_lstrip_spec (s : string) :
  exists l, s = l +:+ py_lstrip s
            /\ all_space l = true
            /\ starts_with_space (py_lstrip s) = false.
Proof.
  induction s as [|c s (l & E & Hl & Hs)].
  - exists "". repeat split.
  - cbn [py_lstrip]. destruct (py_isspace c) eqn:Hc.
    + exists (String c l). rewrite append_cons, <- E.
      cbn [all_space]. rewrite Hc, Hl. repeat split. exact Hs.
    + exists "". rewrite append_nil. cbn [all_space starts_with_space].
      rewrite Hc. repeat split.
Qed.

Lemma py_rstrip_spec (s : string) :
  exists r, s = py_rstrip s +:+ r
            /\ all_space r = true
            /\ ends_with_space (py_rstrip s) = false.
Proof.
  induction s as [|c s (r & E & Hr & Hs)].
  - exists "". repeat split.
  - cbn [py_rstrip]. destruct (py_rstrip s) as [|d t] eqn:Ht.
    + rewrite append_nil in E. subst s. destruct (py_isspace c) eqn:Hc.
      * exists (String c r). rewrite append_nil.
        cbn [all_space ends_with_space]. rewrite Hc, Hr. repeat split.
      * exists r. rewrite append_cons, append_nil.
        cbn [ends_with_space]. rewrite Hc. repeat split. exact Hr.
    + exists r. rewrite append_cons, <- E.
      split; [reflexivity|]. split; [exact Hr|]. exact Hs.
Qed.

Lemma ends_with_space_lstrip (s : string) :
  ends_with_space s = false -> ends_with_space (py_lstrip s) = false.
Proof.
  induction s as [|c s IH]; [reflexivity|].
  intros H. cbn [py_lstrip]. destruct (py_isspace c) eqn:Hc; [|exact H].
  apply IH. destruct s; [cbn in H; congruence | exact H].
Qed.

(** [py_strip] removes a run of whitespace at each end, and what it
    returns neither starts nor ends with whitespace. *)
Lemma py_strip_spec (s : string) :
  exists l r, s = l +:+ py_strip s +:+ r
              /\ all_space l = true /\ all_space r = true
              /\ starts_with_space (py_strip s) = false
              /\ ends_with_space (py_strip s) = false.
Proof.
  destruct (py_rstrip_spec s) as (r & Er & Hr & Hend).
  destruct (py_lstrip_spec (py_rstrip s)) as (l & El & Hl & Hstart).
  exists l, r. unfold py_strip. repeat split; try assumption.
  - rewrite <- append_assoc, <- El. exact Er.
  - apply ends_with_space_lstrip. exact Hend.
Qed.

Lemma py_get_fmap {A B} (g : A -> B) (l : list A) (i : Z) :
  py_get (g <$> l) i = match py_get l i with
                       | Ok x => Ok (g x)
                       | Raise e => Raise e
                       end.
Proof.
  unfold py_get, py_len. rewrite length_fmap.
  destruct (py_norm (Z.of_nat (length l)) i) as [k|]; [|reflexivity].
  rewrite list_lookup_fmap. destruct (l !! k); reflexivity.
Qed.

(** C2. With the selection on a choice, [get_answer] returns that choice's
    label and [False]; the result does not depend on the descriptions,
    which only the rendered line shows.  With the selection on the
    free-text line it returns the buffer without the whitespace at its two
    ends, and [True]. *)
Theorem get_answer_spec (p : QuestionPanel.t) :
  (0 <= QuestionPanel.selected_option p < py_len (QuestionPanel.choices p) ->
   exists c,
     QuestionPanel.choices p !! Z.to_nat (QuestionPanel.selected_option p)
     = Some c
     /\ QuestionPanel.get_answer p = Ok (AskUser.label c, false))
  /\ (forall f, QuestionPanel.get_answer (redescribe f p)
                = QuestionPanel.get_answer p)
  /\ (QuestionPanel.selected_option p = py_len (QuestionPanel.choices p) ->
      QuestionPanel.get_answer p = Ok (py_strip (other_text p), true)
      /\ exists l r,
           other_text p = l +:+ py_strip (other_text p) +:+ r
           /\ all_space l = true /\ all_space r = true
           /\ starts_with_space (py_strip (other_text p)) = false
           /\ ends_with_space (py_strip (other_text p)) = false).
Proof.
  split; [|split].
  - intros Hsel. unfold QuestionPanel.get_answer.
    destruct (Z.ltb_spec (QuestionPanel.selected_option p)
                (py_len (QuestionPanel.choices p))); [|lia].
    destruct (py_get_in_range (QuestionPanel.choices p)
                (QuestionPanel.selected_option p) Hsel) as (c & Hc & Hget).
    exists c. rewrite Hget. split; [exact Hc | reflexivity].
  - intros f. unfold QuestionPanel.get_answer, redescribe.
    cbn [QuestionPanel.selected_option QuestionPanel.choices
         QuestionPanel.text_input].
    rewrite py_get_fmap. unfold py_len. rewrite length_fmap.
    destruct (QuestionPanel.selected_option p
              <? Z.of_nat (length (QuestionPanel.choices p)));
      [|reflexivity].
    destruct (py_get (QuestionPanel.choices p)
                (QuestionPanel.selected_option p)); reflexivity.
  - intros Hsel. split; [|apply py_strip_spec].
    unfold QuestionPanel.get_answer, other_text. rewrite Hsel, Z.ltb_irrefl.
    destruct (QuestionPanel.text_input p); reflexivity.
Qed.

Lemma get_answer_spec_witness :
  (exists c,
     QuestionPanel.choices example_mounted
       !! Z.to_nat (QuestionPanel.selected_option example_mounted) = Some c
     /\ QuestionPanel.get_answer example_mounted = Ok (AskUser.label c, false))
  /\ QuestionPanel.get_answer example_mounted = Ok ("yes", false)
  /\ QuestionPanel.get_answer example_other
     = Ok (py_strip (other_text example_other), true)
  /\ QuestionPanel.get_answer example_other = Ok ("hi", true).
Proof.
  destruct (get_answer_spec example_mounted) as (Hchoice & _).
  destruct (get_answer_spec example_other) as (_ & _ & Hother).
  split; [|split; [reflexivity | split; [|reflexivity]]].
  - apply Hchoice. vm_compute. split; [discriminate | reflexivity].
  - apply Hother. reflexivity.
Defined.

(** ** The question widget *)

Lemma cosmetic_refl (p : QuestionPanel.t) : cosmetic p p.
Proof. unfold cosmetic. intuition. Qed.

Lemma cosmetic_trans (p1 p2 p3 : QuestionPanel.t) :
  cosmetic p1 p2 -> cosmetic p2 p3 -> cosmetic p1 p3.
Proof. unfold cosmetic. intuition congruence. Qed.

Lemma cosmetic_ok (q : AskUser.Question) (p p' : QuestionPanel.t) :
  panel_ok q p -> cosmetic p p' -> panel_ok q p'.
Proof.
  intros [Hq Hc Ht Hs Hw Hi Hqt Hm] (E1 & E2 & E3 & E4 & E5 & E6 & E7 & E8 & E9).
  split; try congruence; auto.
Qed.

Lemma cosmetic_pristine (p p' : QuestionPanel.t) :
  pristine p -> cosmetic p p' -> pristine p'.
Proof.
  intros [H1 H2] (E1 & E2 & E3 & E4 & E5 & E6 & E7 & E8 & E9).
  split; congruence.
Qed.

Lemma cosmetic_question_text (q : AskUser.Question) (p : QuestionPanel.t)
    (f : Static -> Static) :
  panel_ok q p ->
  exists p', QuestionPanel.with_question_text f p = Ok p' /\ cosmetic p p'.
Proof.
  intros Hok.
  destruct (panel_ok_question_text q p f Hok) as (p' & E & _ & ->).
  eexists. split; [exact E|].
  destruct (ok_question_text _ _ Hok) as [w Hw].
  unfold cosmetic. cbn. rewrite Hw. repeat split; eauto.
Qed.

Lemma cosmetic_set_display (p : QuestionPanel.t) (b : bool) :
  cosmetic p (QuestionPanel.set_display b p).
Proof. unfold cosmetic. cbn. intuition. Qed.

(** A method that succeeds on every element succeeds at every position in
    range, and relates the list before to the list after pointwise. *)
Lemma py_modify_ok {A} (P : A -> Prop) (R : A -> A -> Prop)
    (l : list A) (i : Z) (f : A -> Result A) :
  (forall x, R x x) ->
  Forall P l ->
  0 <= i < py_len l ->
  (forall x, P x -> exists y, f x = Ok y /\ R x y) ->
  exists l', py_modify l i f = Ok l'
             /\ Forall2 R l l'.
Proof.
  intros Hrefl HP Hi Hf. unfold py_modify.
  rewrite py_norm_in_range by exact Hi.
  destruct (l !! Z.to_nat i) as [x|] eqn:Hx.
  - assert (Px : P x).
    { rewrite Forall_forall in HP. apply HP.
      apply list_elem_of_lookup. eauto. }
    destruct (Hf x Px) as (y & Hy & Rxy). rewrite Hy.
    eexists. split; [reflexivity|].
    apply Forall2_same_length_lookup. split.
    + rewrite length_insert. reflexivity.
    + intros k u v Hu Hv.
      destruct (decide (k = Z.to_nat i)) as [->|Hne].
      * rewrite list_lookup_insert_eq in Hv
          by (apply lookup_lt_Some in Hx; exact Hx).
        congruence.
      * rewrite list_lookup_insert_ne in Hv by congruence.
        assert (u = v) as -> by congruence. apply Hrefl.
  - apply lookup_ge_None in Hx. unfold py_len in Hi. lia.
Qed.

Lemma Forall2_ok_cosmetic (qs : list AskUser.Question)
    (ps ps' : list QuestionPanel.t) :
  Forall2 panel_ok qs ps -> Forall2 cosmetic ps ps' ->
  Forall2 panel_ok qs ps'.
Proof.
  intros H1 H2. revert ps' H2.
  induction H1 as [|q p qs ps Hqp _ IH]; intros ps' H2.
  - inversion H2; subst. constructor.
  - inversion H2 as [|? p' ? ps'' Hc Hrest]; subst.
    constructor; [eapply cosmetic_ok; eauto | apply IH; exact Hrest].
Qed.

Lemma Forall2_cosmetic_trans (ps1 ps2 ps3 : list QuestionPanel.t) :
  Forall2 cosmetic ps1 ps2 -> Forall2 cosmetic ps2 ps3 ->
  Forall2 cosmetic ps1 ps3.
Proof.
  intros H1. revert ps3.
  induction H1 as [|p1 p2 ps1 ps2 Hc _ IH]; intros ps3 H2.
  - inversion H2; subst. constructor.
  - inversion H2 as [|? p3 ? ps3' Hc' Hrest]; subst.
    constructor; [eapply cosmetic_trans; eauto | apply IH; exact Hrest].
Qed.

Lemma Forall2_ok_exists (qs : list AskUser.Question)
    (ps : list QuestionPanel.t) :
  Forall2 panel_ok qs ps -> Forall (fun p => exists q, panel_ok q p) ps.
Proof. induction 1; constructor; eauto. Qed.

Lemma Forall2_cosmetic_refl (ps : list QuestionPanel.t) :
  Forall2 cosmetic ps ps.
Proof. induction ps; constructor; auto using cosmetic_refl. Qed.

Lemma py_len_Forall2 {A B} (R : A -> B -> Prop) (l : list A) (k : list B) :
  Forall2 R l k -> py_len k = py_len l.
Proof. intros H. unfold py_len. rewrite (Forall2_length _ _ _ H). reflexivity. Qed.

(** Switching to a tab in range succeeds; the panels change only in
    display and highlighting. *)
Lemma switch_tab_ok (a : QuestionApp.t) (new_tab : Z) :
  session_ok a ->
  0 <= new_tab < py_len (QuestionApp.panel_widgets a) ->
  exists a' es,
    QuestionApp._switch_tab new_tab a = Ok (a', es)
    /\ QuestionApp.current_tab a' = new_tab
    /\ QuestionApp.questions a' = QuestionApp.questions a
    /\ Forall2 cosmetic (QuestionApp.panel_widgets a)
                        (QuestionApp.panel_widgets a')
    /\ (QuestionApp.tab_widgets a' = []
        \/ length (QuestionApp.tab_widgets a')
           = length (QuestionApp.panel_widgets a)).
Proof.
  intros [Hps Htabs [Hc0 Hc1]] Hnew.
  assert (Hcur : 0 <= QuestionApp.current_tab a
                 < py_len (QuestionApp.panel_widgets a)) by lia.
  unfold QuestionApp._switch_tab.
  destruct (Z.eqb_spec new_tab (QuestionApp.current_tab a)) as [->|Hne].
  { eexists _, _. split; [reflexivity|].
    repeat split; auto using Forall2_cosmetic_refl. }
  (* the tab bar *)
  assert (Ht : exists ts,
             match QuestionApp.tab_widgets a with
             | [] => Ok []
             | _ :: _ =>
                 ts ← py_modify (QuestionApp.tab_widgets a)
                        (QuestionApp.current_tab a)
                        (fun w => Ok (QuestionTab.set_active false w));
                 py_modify ts new_tab
                   (fun w => Ok (QuestionTab.set_active true w))
             end = Ok ts
             /\ (ts = [] \/ length ts = length (QuestionApp.panel_widgets a))).
  { destruct (QuestionApp.tab_widgets a) as [|t0 ts0] eqn:Etabs.
    - exists []. split; [reflexivity | left; reflexivity].
    - destruct Htabs as [Hnil|Hlen]; [discriminate|].
      destruct (py_modify_ok (fun _ => True) (fun _ _ => True) (t0 :: ts0)
                  (QuestionApp.current_tab a)
                  (fun w => Ok (QuestionTab.set_active false w)))
        as (ts1 & E1 & F1); auto.
      { apply Forall_forall. auto. }
      { unfold py_len in *. lia. }
      { eauto. }
      destruct (py_modify_ok (fun _ => True) (fun _ _ => True) ts1 new_tab
                  (fun w => Ok (QuestionTab.set_active true w)))
        as (ts2 & E2 & F2); auto.
      { apply Forall_forall. auto. }
      { rewrite (py_len_Forall2 _ _ _ F1). unfold py_len in *. lia. }
      { eauto. }
      exists ts2. rewrite E1. cbn [mbind Result_bind]. rewrite E2.
      split; [reflexivity|]. right.
      rewrite <- (Forall2_length _ _ _ F2), <- (Forall2_length _ _ _ F1).
      exact Hlen. }
  destruct Ht as (ts & Ets & Hts). rewrite Ets. cbn [mbind Result_bind].
  cbn [QuestionApp.panel_widgets QuestionApp.set_tab_widgets
       QuestionApp.current_tab].
  destruct (py_get_in_range _ _ Hcur) as (pc & _ & Epc).
  destruct (py_get_in_range _ _ Hnew) as (pn & _ & Epn).
  rewrite Epc, Epn. cbn [mbind Result_bind].
  set (ps0 := QuestionApp.panel_widgets a) in *.
  destruct (py_modify_ok (fun p => exists q, panel_ok q p) cosmetic ps0
              (QuestionApp.current_tab a)
              (QuestionPanel.with_question_text
                 (remove_class "question-text-active")))
    as (ps1 & E1 & F1);
    [apply cosmetic_refl | eapply Forall2_ok_exists; eauto | exact Hcur
     | intros x [q Hq]; eapply cosmetic_question_text; eauto |].
  rewrite E1. cbn [mbind Result_bind].
  destruct (py_modify_ok (fun p => exists q, panel_ok q p) cosmetic ps1
              new_tab
              (QuestionPanel.with_question_text
                 (add_class "question-text-active")))
    as (ps2 & E2 & F2);
    [apply cosmetic_refl
     | eapply Forall2_ok_exists, Forall2_ok_cosmetic; eauto
     | rewrite (py_len_Forall2 _ _ _ F1); exact Hnew
     | intros x [q Hq]; eapply cosmetic_question_text; eauto |].
  rewrite E2. cbn [mbind Result_bind].
  pose proof (Forall2_cosmetic_trans _ _ _ F1 F2) as F02.
  destruct (py_modify_ok (fun _ => True) cosmetic ps2
              (QuestionApp.current_tab a)
              (fun p => Ok (QuestionPanel.set_display false p)))
    as (ps3 & E3 & F3);
    [apply cosmetic_refl | apply Forall_forall; auto
     | rewrite (py_len_Forall2 _ _ _ F02); exact Hcur
     | intros x _; eexists; split; [reflexivity|apply cosmetic_set_display] |].
  rewrite E3. cbn [mbind Result_bind].
  pose proof (Forall2_cosmetic_trans _ _ _ F02 F3) as F03.
  destruct (py_modify_ok (fun _ => True) cosmetic ps3 new_tab
              (fun p => Ok (QuestionPanel.set_display true p)))
    as (ps4 & E4 & F4);
    [apply cosmetic_refl | apply Forall_forall; auto
     | rewrite (py_len_Forall2 _ _ _ F03); exact Hnew
     | intros x _; eexists; split; [reflexivity|apply cosmetic_set_display] |].
  rewrite E4. cbn [mbind Result_bind].
  pose proof (Forall2_cosmetic_trans _ _ _ F03 F4) as F04.
  destruct (py_get_in_range ps4 new_tab) as (pn' & _ & Epn').
  { rewrite (py_len_Forall2 _ _ _ F04). exact Hnew. }
  rewrite Epn'. cbn [mbind Result_bind].
  eexists _, _. split; [reflexivity|].
  cbn. repeat split; auto.
Qed.

Lemma on_current_panel_ok (a : QuestionApp.t)
    (m : QuestionPanel.t -> Result (QuestionPanel.t * list FocusTarget)) :
  session_ok a ->
  (forall q p, panel_ok q p -> exists p' fs, m p = Ok (p', fs) /\ panel_ok q p') ->
  exists a' es,
    QuestionApp.on_current_panel m a = Ok (a', es)
    /\ session_ok a'
    /\ QuestionApp.current_tab a' = QuestionApp.current_tab a
    /\ QuestionApp.questions a' = QuestionApp.questions a
    /\ length (QuestionApp.panel_widgets a')
       = length (QuestionApp.panel_widgets a)
    /\ (forall i : nat, Z.of_nat i <> QuestionApp.current_tab a ->
          QuestionApp.panel_widgets a' !! i = QuestionApp.panel_widgets a !! i).
Proof.
  intros [Hps Htabs [Hc0 Hc1]] Hm.
  unfold QuestionApp.on_current_panel, QuestionApp._get_current_panel.
  destruct (Z.leb_spec 0 (QuestionApp.current_tab a)); [|lia].
  destruct (Z.ltb_spec (QuestionApp.current_tab a)
              (py_len (QuestionApp.panel_widgets a))) as [Hlt|Hge];
    cbn [andb].
  - destruct (py_get_in_range (QuestionApp.panel_widgets a)
                (QuestionApp.current_tab a)) as (p & Hp & Eget); [lia|].
    rewrite Eget. cbn [mbind Result_bind].
    destruct (Forall2_lookup_r _ _ _ _ _ Hps Hp) as (q & Hq & Hok).
    destruct (Hm q p Hok) as (p' & fs & Em & Hok').
    rewrite Em. cbn [mbind Result_bind].
    eexists _, _. split; [reflexivity|]. cbn.
    repeat split; cbn; auto.
    + apply Forall2_same_length_lookup. split.
      * rewrite length_insert. eapply Forall2_length; eauto.
      * intros k u v Hu Hv.
        destruct (decide (k = Z.to_nat (QuestionApp.current_tab a)))
          as [->|Hne].
        -- rewrite list_lookup_insert_eq in Hv
             by (apply lookup_lt_Some in Hp; exact Hp).
           assert (u = q) by congruence. congruence.
        -- rewrite list_lookup_insert_ne in Hv by congruence.
           eapply Forall2_lookup_lr; eauto.
    + rewrite length_insert. exact Htabs.
    + unfold py_len in *. rewrite length_insert. exact Hc1.
    + apply length_insert.
    + intros i Hi. apply list_lookup_insert_ne. lia.
  - eexists _, _. split; [reflexivity|].
    repeat split; auto.
Qed.

Lemma Forall2_cosmetic_session (a a' : QuestionApp.t) :
  session_ok a ->
  Forall2 cosmetic (QuestionApp.panel_widgets a) (QuestionApp.panel_widgets a') ->
  QuestionApp.questions a' = QuestionApp.questions a ->
  (QuestionApp.tab_widgets a' = []
   \/ length (QuestionApp.tab_widgets a') = length (QuestionApp.panel_widgets a)) ->
  0 <= QuestionApp.current_tab a' < py_len (QuestionApp.panel_widgets a) ->
  session_ok a'.
Proof.
  intros [Hps _ _] F Hq Ht Hc. split.
  - rewrite Hq. eapply Forall2_ok_cosmetic; eauto.
  - rewrite <- (Forall2_length _ _ _ F). exact Ht.
  - rewrite (py_len_Forall2 _ _ _ F). lia.
Qed.

(** [next_tab] and [prev_tab] on a mounted widget with at least one
    panel. *)
Lemma next_tab_ok (a : QuestionApp.t) :
  session_ok a -> 0 < py_len (QuestionApp.panel_widgets a) ->
  exists a' es,
    QuestionApp.action_next_tab a = Ok (a', es)
    /\ session_ok a'
    /\ QuestionApp.questions a' = QuestionApp.questions a
    /\ Forall2 cosmetic (QuestionApp.panel_widgets a)
                        (QuestionApp.panel_widgets a')
    /\ QuestionApp.current_tab a'
       = (QuestionApp.current_tab a + 1)
           `mod` py_len (QuestionApp.panel_widgets a).
Proof.
  intros Hok Hn. unfold QuestionApp.action_next_tab.
  set (n := py_len (QuestionApp.panel_widgets a)) in *.
  destruct (Z.ltb_spec 1 n) as [H1|H1].
  - rewrite py_mod_ok by lia. cbn [mbind Result_bind].
    assert (Hr : 0 <= (QuestionApp.current_tab a + 1) `mod` n < n)
      by (apply Z.mod_pos_bound; lia).
    destruct (switch_tab_ok a _ Hok Hr) as (a' & es & E & Hc & Hq & F & Ht).
    exists a', es. split; [exact E|].
    split; [eapply Forall2_cosmetic_session; eauto; rewrite Hc; exact Hr|].
    split; [exact Hq|]. split; [exact F | exact Hc].
  - exists a, []. split; [reflexivity|]. split; [exact Hok|].
    split; [reflexivity|]. split; [apply Forall2_cosmetic_refl|].
    assert (Hn1 : n = 1) by lia.
    destruct (so_current _ Hok) as [H0 Hcur]. fold n in Hcur.
    rewrite Hn1, Z.mod_1_r. lia.
Qed.

Lemma prev_tab_ok (a : QuestionApp.t) :
  session_ok a -> 0 < py_len (QuestionApp.panel_widgets a) ->
  exists a' es,
    QuestionApp.action_prev_tab a = Ok (a', es)
    /\ session_ok a'
    /\ QuestionApp.questions a' = QuestionApp.questions a
    /\ Forall2 cosmetic (QuestionApp.panel_widgets a)
                        (QuestionApp.panel_widgets a')
    /\ QuestionApp.current_tab a'
       = (QuestionApp.current_tab a - 1)
           `mod` py_len (QuestionApp.panel_widgets a).
Proof.
  intros Hok Hn. unfold QuestionApp.action_prev_tab.
  set (n := py_len (QuestionApp.panel_widgets a)) in *.
  destruct (Z.ltb_spec 1 n) as [H1|H1].
  - rewrite py_mod_ok by lia. cbn [mbind Result_bind].
    assert (Hr : 0 <= (QuestionApp.current_tab a - 1) `mod` n < n)
      by (apply Z.mod_pos_bound; lia).
    destruct (switch_tab_ok a _ Hok Hr) as (a' & es & E & Hc & Hq & F & Ht).
    exists a', es. split; [exact E|].
    split; [eapply Forall2_cosmetic_session; eauto; rewrite Hc; exact Hr|].
    split; [exact Hq|]. split; [exact F | exact Hc].
  - exists a, []. split; [reflexivity|]. split; [exact Hok|].
    split; [reflexivity|]. split; [apply Forall2_cosmetic_refl|].
    assert (Hn1 : n = 1) by lia.
    destruct (so_current _ Hok) as [H0 Hcur]. fold n in Hcur.
    rewrite Hn1, Z.mod_1_r. lia.
Qed.

Lemma get_answer_ok (q : AskUser.Question) (p : QuestionPanel.t) :
  panel_ok q p -> exists s o, QuestionPanel.get_answer p = Ok (s, o).
Proof.
  intros Hok. unfold QuestionPanel.get_answer.
  destruct (Z.ltb_spec (QuestionPanel.selected_option p)
              (py_len (QuestionPanel.choices p))) as [Hlt|Hge].
  - destruct (py_get_in_range (QuestionPanel.choices p)
                (QuestionPanel.selected_option p)) as (c & _ & E).
    { pose proof (ok_selected _ _ Hok). lia. }
    rewrite E. eauto.
  - destruct (ok_input _ _ Hok) as [i ->]. eauto.
Qed.

Lemma get_answer_pristine (q : AskUser.Question) (p : QuestionPanel.t) :
  panel_ok q p -> pristine p ->
  exists s o, QuestionPanel.get_answer p = Ok (s, o)
              /\ (AskUser.question q, s, o) = default_answer q.
Proof.
  intros Hok [Hs Hi]. unfold QuestionPanel.get_answer, default_answer.
  rewrite Hs, Hi, (ok_choices _ _ Hok).
  destruct (AskUser.choices q) as [|c cs]; cbn; eauto.
Qed.

Lemma collect_answers_ok (qs : list AskUser.Question)
    (ps : list QuestionPanel.t) :
  Forall2 panel_ok qs ps ->
  exists answers,
    QuestionApp.collect_answers ps = Ok answers
    /\ Forall2 (fun p r => exists s o,
                  QuestionPanel.get_answer p = Ok (s, o)
                  /\ r = (AskUser.question (QuestionPanel.question_data p), s, o))
               ps answers.
Proof.
  induction 1 as [|q p qs ps Hqp _ (answers & E & F)].
  - exists []. split; [reflexivity | constructor].
  - destruct (get_answer_ok q p Hqp) as (s & o & Hg).
    cbn [QuestionApp.collect_answers]. rewrite Hg. cbn [mbind Result_bind].
    rewrite E. cbn [mbind Result_bind].
    eexists. split; [reflexivity|]. constructor; eauto.
Qed.

(** With option texts that [update] accepts, every command succeeds on
    a mounted widget and keeps it well formed; the panels other than the
    current one change at most cosmetically. *)
Lemma step_ok (c : Session.Command) (a : QuestionApp.t) :
  session_ok a ->
  exists a' es,
    Session.step c a = Ok (a', es)
    /\ session_ok a'
    /\ QuestionApp.questions a' = QuestionApp.questions a
    /\ (forall (i : nat) p,
          QuestionApp.panel_widgets a !! i = Some p ->
          Z.of_nat i <> QuestionApp.current_tab a ->
          exists p', QuestionApp.panel_widgets a' !! i = Some p'
                     /\ cosmetic p p').
Proof.
  intros Hok.
  assert (Hcur : forall m,
    (forall q p, panel_ok q p ->
                 exists p' fs, m p = Ok (p', fs) /\ panel_ok q p') ->
    exists a' es,
      QuestionApp.on_current_panel m a = Ok (a', es)
      /\ session_ok a'
      /\ QuestionApp.questions a' = QuestionApp.questions a
      /\ (forall (i : nat) p,
            QuestionApp.panel_widgets a !! i = Some p ->
            Z.of_nat i <> QuestionApp.current_tab a ->
            exists p', QuestionApp.panel_widgets a' !! i = Some p'
                       /\ cosmetic p p')).
  { intros m Hm.
    destruct (on_current_panel_ok a m Hok Hm)
      as (a' & es & E & Hok' & _ & Hq & _ & Hsame).
    exists a', es. split; [exact E|]. split; [exact Hok'|].
    split; [exact Hq|]. intros i p Hp Hi. exists p.
    rewrite Hsame by exact Hi. split; [exact Hp | apply cosmetic_refl]. }
  assert (Htab : forall (a' : QuestionApp.t) (es : list Effect),
    session_ok a' ->
    QuestionApp.questions a' = QuestionApp.questions a ->
    Forall2 cosmetic (QuestionApp.panel_widgets a)
                     (QuestionApp.panel_widgets a') ->
    forall act : Result (QuestionApp.t * list Effect), act = Ok (a', es) ->
    exists a' es,
      act = Ok (a', es)
      /\ session_ok a'
      /\ QuestionApp.questions a' = QuestionApp.questions a
      /\ (forall (i : nat) p,
            QuestionApp.panel_widgets a !! i = Some p ->
            Z.of_nat i <> QuestionApp.current_tab a ->
            exists p', QuestionApp.panel_widgets a' !! i = Some p'
                       /\ cosmetic p p')).
  { intros a' es Hok' Hq F act ->. exists a', es.
    split; [reflexivity|]. split; [exact Hok'|]. split; [exact Hq|].
    intros i p Hp _. eapply Forall2_lookup_l; eauto. }
  destruct c; cbn [Session.step].
  - apply Hcur. intros q p Hp.
    destruct (panel_ok_move_up q p Hp) as (p' & fs & E & Hp' & _). eauto.
  - apply Hcur. intros q p Hp.
    destruct (panel_ok_move_down q p Hp) as (p' & fs & E & Hp' & _). eauto.
  - destruct (Z.ltb_spec 0 (py_len (QuestionApp.panel_widgets a))) as [Hn|Hn].
    + destruct (next_tab_ok a Hok Hn) as (a' & es & E & Hok' & Hq & F & _).
      eapply Htab; eauto.
    + unfold QuestionApp.action_next_tab.
      destruct (Z.ltb_spec 1 (py_len (QuestionApp.panel_widgets a))); [lia|].
      eapply Htab; eauto using Forall2_cosmetic_refl.
  - destruct (Z.ltb_spec 0 (py_len (QuestionApp.panel_widgets a))) as [Hn|Hn].
    + destruct (prev_tab_ok a Hok Hn) as (a' & es & E & Hok' & Hq & F & _).
      eapply Htab; eauto.
    + unfold QuestionApp.action_prev_tab.
      destruct (Z.ltb_spec 1 (py_len (QuestionApp.panel_widgets a))); [lia|].
      eapply Htab; eauto using Forall2_cosmetic_refl.
  - apply Hcur. intros q p Hp. eexists _, _.
    split; [reflexivity | apply panel_ok_edit_text; exact Hp].
  - unfold QuestionApp.action_submit, QuestionApp._do_submit.
    destruct (collect_answers_ok _ _ (so_panels _ Hok)) as (answers & E & _).
    rewrite E. cbn [mbind Result_bind].
    eapply Htab; eauto using Forall2_cosmetic_refl.
  - unfold QuestionApp.action_cancel.
    eapply Htab; eauto using Forall2_cosmetic_refl.
Qed.

Lemma run_ok (cs : list Session.Command) (a : QuestionApp.t) :
  session_ok a ->
  exists a' es,
    Session.run cs a = Ok (a', es)
    /\ session_ok a'
    /\ QuestionApp.questions a' = QuestionApp.questions a
    /\ (forall (i : nat) p,
          QuestionApp.panel_widgets a !! i = Some p ->
          unvisited (Z.of_nat i) cs a = true ->
          exists p', QuestionApp.panel_widgets a' !! i = Some p'
                     /\ cosmetic p p').
Proof.
  revert a. induction cs as [|c cs IH]; intros a Hok.
  - exists a, []. split; [reflexivity|]. split; [exact Hok|].
    split; [reflexivity|]. intros i p Hp _. exists p.
    split; [exact Hp | apply cosmetic_refl].
  - destruct (step_ok c a Hok) as (a1 & es1 & E1 & Hok1 & Hq1 & Hkeep1).
    destruct (IH a1 Hok1) as (a2 & es2 & E2 & Hok2 & Hq2 & Hkeep2).
    cbn [Session.run]. rewrite E1. cbn [mbind Result_bind].
    rewrite E2. cbn [mbind Result_bind].
    eexists _, _. split; [reflexivity|]. split; [exact Hok2|].
    split; [congruence|].
    intros i p Hp Hun. cbn [unvisited] in Hun. rewrite E1 in Hun.
    apply andb_true_iff in Hun as [Hne Hun].
    apply negb_true_iff, Z.eqb_neq in Hne.
    destruct (Hkeep1 i p Hp) as (p1 & Hp1 & C1); [congruence|].
    destruct (Hkeep2 i p1 Hp1 Hun) as (p2 & Hp2 & C2).
    exists p2. split; [exact Hp2 | eapply cosmetic_trans; eauto].
Qed.

Lemma mount_panels_ok (qs : list AskUser.Question)
    (g : nat -> AskUser.Question -> QuestionPanel.t) :
  (forall i q, exists idx mc d,
      g i q = QuestionPanel.set_display d (QuestionPanel.__init__ q idx mc)) ->
  exists ps es,
    Session.mount_panels (imap g qs) = Ok (ps, es)
    /\ Forall2 panel_ok qs ps
    /\ Forall pristine ps.
Proof.
  revert g. induction qs as [|q qs IH]; intros g Hg.
  - exists [], []. repeat split; constructor.
  - cbn [imap Session.mount_panels].
    destruct (Hg 0%nat q) as (idx & mc & d & ->).
    destruct (mount_fresh_panel q idx mc d)
      as (p & fs & E & Hok & Hsel & _ & Hin & _).
    rewrite E. cbn [mbind Result_bind].
    destruct (IH (g ∘ S)) as (ps & es & E' & F & Hpr).
    { intros i q'. apply Hg. }
    rewrite E'. cbn [mbind Result_bind].
    eexists _, _. split; [reflexivity|].
    split; constructor; auto. split; assumption.
Qed.

Lemma Forall_pristine_cosmetic (ps ps' : list QuestionPanel.t) :
  Forall pristine ps -> Forall2 cosmetic ps ps' -> Forall pristine ps'.
Proof.
  intros H F. induction F as [|p p' ps ps' Hc _ IH]; [constructor|].
  inversion H; subst. constructor; eauto using cosmetic_pristine.
Qed.

(** With option texts that [update] accepts, construction and mounting
    succeed for every list of questions. *)
Lemma start_ok (args : AskUser.AskUserArgs) :
  exists a es,
    Session.start args = Ok (a, es)
    /\ session_ok a
    /\ QuestionApp.questions a = AskUser.questions args
    /\ QuestionApp.current_tab a = 0
    /\ Forall pristine (QuestionApp.panel_widgets a).
Proof.
  unfold Session.start.
  set (a0 := QuestionApp.compose (QuestionApp.__init__ args)).
  set (qs := AskUser.questions args).
  assert (Hpanels : QuestionApp.panel_widgets a0
            = imap (fun i q =>
                      QuestionPanel.set_display (Z.of_nat i =? 0)
                        (QuestionPanel.__init__ q (Z.of_nat i)
                           (QuestionApp.initial_max_choices qs))) qs).
  { subst a0. unfold QuestionApp.compose, QuestionApp.__init__. cbn.
    destruct (1 <? py_len (AskUser.questions args)); reflexivity. }
  assert (Htabs : QuestionApp.tab_widgets a0 = []
                  \/ length (QuestionApp.tab_widgets a0) = length qs).
  { subst a0. unfold QuestionApp.compose, QuestionApp.__init__. cbn.
    destruct (1 <? py_len (AskUser.questions args)); cbn;
      [right; apply length_imap | left; reflexivity]. }
  assert (Hqs : QuestionApp.questions a0 = qs
                /\ QuestionApp.current_tab a0 = 0).
  { subst a0. unfold QuestionApp.compose, QuestionApp.__init__. cbn.
    destruct (1 <? py_len (AskUser.questions args)); split; reflexivity. }
  destruct Hqs as [Hqs Hct]. clearbody a0.
  cbn [QuestionApp.panel_widgets QuestionApp.set_tab_widgets].
  rewrite Hpanels.
  destruct (mount_panels_ok qs
              (fun i q =>
                 QuestionPanel.set_display (Z.of_nat i =? 0)
                   (QuestionPanel.__init__ q (Z.of_nat i)
                      (QuestionApp.initial_max_choices qs))))
    as (ps & es & E & F & Hpr); [eauto|].
  rewrite E. cbn [mbind Result_bind].
  assert (Htabs' : QuestionTab.on_mount <$> QuestionApp.tab_widgets a0 = []
                   \/ length (QuestionTab.on_mount <$> QuestionApp.tab_widgets a0)
                      = length ps).
  { destruct Htabs as [->|Hl]; [left; reflexivity|].
    right. rewrite length_fmap, Hl. eapply Forall2_length; eauto. }
  unfold QuestionApp.on_mount.
  cbn [QuestionApp.panel_widgets QuestionApp.set_panel_widgets].
  destruct ps as [|p ps].
  - eexists _, _. split; [reflexivity|].
    split; [|cbn; repeat split; auto].
    split; cbn; [rewrite Hqs; exact F | exact Htabs' | lia].
  - destruct (py_modify_ok (fun p => exists q, panel_ok q p) cosmetic (p :: ps) 0
                (QuestionPanel.with_question_text
                   (add_class "question-text-active")))
      as (ps1 & E1 & F1);
      [apply cosmetic_refl | eapply Forall2_ok_exists; eauto
       | unfold py_len; cbn [length]; lia
       | intros x [q Hq]; eapply cosmetic_question_text; eauto |].
    rewrite E1. cbn [mbind Result_bind].
    destruct (py_get_in_range ps1 0) as (p0 & _ & E0).
    { rewrite (py_len_Forall2 _ _ _ F1). unfold py_len. cbn [length]. lia. }
    rewrite E0. cbn [mbind Result_bind].
    eexists _, _. split; [reflexivity|].
    split; [|cbn; repeat split; eauto using Forall_pristine_cosmetic].
    split; cbn.
    + rewrite Hqs. eapply Forall2_ok_cosmetic; eauto.
    + rewrite <- (Forall2_length _ _ _ F1). exact Htabs'.
    + lia.
Qed.

(** C1. Once the prompt is constructed and mounted and any sequence of
    commands has run, whichever tab is current, [submit] succeeds and
    posts exactly one
    message, [Answered], whose list has one record per question, in
    question order, made of the question text and of what [get_answer]
    returns for the panel of that question.  A panel whose tab was never
    the current one contributes the label of its first choice with
    [False], or the empty string with [True] when it has no choice. *)
Theorem submit_collects_all_answers (args : AskUser.AskUserArgs)
    (cs : list Session.Command) (a0 a : QuestionApp.t) (es0 es : list Effect) :
  Session.start args = Ok (a0, es0) ->
  Session.run cs a0 = Ok (a, es) ->
  exists answers,
    QuestionApp._do_submit a = Ok (a, [Post (Answered answers)])
    /\ Session.step Session.Submit a = Ok (a, [Post (Answered answers)])
    /\ length answers = length (AskUser.questions args)
    /\ (forall (i : nat) q,
          AskUser.questions args !! i = Some q ->
          exists p s o,
            QuestionApp.panel_widgets a !! i = Some p
            /\ QuestionPanel.get_answer p = Ok (s, o)
            /\ answers !! i = Some (AskUser.question q, s, o))
    /\ (forall (i : nat) q,
          AskUser.questions args !! i = Some q ->
          unvisited (Z.of_nat i) cs a0 = true ->
          answers !! i = Some (default_answer q)).
Proof.
  intros H0 H.
  destruct (start_ok args) as (a0' & es0' & E0 & Hok0 & Hq0 & _ & Hpr0).
  rewrite H0 in E0. injection E0 as <- <-.
  destruct (run_ok cs a0 Hok0) as (a' & es' & E & Hok & Hq & Hkeep).
  rewrite H in E. injection E as <- <-.
  destruct (collect_answers_ok _ _ (so_panels _ Hok)) as (answers & Ec & F).
  exists answers.
  assert (Hsub : QuestionApp._do_submit a = Ok (a, [Post (Answered answers)])).
  { unfold QuestionApp._do_submit. rewrite Ec. reflexivity. }
  pose proof (so_panels _ Hok) as Hps. rewrite Hq, Hq0 in Hps.
  assert (Hrec : forall (i : nat) q,
             AskUser.questions args !! i = Some q ->
             exists p s o,
               QuestionApp.panel_widgets a !! i = Some p
               /\ QuestionPanel.get_answer p = Ok (s, o)
               /\ answers !! i = Some (AskUser.question q, s, o)
               /\ panel_ok q p).
  { intros i q Hi.
    destruct (Forall2_lookup_l _ _ _ _ _ Hps Hi) as (p & Hp & Hqp).
    destruct (Forall2_lookup_l _ _ _ _ _ F Hp) as (r & Hr & s & o & Hg & ->).
    exists p, s, o. rewrite (ok_question _ _ Hqp) in Hr. auto. }
  repeat split; try assumption.
  - rewrite <- (Forall2_length _ _ _ F). symmetry.
    eapply Forall2_length; eauto.
  - intros i q Hi. destruct (Hrec i q Hi) as (p & s & o & ? & ? & ? & _).
    exists p, s, o. auto.
  - intros i q Hi Hun.
    destruct (Hrec i q Hi) as (p & s & o & Hp & Hg & Hr & Hqp).
    pose proof (so_panels _ Hok0) as Hps0. rewrite Hq0 in Hps0.
    destruct (Forall2_lookup_l _ _ _ _ _ Hps0 Hi) as (p0 & Hp0 & _).
    destruct (Hkeep i p0 Hp0 Hun) as (p' & Hp' & Hcos).
    assert (p' = p) as -> by congruence.
    assert (Hpris : pristine p).
    { eapply cosmetic_pristine; [|exact Hcos].
      rewrite Forall_forall in Hpr0. apply Hpr0.
      apply list_elem_of_lookup. eauto. }
    destruct (get_answer_pristine q p Hqp Hpris) as (s' & o' & Hg' & Hd).
    rewrite Hr. f_equal. rewrite <- Hd. congruence.
Qed.

Lemma repeat_next_tab (k : nat) (a : QuestionApp.t) :
  session_ok a -> 0 < py_len (QuestionApp.panel_widgets a) ->
  exists a',
    repeat_action QuestionApp.action_next_tab k a = Ok a'
    /\ QuestionApp.current_tab a'
       = (QuestionApp.current_tab a + Z.of_nat k)
           `mod` py_len (QuestionApp.panel_widgets a).
Proof.
  revert a. induction k as [|k IH]; intros a Hok Hn.
  - exists a. split; [reflexivity|].
    rewrite Z.add_0_r, Z.mod_small; [reflexivity|].
    destruct (so_current _ Hok) as [H0 H1]. lia.
  - destruct (next_tab_ok a Hok Hn) as (a1 & es & E & Hok1 & _ & F & Hc).
    pose proof (py_len_Forall2 _ _ _ F) as Hlen.
    destruct (IH a1 Hok1) as (a2 & E2 & Hc2); [lia|].
    exists a2. cbn [repeat_action]. rewrite E. cbn [mbind Result_bind].
    split; [exact E2|]. rewrite Hc2, Hc, Hlen.
    rewrite Z.add_mod_idemp_l by lia. f_equal. lia.
Qed.

(** C8. In every state a mounted prompt with at least one question
    reaches by commands, [next_tab] and [prev_tab] succeed and set the
    current tab to [(current_tab + 1) mod len(panels)] and
    [(current_tab - 1) mod len(panels)]; [len(panels)] calls of [next_tab] lead back to the tab
    one started from, and with a single panel both leave the current tab
    as it is. *)
Theorem tabs_cycle (args : AskUser.AskUserArgs) (cs : list Session.Command)
    (a0 a : QuestionApp.t) (es0 es : list Effect) :
  AskUser.questions args <> [] ->
  Session.start args = Ok (a0, es0) ->
  Session.run cs a0 = Ok (a, es) ->
  exists an esn ap esp ar,
    length (QuestionApp.panel_widgets a) = length (AskUser.questions args)
    /\ QuestionApp.action_next_tab a = Ok (an, esn)
    /\ QuestionApp.current_tab an
       = (QuestionApp.current_tab a + 1)
           `mod` py_len (QuestionApp.panel_widgets a)
    /\ QuestionApp.action_prev_tab a = Ok (ap, esp)
    /\ QuestionApp.current_tab ap
       = (QuestionApp.current_tab a - 1)
           `mod` py_len (QuestionApp.panel_widgets a)
    /\ repeat_action QuestionApp.action_next_tab
         (length (QuestionApp.panel_widgets a)) a = Ok ar
    /\ QuestionApp.current_tab ar = QuestionApp.current_tab a
    /\ 0 <= QuestionApp.current_tab a < py_len (QuestionApp.panel_widgets a)
    /\ (length (QuestionApp.panel_widgets a) = 1%nat ->
        QuestionApp.current_tab an = QuestionApp.current_tab a
        /\ QuestionApp.current_tab ap = QuestionApp.current_tab a).
Proof.
  intros Hne H0 H.
  destruct (start_ok args) as (a0' & es0' & E0 & Hok0 & Hq0 & _ & _).
  rewrite H0 in E0. injection E0 as <- <-.
  destruct (run_ok cs a0 Hok0) as (a' & es' & E & Hok & Hq & _).
  rewrite H in E. injection E as <- <-.
  pose proof (so_panels _ Hok) as Hps. rewrite Hq, Hq0 in Hps.
  pose proof (Forall2_length _ _ _ Hps) as Hlen.
  assert (Hn : 0 < py_len (QuestionApp.panel_widgets a)).
  { unfold py_len. rewrite <- Hlen.
    destruct (AskUser.questions args); [congruence | cbn [length]; lia]. }
  assert (Hcur : 0 <= QuestionApp.current_tab a
                 < py_len (QuestionApp.panel_widgets a)).
  { destruct (so_current _ Hok) as [Hc0 Hc1]. lia. }
  destruct (next_tab_ok a Hok Hn) as (an & esn & En & _ & _ & _ & Hcn).
  destruct (prev_tab_ok a Hok Hn) as (ap & esp & Ep & _ & _ & _ & Hcp).
  destruct (repeat_next_tab (length (QuestionApp.panel_widgets a)) a Hok Hn)
    as (ar & Er & Hcr).
  exists an, esn, ap, esp, ar.
  split; [symmetry; exact Hlen|].
  split; [exact En|]. split; [exact Hcn|].
  split; [exact Ep|]. split; [exact Hcp|]. split; [exact Er|].
  split; [|split; [exact Hcur|]].
  - rewrite Hcr. fold (py_len (QuestionApp.panel_widgets a)).
    rewrite <- (Z.mul_1_l (py_len (QuestionApp.panel_widgets a))) at 1.
    rewrite Z.mod_add by lia. apply Z.mod_small. exact Hcur.
  - intros H1. rewrite Hcn, Hcp. unfold py_len in *. rewrite H1 in *.
    change (Z.of_nat 1) with 1 in *. rewrite !Z.mod_1_r. lia.
Qed.

Lemma submit_collects_all_answers_witness :
  Session.start example_args = Ok (example_started.1, example_started.2)
  /\ Session.run [] example_started.1 = Ok (example_started.1, [])
  /\ exists answers,
       QuestionApp._do_submit example_started.1
       = Ok (example_started.1, [Post (Answered answers)])
       /\ unvisited 1 [] example_started.1 = true
       /\ answers !! 1%nat = Some ("Q2 text", "", true)
       /\ answers = [("Q1 text", "yes", false); ("Q2 text", "", true)].
Proof.
  split; [vm_compute; reflexivity|]. split; [reflexivity|].
  destruct (submit_collects_all_answers example_args []
              example_started.1 example_started.1
              example_started.2 [])
    as (answers & Hs & _ & _ & _ & Hun);
    [vm_compute; reflexivity | reflexivity |].
  exists answers.
  assert (Hu : unvisited 1 [] example_started.1 = true)
    by (vm_compute; reflexivity).
  split; [exact Hs|]. split; [exact Hu|].
  split; [exact (Hun 1%nat (AskUser.mkQuestion "Q2 text" []) eq_refl Hu)|].
  vm_compute in Hs. injection Hs as <-. reflexivity.
Defined.

Lemma tabs_cycle_witness :
  AskUser.questions example_args <> []
  /\ Session.start example_args = Ok (example_started.1, example_started.2)
  /\ Session.run example_commands example_started.1
     = Ok (example_state.1, example_state.2)
  /\ exists an esn ap esp ar,
       length (QuestionApp.panel_widgets example_state.1)
       = length (AskUser.questions example_args)
       /\ QuestionApp.action_next_tab example_state.1 = Ok (an, esn)
       /\ QuestionApp.current_tab an
          = (QuestionApp.current_tab example_state.1 + 1)
              `mod` py_len (QuestionApp.panel_widgets example_state.1)
       /\ QuestionApp.action_prev_tab example_state.1 = Ok (ap, esp)
       /\ QuestionApp.current_tab ap
          = (QuestionApp.current_tab example_state.1 - 1)
              `mod` py_len (QuestionApp.panel_widgets example_state.1)
       /\ repeat_action QuestionApp.action_next_tab
            (length (QuestionApp.panel_widgets example_state.1))
            example_state.1 = Ok ar
       /\ QuestionApp.current_tab ar = QuestionApp.current_tab example_state.1
       /\ 0 <= QuestionApp.current_tab example_state.1
             < py_len (QuestionApp.panel_widgets example_state.1)
       /\ (length (QuestionApp.panel_widgets example_state.1) = 1%nat ->
           QuestionApp.current_tab an = QuestionApp.current_tab example_state.1
           /\ QuestionApp.current_tab ap
              = QuestionApp.current_tab example_state.1).
Proof.
  split; [vm_compute; discriminate|].
  split; [vm_compute; reflexivity|]. split; [vm_compute; reflexivity|].
  apply (tabs_cycle example_args example_commands
           example_started.1 example_state.1
           example_started.2 example_state.2).
  - vm_compute. discriminate.
  - vm_compute. reflexivity.
  - vm_compute. reflexivity.
Defined.

(** The end-to-end example: two questions, no navigation, submit. *)
Example submit_without_navigation :
  ('(a, _) ← Session.start example_args;
   '(_, es) ← QuestionApp.action_submit a;
   Ok es)
  = Ok [Post (Answered [("Q1 text", "yes", false); ("Q2 text", "", true)])].
Proof. vm_compute. reflexivity. Qed.

(** ** Escape *)

(** C6. One press of escape, with the focus on the free-text input, on the
    panel or on the question widget, in whatever order the pending
    messages are handled: the question widget posts [Cancelled] exactly
    once and no [Answered], and its state is unchanged.  The same holds
    when no priority binding takes the key and it is forwarded to the
    focused input or panel, and when the panel's own [cancel] action is
    the one that runs. *)
Theorem escape_cancels_once (a : QuestionApp.t) (sched : list nat)
    (focus : Dispatch.Node) :
  (7 <= length sched)%nat ->
  (exists out,
      Dispatch.press_key sched "escape" focus a = Some (Ok (a, out))
      /\ Session.session_events out = [Cancelled])
  /\ (focus <> Dispatch.NApp ->
      exists out,
        Dispatch.forward_key sched "escape" focus a = Some (Ok (a, out))
        /\ Session.session_events out = [Cancelled])
  /\ (exists ms out,
        Dispatch.run_action Dispatch.NPanel "cancel" a = Some (Ok (a, ms, []))
        /\ Dispatch.pump sched ((fun m => (Dispatch.NPanel, m)) <$> ms) a []
           = Some (Ok (a, out))
        /\ Session.session_events out = [Cancelled]).
Proof.
  intros Hlen.
  do 7 (destruct sched as [|? sched]; [cbn [length] in Hlen; lia|]).
  clear Hlen. split; [|split].
  - destruct focus; eexists; split; reflexivity.
  - intros Hf.
    destruct focus; [| |congruence];
      destruct sched, n2 as [|?], n3 as [|?], n4 as [|?];
      eexists; split; reflexivity.
  - eexists _, _. split; [reflexivity|]. split; reflexivity.
Qed.

Lemma escape_cancels_once_witness :
  (exists out,
      Dispatch.press_key [0; 1; 0; 1; 0; 1; 0]%nat "escape" Dispatch.NInput
        (QuestionApp.__init__ example_args)
      = Some (Ok (QuestionApp.__init__ example_args, out))
      /\ Session.session_events out = [Cancelled])
  /\ (exists out,
        Dispatch.forward_key [0; 1; 0; 1; 0; 1; 0]%nat "escape" Dispatch.NInput
          (QuestionApp.__init__ example_args)
        = Some (Ok (QuestionApp.__init__ example_args, out))
        /\ Session.session_events out = [Cancelled]).
Proof.
  destruct (escape_cancels_once (QuestionApp.__init__ example_args)
              [0; 1; 0; 1; 0; 1; 0]%nat Dispatch.NInput)
    as (Hpress & Hforward & _).
  - cbn [length]. lia.
  - split; [exact Hpress | apply Hforward; discriminate].
Defined.

(** * Further properties of the code *)

(** ** Modes and the mode indicator *)

(** X1. [from_string] reads back a mode's value and its member name, but
    not every display name: the display names of DEFAULT and PLAN parse to
    their mode, the one of AUTO_APPROVE ("Auto Approve", with a space where
    the value has an underscore) parses to no mode. *)
Theorem display_name_parse (m : AgentMode) :
  from_string (AgentModeEnum.value m) = Ok (Some m)
  /\ from_string (AgentModeEnum.name m) = Ok (Some m)
  /\ exists dn,
       mode_display_name m = Ok dn
       /\ from_string dn
          = Ok (if decide (m = AUTO_APPROVE) then None else Some m).
Proof.
  destruct m; (split; [reflexivity|split; [reflexivity|]]);
    eexists; (split; [reflexivity|]); reflexivity.
Qed.

Lemma add_class_fresh (c : string) (w : Static) :
  c ∉ classes w -> add_class c w = mkStatic (renderable w) (classes w ++ [c]).
Proof.
  intros H. unfold add_class. rewrite bool_decide_eq_false_2 by exact H.
  reflexivity.
Qed.

Lemma add_class_present (c : string) (w : Static) :
  c ∈ classes w -> add_class c w = w.
Proof.
  intros H. unfold add_class. rewrite bool_decide_eq_true_2 by exact H.
  reflexivity.
Qed.

Lemma filter_not_in_nil (l : list string) :
  filter (fun x => x ∉ @nil string) l = l.
Proof.
  induction l as [|x l IH]; [reflexivity|].
  rewrite filter_cons_True by apply not_elem_of_nil. rewrite IH. reflexivity.
Qed.

Lemma foldl_remove_class (cs : list string) (w : Static) :
  foldl (fun w c => remove_class c w) w cs
  = mkStatic (renderable w) (filter (fun x => x ∉ cs) (classes w)).
Proof.
  revert w. induction cs as [|c cs IH]; intros w.
  - cbn [foldl]. rewrite filter_not_in_nil. destruct w; reflexivity.
  - cbn [foldl]. rewrite IH. unfold remove_class. cbn [renderable classes].
    f_equal. rewrite list_filter_filter. apply list_filter_iff.
    intros x. rewrite not_elem_of_cons. tauto.
Qed.

(** What [set_mode] leaves behind, whatever the indicator showed before. *)
Lemma set_mode_spec (i1 i2 i3 : string) (m : AgentMode) (w : ModeIndicator.t) :
  exists icon dn sf c,
    ModeIndicator.MODE_ICONS i1 i2 i3 !! m = Some icon
    /\ mode_display_name m = Ok dn
    /\ mode_safety m = Ok sf
    /\ ModeIndicator.SAFETY_CLASSES !! sf = Some c
    /\ c ∈ safety_class_names
    /\ ModeIndicator.set_mode i1 i2 i3 m w
       = Ok (ModeIndicator.mk (ModeIndicator.can_focus w) m
               (mkStatic
                  (icon +:+ " " +:+ py_lower dn +:+ " mode (shift+tab to cycle)")
                  (filter (fun x => x ∉ safety_class_names)
                          (classes (ModeIndicator.static w)) ++ [c]))).
Proof.
  assert (H : exists icon dn sf c,
             ModeIndicator.MODE_ICONS i1 i2 i3 !! m = Some icon
             /\ mode_display_name m = Ok dn
             /\ mode_safety m = Ok sf
             /\ ModeIndicator.SAFETY_CLASSES !! sf = Some c
             /\ py_getitem ModeIndicator.SAFETY_CLASSES sf = Ok c
             /\ c ∈ safety_class_names).
  { destruct m; eexists _, _, _, _;
      (split; [vm_compute; reflexivity|]);
      (split; [vm_compute; reflexivity|]);
      (split; [vm_compute; reflexivity|]);
      (split; [vm_compute; reflexivity|]);
      (split; [vm_compute; reflexivity|]);
      apply list_elem_of_In; vm_compute; auto 10. }
  destruct H as (icon & dn & sf & c & Hi & Hd & Hs & Hc & Hg & Hin).
  exists icon, dn, sf, c. repeat (split; [assumption|]).
  unfold ModeIndicator.set_mode, ModeIndicator._update_display.
  cbn [ModeIndicator._mode ModeIndicator.can_focus ModeIndicator.static].
  rewrite Hi, Hd. cbn [default mbind Result_bind]. rewrite Hs.
  cbn [mbind Result_bind]. rewrite Hg. cbn [mbind Result_bind].
  fold safety_class_names. rewrite foldl_remove_class.
  unfold update. cbn [renderable classes].
  rewrite add_class_fresh; [reflexivity|].
  cbn [classes]. rewrite list_elem_of_filter. tauto.
Qed.

(** X2. [set_mode] never fails, whatever the indicator showed before: the
    indicator then reports the mode that was set, keeps [can_focus], and
    its caption is the icon of the mode from [MODE_ICONS] (the fallback
    "??" is never used), a space, the lower-cased display name and
    " mode (shift+tab to cycle)".  Constructing an indicator succeeds for
    every mode as well. *)
Theorem set_mode_shows_mode (i1 i2 i3 : string) (m : AgentMode)
    (w : ModeIndicator.t) :
  exists w' w0 icon dn,
    ModeIndicator.set_mode i1 i2 i3 m w = Ok w'
    /\ ModeIndicator.__init__ i1 i2 i3 (Some m) = Ok w0
    /\ ModeIndicator.mode w' = m
    /\ ModeIndicator.mode w0 = m
    /\ ModeIndicator.can_focus w' = ModeIndicator.can_focus w
    /\ ModeIndicator.can_focus w0 = false
    /\ ModeIndicator.MODE_ICONS i1 i2 i3 !! m = Some icon
    /\ mode_display_name m = Ok dn
    /\ renderable (ModeIndicator.static w')
       = icon +:+ " " +:+ py_lower dn +:+ " mode (shift+tab to cycle)"
    /\ renderable (ModeIndicator.static w0)
       = renderable (ModeIndicator.static w').
Proof.
  destruct (set_mode_spec i1 i2 i3 m w)
    as (icon & dn & sf & c & Hi & Hd & Hs & Hc & Hin & E).
  destruct (set_mode_spec i1 i2 i3 m
              (ModeIndicator.mk false AUTO_APPROVE (mkStatic "" [])))
    as (icon0 & dn0 & sf0 & c0 & Hi0 & Hd0 & _ & _ & _ & E0).
  assert (icon0 = icon) as -> by congruence.
  assert (dn0 = dn) as -> by congruence.
  eexists _, _, icon, dn. split; [exact E|].
  split; [exact E0|]. repeat split; assumption.
Qed.

(** X3. After [set_mode], whatever classes the indicator carried, exactly
    one of the three safety classes is on it, the one of the new mode's
    safety tier; every other class is kept as it was.  The class differs
    from mode to mode, so it tells which mode is shown. *)
Theorem set_mode_one_safety_class (i1 i2 i3 : string) (m : AgentMode)
    (w : ModeIndicator.t) :
  exists w' sf c,
    ModeIndicator.set_mode i1 i2 i3 m w = Ok w'
    /\ mode_safety m = Ok sf
    /\ ModeIndicator.SAFETY_CLASSES !! sf = Some c
    /\ (forall x, x ∈ safety_class_names ->
          (x ∈ classes (ModeIndicator.static w') <-> x = c))
    /\ (forall x, x ∉ safety_class_names ->
          (x ∈ classes (ModeIndicator.static w')
           <-> x ∈ classes (ModeIndicator.static w)))
    /\ (forall m' sf',
          mode_safety m' = Ok sf' ->
          ModeIndicator.SAFETY_CLASSES !! sf' = Some c -> m' = m).
Proof.
  destruct (set_mode_spec i1 i2 i3 m w)
    as (icon & dn & sf & c & Hi & Hd & Hs & Hc & Hin & E).
  eexists _, sf, c. split; [exact E|]. split; [exact Hs|]. split; [exact Hc|].
  cbn [ModeIndicator.static classes]. split; [|split].
  - intros x Hx. rewrite elem_of_app, list_elem_of_filter, list_elem_of_singleton.
    tauto.
  - intros x Hx. rewrite elem_of_app, list_elem_of_filter, list_elem_of_singleton.
    split; [|tauto]. intros [[_ H]| ->]; [exact H | contradiction].
  - intros m' sf' Hs' Hc'.
    destruct m; vm_compute in Hs; injection Hs as <-;
      vm_compute in Hc; injection Hc as <-;
      destruct m'; vm_compute in Hs'; injection Hs' as <-;
      vm_compute in Hc'; congruence.
Qed.

Lemma set_mode_one_safety_class_witness :
  exists w',
    ModeIndicator.set_mode "a" "b" "c" PLAN
      (ModeIndicator.mk false DEFAULT
         (mkStatic "" ["mode-yolo"; "banner"; "mode-neutral"])) = Ok w'
    /\ ("mode-safe" ∈ classes (ModeIndicator.static w') <-> "mode-safe" = "mode-safe")
    /\ ("mode-yolo" ∈ classes (ModeIndicator.static w') <-> "mode-yolo" = "mode-safe")
    /\ ("banner" ∈ classes (ModeIndicator.static w')
        <-> "banner" ∈ ["mode-yolo"; "banner"; "mode-neutral"]).
Proof.
  destruct (set_mode_one_safety_class "a" "b" "c" PLAN
              (ModeIndicator.mk false DEFAULT
                 (mkStatic "" ["mode-yolo"; "banner"; "mode-neutral"])))
    as (w' & sf & c & E & Hs & Hc & Hsafe & Hother & _).
  vm_compute in Hs. injection Hs as <-.
  vm_compute in Hc. injection Hc as <-.
  exists w'. split; [exact E|]. split; [|split].
  - apply Hsafe. apply list_elem_of_In. vm_compute. auto 10.
  - apply Hsafe. apply list_elem_of_In. vm_compute. auto 10.
  - apply Hother. intros H. apply list_elem_of_In in H. vm_compute in H.
    repeat destruct H as [H|H]; try discriminate H. exact H.
Defined.

(** X4. The display depends on the last mode set only: setting a mode and
    then another leaves the indicator exactly as setting the second one
    directly; in particular setting the same mode twice changes nothing
    the second time. *)
Theorem set_mode_last_wins (i1 i2 i3 : string) (m1 m2 : AgentMode)
    (w : ModeIndicator.t) :
  (w1 ← ModeIndicator.set_mode i1 i2 i3 m1 w;
   ModeIndicator.set_mode i1 i2 i3 m2 w1)
  = ModeIndicator.set_mode i1 i2 i3 m2 w.
Proof.
  destruct (set_mode_spec i1 i2 i3 m1 w)
    as (icon1 & dn1 & sf1 & c1 & _ & _ & _ & _ & Hin1 & E1).
  rewrite E1. cbn [mbind Result_bind].
  destruct (set_mode_spec i1 i2 i3 m2 w)
    as (icon2 & dn2 & sf2 & c2 & Hi2 & Hd2 & Hs2 & Hc2 & _ & E2).
  rewrite E2.
  match goal with |- ModeIndicator.set_mode _ _ _ _ ?w1 = _ =>
    destruct (set_mode_spec i1 i2 i3 m2 w1)
      as (icon & dn & sf & c & Hi & Hd & Hs & Hc & _ & E)
  end.
  rewrite E. cbn [ModeIndicator.can_focus ModeIndicator.static classes].
  assert (icon = icon2) as -> by congruence.
  assert (dn = dn2) as -> by congruence.
  assert (sf = sf2) as -> by congruence.
  assert (c = c2) as -> by congruence.
  do 4 f_equal. rewrite filter_app.
  rewrite list_filter_filter_l by auto.
  rewrite filter_cons_False by tauto. rewrite filter_nil, app_nil_r.
  reflexivity.
Qed.

(** ** Tabs *)

(** X5. [set_active] records the flag, shows the tab's label, and puts the
    class "question-tab-active" on the tab exactly when it is active,
    whatever classes the tab had; the other classes are untouched, and
    calling it again with the same flag changes nothing. *)
Theorem tab_set_active (b : bool) (t : QuestionTab.t) :
  QuestionTab.is_active (QuestionTab.set_active b t) = b
  /\ QuestionTab.tab_label (QuestionTab.set_active b t) = QuestionTab.tab_label t
  /\ QuestionTab.tab_index (QuestionTab.set_active b t) = QuestionTab.tab_index t
  /\ renderable (QuestionTab.static (QuestionTab.set_active b t))
     = QuestionTab.tab_label t
  /\ ("question-tab-active"
        ∈ classes (QuestionTab.static (QuestionTab.set_active b t))
      <-> b = true)
  /\ (forall x, x <> "question-tab-active" ->
        (x ∈ classes (QuestionTab.static (QuestionTab.set_active b t))
         <-> x ∈ classes (QuestionTab.static t)))
  /\ QuestionTab.set_active b (QuestionTab.set_active b t)
     = QuestionTab.set_active b t.
Proof.
  destruct t as [lbl idx act [r cls]].
  unfold QuestionTab.set_active, QuestionTab._update_display, update.
  cbn [QuestionTab.is_active QuestionTab.tab_label QuestionTab.tab_index
       QuestionTab.static classes renderable].
  destruct b.
  - destruct (decide ("question-tab-active" ∈ cls)) as [Hin|Hout].
    + repeat (rewrite add_class_present by exact Hin;
              cbn [renderable classes]).
      repeat split; auto.
    + rewrite add_class_fresh by exact Hout. cbn [renderable classes].
      rewrite add_class_present
        by (cbn [classes]; rewrite elem_of_app, list_elem_of_singleton; auto).
      repeat split; auto.
      * rewrite elem_of_app, list_elem_of_singleton. auto.
      * rewrite elem_of_app, list_elem_of_singleton. tauto.
      * rewrite elem_of_app. auto.
  - unfold remove_class. cbn [renderable classes].
    repeat split; auto.
    + rewrite list_elem_of_filter. intros [H _]. congruence.
    + discriminate.
    + rewrite list_elem_of_filter. tauto.
    + rewrite list_elem_of_filter. tauto.
    + rewrite list_filter_filter_l by auto. reflexivity.
Qed.

(** ** Panels: drawing, focus and answers *)

Lemma py_get_nonneg {A} (l : list A) (i : Z) (x : A) :
  0 <= i -> py_get l i = Ok x -> l !! Z.to_nat i = Some x.
Proof.
  intros Hi. unfold py_get, py_norm.
  destruct (Z.leb_spec 0 i); [|lia].
  destruct (i <? py_len l); [|discriminate].
  destruct (l !! Z.to_nat i); [congruence | discriminate].
Qed.

(** The state and the focus request [_update_options] returns, given the
    redrawn option widgets. *)
Lemma _update_options_eq (p : QuestionPanel.t) (ws : list Static) :
  QuestionPanel.update_option_widgets (QuestionPanel.choices p)
    (QuestionPanel.selected_option p) 0 (QuestionPanel.option_widgets p)
  = Ok ws ->
  QuestionPanel._update_options p
  = Ok (QuestionPanel.mk
          (QuestionPanel.question_data p) (QuestionPanel.index p)
          (QuestionPanel.choices p) (QuestionPanel.max_choices p)
          (QuestionPanel.selected_option p) (QuestionPanel.total_options p)
          ws (QuestionPanel.text_input p)
          (update (if QuestionPanel.selected_option p
                      =? py_len (QuestionPanel.choices p)
                   then "> " else "  ")
             <$> QuestionPanel.other_cursor p)
          (match QuestionPanel.text_input p with
           | Some _ => QuestionPanel.selected_option p
                       =? py_len (QuestionPanel.choices p)
           | None => QuestionPanel.is_other_mode p
           end)
          (QuestionPanel.question_text p) (QuestionPanel.padding p)
          (QuestionPanel.display p),
        match QuestionPanel.text_input p with
        | Some _ =>
            if QuestionPanel.selected_option p
               =? py_len (QuestionPanel.choices p)
            then [FocusTextInput]
            else if QuestionPanel.is_other_mode p then [FocusPanel] else []
        | None => []
        end).
Proof.
  intros Hws. unfold QuestionPanel._update_options. rewrite Hws.
  destruct p as [qd ix cs mc sel tot ows ti oc om qt pd dp].
  cbn.
  destruct oc as [c|], ti as [i|]; cbn;
    destruct (sel =? py_len cs); cbn; try destruct om; reflexivity.
Qed.

(** One redrawn option widget. *)
Lemma drawn_widget_classes (b : bool) (t : string) (w : Static) :
  let w' := (if b
             then add_class "question-option-selected"
                    (remove_class "question-option-selected" (update t w))
             else remove_class "question-option-selected" (update t w)) in
  renderable w' = t
  /\ ("question-option-selected" ∈ classes w' <-> b = true)
  /\ (forall x, x <> "question-option-selected" ->
        (x ∈ classes w' <-> x ∈ classes w)).
Proof.
  cbv zeta. unfold remove_class, update. cbn [renderable classes].
  destruct b.
  - rewrite add_class_fresh
      by (cbn [classes]; rewrite list_elem_of_filter; tauto).
    cbn [renderable classes]. repeat split; auto.
    + rewrite elem_of_app, list_elem_of_singleton. auto.
    + rewrite elem_of_app, list_elem_of_filter, list_elem_of_singleton. tauto.
    + rewrite elem_of_app, list_elem_of_filter. tauto.
  - cbn [renderable classes]. repeat split; auto.
    + rewrite list_elem_of_filter. tauto.
    + discriminate.
    + rewrite list_elem_of_filter. tauto.
    + rewrite list_elem_of_filter. tauto.
Qed.

Lemma update_option_widgets_lookup (cs : list AskUser.Choice) (sel : Z)
    (ws ws' : list Static) (idx : Z) :
  0 <= idx ->
  QuestionPanel.update_option_widgets cs sel idx ws = Ok ws' ->
  length ws' = length ws
  /\ forall (i : nat) w',
       ws' !! i = Some w' ->
       exists w c,
         ws !! i = Some w
         /\ cs !! Z.to_nat (idx + Z.of_nat i) = Some c
         /\ renderable w'
            = (if idx + Z.of_nat i =? sel then "> " else "  ")
              +:+ QuestionPanel.option_text c
         /\ ("question-option-selected" ∈ classes w'
             <-> idx + Z.of_nat i = sel)
         /\ (forall x, x <> "question-option-selected" ->
               (x ∈ classes w' <-> x ∈ classes w)).
Proof.
  revert ws' idx. induction ws as [|w ws IH]; intros ws' idx Hidx H.
  - cbn in H. injection H as <-. split; [reflexivity|]. intros i w' Hi.
    rewrite lookup_nil in Hi. discriminate.
  - cbn [QuestionPanel.update_option_widgets] in H.
    destruct (py_get cs idx) as [c|e] eqn:Hc; [|discriminate].
    cbn [mbind Result_bind] in H.
    destruct (QuestionPanel.update_option_widgets cs sel (idx + 1) ws)
      as [rest|e] eqn:Hrest; [|discriminate].
    cbn [mbind Result_bind] in H. injection H as <-.
    destruct (IH rest (idx + 1)) as [Hlen Hrec]; [lia | exact Hrest |].
    split; [cbn [length]; congruence|].
    intros [|i] w' Hi.
    + cbn in Hi. injection Hi as <-. exists w, c.
      split; [reflexivity|]. rewrite Z.add_0_r.
      split; [apply py_get_nonneg; assumption|].
      pose proof (drawn_widget_classes (idx =? sel)
                    ((if idx =? sel then "> " else "  ")
                     +:+ QuestionPanel.option_text c) w) as Hd.
      cbv zeta in Hd. destruct Hd as (Hr & Hsel & Hoth).
      split; [exact Hr|]. split; [|exact Hoth].
      rewrite Hsel. apply Z.eqb_eq.
    + cbn in Hi. destruct (Hrec i w' Hi) as (w0 & c0 & Hw0 & Hc0 & Hr & Hs & Ho).
      exists w0, c0. split; [exact Hw0|].
      replace (idx + Z.of_nat (S i)) with (idx + 1 + Z.of_nat i) by lia.
      auto.
Qed.

Lemma redraw_absorb (b : bool) (t t' : string) (w : Static) :
  remove_class "question-option-selected"
    (update t
       (if b
        then add_class "question-option-selected"
               (remove_class "question-option-selected" (update t' w))
        else remove_class "question-option-selected" (update t' w)))
  = remove_class "question-option-selected" (update t w).
Proof.
  unfold remove_class, update. cbn [renderable classes].
  destruct b.
  - rewrite add_class_fresh
      by (cbn [classes]; rewrite list_elem_of_filter; tauto).
    cbn [renderable classes]. f_equal.
    rewrite filter_app, list_filter_filter_l by auto.
    rewrite filter_cons_False by tauto. rewrite filter_nil, app_nil_r.
    reflexivity.
  - cbn [renderable classes]. f_equal.
    rewrite list_filter_filter_l by auto. reflexivity.
Qed.

(** Redrawing for a selection forgets for which selection the widgets were
    drawn before. *)
Lemma update_option_widgets_absorb (cs : list AskUser.Choice) (sel sel' : Z)
    (ws ws1 : list Static) (idx : Z) :
  QuestionPanel.update_option_widgets cs sel' idx ws = Ok ws1 ->
  QuestionPanel.update_option_widgets cs sel idx ws1
  = QuestionPanel.update_option_widgets cs sel idx ws.
Proof.
  revert ws1 idx. induction ws as [|w ws IH]; intros ws1 idx H.
  - cbn in H. injection H as <-. reflexivity.
  - cbn [QuestionPanel.update_option_widgets] in H.
    destruct (py_get cs idx) as [c|e] eqn:Hc; [|discriminate].
    cbn [mbind Result_bind] in H.
    destruct (QuestionPanel.update_option_widgets cs sel' (idx + 1) ws)
      as [rest|e] eqn:Hrest; [|discriminate].
    cbn [mbind Result_bind] in H. injection H as <-.
    cbn [QuestionPanel.update_option_widgets]. rewrite Hc.
    cbn [mbind Result_bind]. rewrite (IH rest (idx + 1) Hrest).
    rewrite redraw_absorb. reflexivity.
Qed.

Lemma update_result_stable (p p' : QuestionPanel.t) (fs : list FocusTarget) :
  widgets_fit p ->
  is_Some (QuestionPanel.other_cursor p) ->
  QuestionPanel._update_options p = Ok (p', fs) ->
  panel_stable p'.
Proof.
  intros Hfit [oc Hoc] H. unfold widgets_fit in Hfit.
  destruct (update_option_widgets_ok (QuestionPanel.choices p)
              (QuestionPanel.selected_option p)
              (QuestionPanel.option_widgets p) 0) as (ws & Hws & _);
    [lia | unfold py_len; lia |].
  rewrite (_update_options_eq p ws Hws) in H. injection H as <- _.
  unfold panel_stable.
  cbn [QuestionPanel.choices QuestionPanel.selected_option
       QuestionPanel.option_widgets QuestionPanel.other_cursor].
  split.
  - rewrite (update_option_widgets_absorb _ _ _ _ _ _ Hws). exact Hws.
  - rewrite Hoc. eexists. split; reflexivity.
Qed.

Lemma panel_stable_ext (p p' : QuestionPanel.t) :
  QuestionPanel.choices p' = QuestionPanel.choices p ->
  QuestionPanel.selected_option p' = QuestionPanel.selected_option p ->
  QuestionPanel.option_widgets p' = QuestionPanel.option_widgets p ->
  QuestionPanel.other_cursor p' = QuestionPanel.other_cursor p ->
  panel_stable p -> panel_stable p'.
Proof.
  intros E1 E2 E3 E4. unfold panel_stable. rewrite E1, E2, E3, E4. auto.
Qed.

Lemma compose_other_cursor (p : QuestionPanel.t) :
  is_Some (QuestionPanel.other_cursor (QuestionPanel.compose p)).
Proof.
  unfold QuestionPanel.compose. destruct (0 <? _); cbn; eauto.
Qed.

Lemma on_mount_unfold (p : QuestionPanel.t) :
  QuestionPanel.on_mount p = QuestionPanel._update_options p.
Proof. reflexivity. Qed.

Lemma mounted_stable (q : AskUser.Question) (idx mc : Z) (p : QuestionPanel.t) :
  panel_mounted q idx mc p -> panel_stable p.
Proof.
  induction 1 as [p fs Hm | p p' fs Hp IH Hm | p p' fs Hp IH Hm
                  | p s Hp IH | p b Hp IH | p p' f Hp IH Hm].
  - rewrite on_mount_unfold in Hm.
    eapply update_result_stable; [| |exact Hm].
    + apply widgets_fit_fresh.
    + apply compose_other_cursor.
  - apply panel_mounted_ok in Hp.
    unfold QuestionPanel.move_up in Hm.
    rewrite py_mod_ok in Hm by (eapply panel_ok_total_nonzero; eauto).
    cbn [mbind Result_bind] in Hm.
    eapply update_result_stable; [| |exact Hm].
    + exact (panel_ok_fit q p Hp).
    + destruct IH as [_ (oc & Hoc & _)].
      cbn [QuestionPanel.set_selected_option QuestionPanel.other_cursor].
      rewrite Hoc. eauto.
  - apply panel_mounted_ok in Hp.
    unfold QuestionPanel.move_down in Hm.
    rewrite py_mod_ok in Hm by (eapply panel_ok_total_nonzero; eauto).
    cbn [mbind Result_bind] in Hm.
    eapply update_result_stable; [| |exact Hm].
    + exact (panel_ok_fit q p Hp).
    + destruct IH as [_ (oc & Hoc & _)].
      cbn [QuestionPanel.set_selected_option QuestionPanel.other_cursor].
      rewrite Hoc. eauto.
  - unfold QuestionPanel.edit_text.
    destruct (QuestionPanel.text_input p); [|exact IH].
    eapply panel_stable_ext; [| | | |exact IH]; reflexivity.
  - eapply panel_stable_ext; [| | | |exact IH]; reflexivity.
  - unfold QuestionPanel.with_question_text in Hm.
    destruct (QuestionPanel.question_text p); [|discriminate].
    injection Hm as <-.
    eapply panel_stable_ext; [| | | |exact IH]; reflexivity.
Qed.

(** X6. In every state of a mounted panel there is one option widget per
    choice; the widget of choice [i] shows the cursor "> " when [i] is the
    selection and two blanks otherwise, then the label, followed by " - "
    and the description when the choice has a non-empty one; it carries
    the class "question-option-selected" exactly when [i] is the selection.
    The free-text line shows the cursor exactly when the selection is on
    it.  So exactly one line of the panel carries the cursor. *)
Theorem mounted_panel_drawn (q : AskUser.Question) (idx mc : Z)
    (p : QuestionPanel.t) :
  panel_mounted q idx mc p ->
  length (QuestionPanel.option_widgets p) = length (QuestionPanel.choices p)
  /\ (forall (i : nat) w,
        QuestionPanel.option_widgets p !! i = Some w ->
        exists c,
          QuestionPanel.choices p !! i = Some c
          /\ renderable w
             = (if Z.of_nat i =? QuestionPanel.selected_option p
                then "> " else "  ")
               +:+ AskUser.label c
               +:+ match AskUser.description c with
                   | Some (String a d) => " - " +:+ String a d
                   | _ => ""
                   end
          /\ ("question-option-selected" ∈ classes w
              <-> Z.of_nat i = QuestionPanel.selected_option p))
  /\ (exists oc,
        QuestionPanel.other_cursor p = Some oc
        /\ renderable oc
           = (if QuestionPanel.selected_option p
                 =? py_len (QuestionPanel.choices p)
              then "> " else "  "))
  /\ 0 <= QuestionPanel.selected_option p <= py_len (QuestionPanel.choices p).
Proof.
  intros Hm. pose proof (panel_mounted_ok _ _ _ _ Hm) as Hok.
  destruct (mounted_stable _ _ _ _ Hm) as [Hws Hoc].
  split; [exact (ok_widgets _ _ Hok)|]. split; [|split; [exact Hoc|]].
  - intros i w Hi.
    destruct (update_option_widgets_lookup _ _ _ _ 0 ltac:(lia) Hws)
      as [_ Hrec].
    destruct (Hrec i w Hi) as (w0 & c & _ & Hc & Hr & Hs & _).
    rewrite Z.add_0_l, Nat2Z.id in Hc. rewrite Z.add_0_l in Hr, Hs.
    exists c. split; [exact Hc|]. split; [|exact Hs].
    rewrite Hr. f_equal. unfold QuestionPanel.option_text.
    destruct (AskUser.description c) as [[|a d]|]; cbn [py_truthy default].
    + clear. induction (AskUser.label c) as [|x l IH]; [reflexivity|].
      rewrite append_cons, <- IH. reflexivity.
    + reflexivity.
    + clear. induction (AskUser.label c) as [|x l IH]; [reflexivity|].
      rewrite append_cons, <- IH. reflexivity.
  - pose proof (ok_selected _ _ Hok) as Hs.
    rewrite (ok_total _ _ Hok) in Hs. lia.
Qed.

Lemma example_other_mounted :
  panel_mounted (AskUser.mkQuestion "Anything else?" []) 0 2 example_other.
Proof.
  assert (E : exists p fs,
             QuestionPanel.on_mount
               (QuestionPanel.compose
                  (QuestionPanel.__init__
                     (AskUser.mkQuestion "Anything else?" []) 0 2))
             = Ok (p, fs)
             /\ example_other = QuestionPanel.edit_text "  hi  " p).
  { eexists _, _. split; vm_compute; reflexivity. }
  destruct E as (p & fs & Hm & ->).
  apply pm_edit_text. eapply pm_mount. exact Hm.
Qed.

Lemma example_mounted_mounted :
  panel_mounted
    (AskUser.mkQuestion "Proceed?"
       [AskUser.mkChoice "yes" None; AskUser.mkChoice "no" (Some "stop here")])
    0 2 example_mounted.
Proof. eapply pm_mount. vm_compute. reflexivity. Qed.

Lemma mounted_panel_drawn_witness :
  length (QuestionPanel.option_widgets example_mounted)
  = length (QuestionPanel.choices example_mounted)
  /\ (exists oc,
        QuestionPanel.other_cursor example_mounted = Some oc
        /\ renderable oc = "  ").
Proof.
  destruct (mounted_panel_drawn
              (AskUser.mkQuestion "Proceed?"
                 [AskUser.mkChoice "yes" None;
                  AskUser.mkChoice "no" (Some "stop here")])
              0 2 example_mounted) as (H1 & _ & (oc & E & R) & _).
  { exact example_mounted_mounted. }
  split; [exact H1|]. exists oc. split; [exact E | exact R].
Defined.

(** Selecting [n] and redrawing, on a mounted panel. *)
Lemma select_redraw (q : AskUser.Question) (p : QuestionPanel.t) (n : Z) :
  panel_ok q p ->
  exists ws,
    QuestionPanel.update_option_widgets (QuestionPanel.choices p) n 0
      (QuestionPanel.option_widgets p) = Ok ws
    /\ QuestionPanel._update_options (QuestionPanel.set_selected_option n p)
       = Ok (QuestionPanel.mk
               (QuestionPanel.question_data p) (QuestionPanel.index p)
               (QuestionPanel.choices p) (QuestionPanel.max_choices p)
               n (QuestionPanel.total_options p) ws
               (QuestionPanel.text_input p)
               (update (if n =? py_len (QuestionPanel.choices p)
                        then "> " else "  ")
                  <$> QuestionPanel.other_cursor p)
               (n =? py_len (QuestionPanel.choices p))
               (QuestionPanel.question_text p) (QuestionPanel.padding p)
               (QuestionPanel.display p),
             focus_directive (py_len (QuestionPanel.choices p))
               (QuestionPanel.selected_option p) n).
Proof.
  intros Hok.
  destruct (update_option_widgets_ok (QuestionPanel.choices p) n
              (QuestionPanel.option_widgets p) 0) as (ws & Hws & _);
    [lia | unfold py_len; rewrite (ok_widgets _ _ Hok); lia |].
  exists ws. split; [exact Hws|].
  rewrite (_update_options_eq (QuestionPanel.set_selected_option n p) ws Hws).
  cbn [QuestionPanel.set_selected_option QuestionPanel.question_data
       QuestionPanel.index QuestionPanel.choices QuestionPanel.max_choices
       QuestionPanel.selected_option QuestionPanel.total_options
       QuestionPanel.option_widgets QuestionPanel.text_input
       QuestionPanel.other_cursor QuestionPanel.is_other_mode
       QuestionPanel.question_text QuestionPanel.padding QuestionPanel.display].
  destruct (ok_input _ _ Hok) as [i ->].
  rewrite (ok_other_mode _ _ Hok). reflexivity.
Qed.

(** X7. On a mounted panel both moves succeed, and the focus request each
    one issues depends on the selection before and after: the free-text
    input is asked to take the focus whenever the selection is on the
    free-text line afterwards (also when it was there already), the panel
    is asked to take it back when the selection has just left that line,
    and no request is issued otherwise. *)
Theorem move_focus_requests (q : AskUser.Question) (idx mc : Z)
    (p : QuestionPanel.t) :
  panel_mounted q idx mc p ->
  exists pd pu,
    QuestionPanel.move_down p
    = Ok (pd, focus_directive (py_len (QuestionPanel.choices p))
                (QuestionPanel.selected_option p)
                (QuestionPanel.selected_option pd))
    /\ QuestionPanel.move_up p
       = Ok (pu, focus_directive (py_len (QuestionPanel.choices p))
                   (QuestionPanel.selected_option p)
                   (QuestionPanel.selected_option pu))
    /\ QuestionPanel.selected_option pd
       = (QuestionPanel.selected_option p + 1)
           `mod` (py_len (QuestionPanel.choices p) + 1)
    /\ QuestionPanel.selected_option pu
       = (QuestionPanel.selected_option p - 1)
           `mod` (py_len (QuestionPanel.choices p) + 1).
Proof.
  intros Hm. pose proof (panel_mounted_ok _ _ _ _ Hm) as Hok.
  pose proof (panel_ok_total_nonzero _ _ Hok) as Hk.
  destruct (select_redraw q p
              ((QuestionPanel.selected_option p + 1)
                 `mod` QuestionPanel.total_options p) Hok)
    as (wd & _ & Ed).
  destruct (select_redraw q p
              ((QuestionPanel.selected_option p - 1)
                 `mod` QuestionPanel.total_options p) Hok)
    as (wu & _ & Eu).
  unfold QuestionPanel.move_down, QuestionPanel.move_up.
  rewrite !py_mod_ok by exact Hk. cbn [mbind Result_bind].
  rewrite Ed, Eu. rewrite <- (ok_total _ _ Hok).
  match goal with
  | |- exists pd pu, Ok (?a, _) = _ /\ Ok (?b, _) = _ /\ _ => exists a, b
  end.
  repeat split; reflexivity.
Qed.

Lemma move_focus_requests_witness :
  exists pd pu,
    QuestionPanel.move_down example_other = Ok (pd, [FocusTextInput])
    /\ QuestionPanel.move_up example_mounted = Ok (pu, [FocusTextInput]).
Proof.
  destruct (move_focus_requests (AskUser.mkQuestion "Anything else?" []) 0 2
              example_other) as (pd & _ & Ed & _ & Hd & _).
  { exact example_other_mounted. }
  destruct (move_focus_requests
              (AskUser.mkQuestion "Proceed?"
                 [AskUser.mkChoice "yes" None;
                  AskUser.mkChoice "no" (Some "stop here")])
              0 2 example_mounted) as (_ & pu & _ & Eu & _ & Hu).
  { exact example_mounted_mounted. }
  exists pd, pu. rewrite Hd in Ed. rewrite Hu in Eu.
  split; [exact Ed | exact Eu].
Defined.

(** Selecting something else on a drawn panel and then the former
    selection again gives the panel back as it was. *)
Lemma reselect_restores (q : AskUser.Question) (p p1 : QuestionPanel.t)
    (n : Z) (f1 : list FocusTarget) :
  panel_ok q p -> panel_stable p ->
  QuestionPanel._update_options (QuestionPanel.set_selected_option n p)
  = Ok (p1, f1) ->
  exists f2,
    QuestionPanel._update_options
      (QuestionPanel.set_selected_option (QuestionPanel.selected_option p) p1)
    = Ok (p, f2)
    /\ QuestionPanel.total_options p1 = QuestionPanel.total_options p
    /\ QuestionPanel.selected_option p1 = n.
Proof.
  intros Hok [Hst (o & Ho & Hr)] H.
  destruct (select_redraw q p n Hok) as (ws1 & Hws1 & E1).
  rewrite E1 in H. injection H as <- _.
  exists (focus_directive (py_len (QuestionPanel.choices p)) n
            (QuestionPanel.selected_option p)).
  split; [|split; reflexivity].
  rewrite (_update_options_eq _ (QuestionPanel.option_widgets p)).
  - destruct (ok_input _ _ Hok) as [i Hi].
    pose proof (ok_other_mode _ _ Hok) as Hom.
    destruct p as [qd ix cs mc sel tot ows ti oc om qt pd dp].
    cbn in *. subst ti oc om. destruct o as [r cl]. cbn in Hr. subst r.
    cbn. unfold update. cbn. reflexivity.
  - cbn [QuestionPanel.set_selected_option QuestionPanel.choices
         QuestionPanel.selected_option QuestionPanel.option_widgets].
    rewrite (update_option_widgets_absorb _ _ _ _ _ _ Hws1). exact Hst.
Qed.

(** X8. On a mounted panel [move_down] followed by [move_up], and
    [move_up] followed by [move_down], give the panel back exactly as it
    was: the selection, what every line shows, the classes and
    [is_other_mode]. *)
Theorem move_down_up_restores (q : AskUser.Question) (idx mc : Z)
    (p : QuestionPanel.t) :
  panel_mounted q idx mc p ->
  exists p1 f1 f2 p2 g1 g2,
    QuestionPanel.move_down p = Ok (p1, f1)
    /\ QuestionPanel.move_up p1 = Ok (p, f2)
    /\ QuestionPanel.move_up p = Ok (p2, g1)
    /\ QuestionPanel.move_down p2 = Ok (p, g2).
Proof.
  intros Hm. pose proof (panel_mounted_ok _ _ _ _ Hm) as Hok.
  pose proof (mounted_stable _ _ _ _ Hm) as Hst.
  pose proof (panel_ok_total_nonzero _ _ Hok) as Hk.
  pose proof (ok_selected _ _ Hok) as Hsel.
  destruct (panel_ok_move_down q p Hok) as (p1 & f1 & E1 & _).
  destruct (panel_ok_move_up q p Hok) as (p2 & g1 & E2 & _).
  exists p1, f1.
  pose proof E1 as E1'. unfold QuestionPanel.move_down in E1'.
  rewrite py_mod_ok in E1' by exact Hk. cbn [mbind Result_bind] in E1'.
  destruct (reselect_restores q p p1 _ f1 Hok Hst E1') as (f2 & R1 & T1 & S1).
  pose proof E2 as E2'. unfold QuestionPanel.move_up in E2'.
  rewrite py_mod_ok in E2' by exact Hk. cbn [mbind Result_bind] in E2'.
  destruct (reselect_restores q p p2 _ g1 Hok Hst E2') as (g2 & R2 & T2 & S2).
  exists f2, p2, g1, g2.
  split; [exact E1|]. split; [|split; [exact E2|]].
  - unfold QuestionPanel.move_up. rewrite T1, S1, py_mod_ok by exact Hk.
    cbn [mbind Result_bind]. rewrite Zminus_mod_idemp_l.
    replace (QuestionPanel.selected_option p + 1 - 1)
      with (QuestionPanel.selected_option p) by lia.
    rewrite Z.mod_small by exact Hsel. exact R1.
  - unfold QuestionPanel.move_down. rewrite T2, S2, py_mod_ok by exact Hk.
    cbn [mbind Result_bind]. rewrite Zplus_mod_idemp_l.
    replace (QuestionPanel.selected_option p - 1 + 1)
      with (QuestionPanel.selected_option p) by lia.
    rewrite Z.mod_small by exact Hsel. exact R2.
Qed.

Lemma move_down_up_restores_witness :
  exists p1 f1 f2,
    QuestionPanel.move_down example_mounted = Ok (p1, f1)
    /\ QuestionPanel.move_up p1 = Ok (example_mounted, f2).
Proof.
  destruct (move_down_up_restores
              (AskUser.mkQuestion "Proceed?"
                 [AskUser.mkChoice "yes" None;
                  AskUser.mkChoice "no" (Some "stop here")])
              0 2 example_mounted)
    as (p1 & f1 & f2 & _ & _ & _ & E1 & E2 & _).
  { exact example_mounted_mounted. }
  exists p1, f1, f2. split; [exact E1 | exact E2].
Defined.

Lemma all_space_strip (s : string) : all_space s = true -> py_strip s = "".
Proof.
  intros H. unfold py_strip.
  assert (Hr : py_rstrip s = "").
  { induction s as [|c s IH]; [reflexivity|].
    cbn [all_space] in H. apply andb_true_iff in H as [Hc Hs].
    cbn [py_rstrip]. rewrite (IH Hs), Hc. reflexivity. }
  rewrite Hr. reflexivity.
Qed.

(** X9. On a mounted panel typed text only counts while the selection is
    on the free-text line: then the answer is the typed text without the
    whitespace at its two ends, marked as free text, and text made of
    whitespace only (or no text) gives the empty answer; while a choice is
    selected, typing changes neither the answer nor the selection. *)
Theorem free_text_answer (q : AskUser.Question) (idx mc : Z)
    (p : QuestionPanel.t) (s : string) :
  panel_mounted q idx mc p ->
  QuestionPanel.selected_option (QuestionPanel.edit_text s p)
  = QuestionPanel.selected_option p
  /\ (QuestionPanel.selected_option p = py_len (QuestionPanel.choices p) ->
      QuestionPanel.get_answer (QuestionPanel.edit_text s p)
      = Ok (py_strip s, true)
      /\ (all_space s = true ->
          QuestionPanel.get_answer (QuestionPanel.edit_text s p)
          = Ok ("", true)))
  /\ (QuestionPanel.selected_option p < py_len (QuestionPanel.choices p) ->
      QuestionPanel.get_answer (QuestionPanel.edit_text s p)
      = QuestionPanel.get_answer p).
Proof.
  intros Hm. pose proof (panel_mounted_ok _ _ _ _ Hm) as Hok.
  destruct (ok_input _ _ Hok) as [i Hi].
  unfold QuestionPanel.edit_text, QuestionPanel.get_answer. rewrite Hi.
  cbn [QuestionPanel.set_text_input QuestionPanel.selected_option
       QuestionPanel.choices QuestionPanel.text_input value].
  split; [reflexivity|]. split.
  - intros ->. rewrite Z.ltb_irrefl. split; [reflexivity|].
    intros Hs. rewrite (all_space_strip s Hs). reflexivity.
  - intros Hlt.
    destruct (Z.ltb_spec (QuestionPanel.selected_option p)
                (py_len (QuestionPanel.choices p))); [reflexivity | lia].
Qed.

Lemma free_text_answer_witness :
  QuestionPanel.get_answer (QuestionPanel.edit_text "   " example_other)
  = Ok ("", true)
  /\ QuestionPanel.get_answer (QuestionPanel.edit_text "typed" example_mounted)
     = QuestionPanel.get_answer example_mounted.
Proof.
  destruct (free_text_answer (AskUser.mkQuestion "Anything else?" []) 0 2
              example_other "   ") as (_ & Hother & _).
  { exact example_other_mounted. }
  destruct (free_text_answer
              (AskUser.mkQuestion "Proceed?"
                 [AskUser.mkChoice "yes" None;
                  AskUser.mkChoice "no" (Some "stop here")])
              0 2 example_mounted "typed") as (_ & _ & Hchoice).
  { exact example_mounted_mounted. }
  split.
  - apply Hother; vm_compute; reflexivity.
  - apply Hchoice. vm_compute. reflexivity.
Defined.

(** ** The question widget: what is shown *)

Lemma py_modify_alter {A} (l : list A) (i : Z) (f : A -> Result A)
    (g : A -> A) :
  0 <= i < py_len l ->
  (forall x, l !! Z.to_nat i = Some x -> f x = Ok (g x)) ->
  py_modify l i f = Ok (alter g (Z.to_nat i) l).
Proof.
  intros Hi Hf. unfold py_modify. rewrite py_norm_in_range by exact Hi.
  destruct (l !! Z.to_nat i) as [x|] eqn:Hx.
  - rewrite (Hf x eq_refl). cbn [mbind Result_bind]. f_equal.
    apply list_eq. intros j.
    rewrite list_lookup_alter, list_lookup_insert.
    pose proof (lookup_lt_Some _ _ _ Hx).
    destruct (decide (Z.to_nat i = j)) as [<-|Hne].
    + rewrite decide_True by auto. rewrite Hx. reflexivity.
    + rewrite decide_False by tauto. reflexivity.
  - apply lookup_ge_None in Hx. unfold py_len in Hi. lia.
Qed.

Lemma with_question_text_restyle (q : AskUser.Question) (p : QuestionPanel.t)
    (f : Static -> Static) :
  panel_ok q p -> QuestionPanel.with_question_text f p = Ok (restyle f p).
Proof.
  intros Hok. destruct (ok_question_text _ _ Hok) as [w Hw].
  unfold QuestionPanel.with_question_text, restyle. rewrite Hw. reflexivity.
Qed.

Lemma restyle_ok (q : AskUser.Question) (p : QuestionPanel.t)
    (f : Static -> Static) :
  panel_ok q p -> panel_ok q (restyle f p).
Proof.
  intros Hok. destruct (panel_ok_question_text q p f Hok) as (p' & E & Hok' & _).
  rewrite (with_question_text_restyle q p f Hok) in E. injection E as <-.
  exact Hok'.
Qed.

(** Where a tab switch leaves the widget: the old panel loses the
    highlight and is hidden, the new one gets the highlight and is shown,
    the tabs follow, and the focus is sent into the new panel. *)
Lemma switch_tab_exact (a : QuestionApp.t) (new_tab : Z) :
  session_ok a ->
  0 <= new_tab < py_len (QuestionApp.panel_widgets a) ->
  new_tab <> QuestionApp.current_tab a ->
  exists pn,
    QuestionApp.panel_widgets a !! Z.to_nat new_tab = Some pn
    /\ QuestionApp._switch_tab new_tab a
       = Ok (QuestionApp.mk (QuestionApp.args a) (QuestionApp.questions a)
               new_tab
               (match QuestionApp.tab_widgets a with
                | [] => []
                | _ :: _ =>
                    alter (QuestionTab.set_active true) (Z.to_nat new_tab)
                      (alter (QuestionTab.set_active false)
                         (Z.to_nat (QuestionApp.current_tab a))
                         (QuestionApp.tab_widgets a))
                end)
               (alter (QuestionPanel.set_display true) (Z.to_nat new_tab)
                  (alter (QuestionPanel.set_display false)
                     (Z.to_nat (QuestionApp.current_tab a))
                     (alter (restyle (add_class "question-text-active"))
                        (Z.to_nat new_tab)
                        (alter (restyle (remove_class "question-text-active"))
                           (Z.to_nat (QuestionApp.current_tab a))
                           (QuestionApp.panel_widgets a)))))
               (QuestionApp.max_choices a),
             [Focus (QuestionPanel.index pn)
                (if QuestionPanel.selected_option pn
                    =? py_len (QuestionPanel.choices pn)
                 then FocusTextInput else FocusPanel)]).
Proof.
  intros Hok Hnew Hne.
  destruct Hok as [Hps Htabs [Hc0 Hc1]].
  assert (Hcur : 0 <= QuestionApp.current_tab a
                 < py_len (QuestionApp.panel_widgets a)) by lia.
  set (kc := Z.to_nat (QuestionApp.current_tab a)).
  set (kn := Z.to_nat new_tab).
  assert (Hk : kc <> kn) by (subst kc kn; lia).
  destruct (py_get_in_range _ _ Hcur) as (pc & Hpc & Epc).
  destruct (py_get_in_range _ _ Hnew) as (pn & Hpn & Epn).
  fold kc in Hpc. fold kn in Hpn.
  destruct (Forall2_lookup_r _ _ _ _ _ Hps Hpc) as (qc & _ & Hokc).
  destruct (Forall2_lookup_r _ _ _ _ _ Hps Hpn) as (qn & _ & Hokn).
  exists pn. split; [exact Hpn|].
  unfold QuestionApp._switch_tab.
  destruct (Z.eqb_spec new_tab (QuestionApp.current_tab a)); [contradiction|].
  (* the tab bar *)
  assert (Ht : match QuestionApp.tab_widgets a with
               | [] => Ok []
               | _ :: _ =>
                   ts ← py_modify (QuestionApp.tab_widgets a)
                          (QuestionApp.current_tab a)
                          (fun w => Ok (QuestionTab.set_active false w));
                   py_modify ts new_tab
                     (fun w => Ok (QuestionTab.set_active true w))
               end
               = Ok match QuestionApp.tab_widgets a with
                    | [] => []
                    | _ :: _ =>
                        alter (QuestionTab.set_active true) kn
                          (alter (QuestionTab.set_active false) kc
                             (QuestionApp.tab_widgets a))
                    end).
  { destruct (QuestionApp.tab_widgets a) as [|t0 ts0] eqn:Etabs;
      [reflexivity|].
    destruct Htabs as [Hnil|Hlen]; [discriminate|].
    rewrite (py_modify_alter _ _ _ (QuestionTab.set_active false))
      by (unfold py_len in *; auto; lia).
    cbn [mbind Result_bind].
    rewrite (py_modify_alter _ _ _ (QuestionTab.set_active true))
      by (unfold py_len in *; rewrite ?length_alter; auto; lia).
    reflexivity. }
  rewrite Ht. cbn [mbind Result_bind].
  cbn [QuestionApp.panel_widgets QuestionApp.set_tab_widgets
       QuestionApp.current_tab].
  rewrite Epc, Epn. cbn [mbind Result_bind].
  rewrite (py_modify_alter _ _ _
             (restyle (remove_class "question-text-active")));
    [|exact Hcur|].
  2:{ fold kc. intros x Hx. rewrite Hpc in Hx. injection Hx as <-.
      eapply with_question_text_restyle; eauto. }
  cbn [mbind Result_bind]. fold kc.
  rewrite (py_modify_alter _ _ _
             (restyle (add_class "question-text-active")));
    [|unfold py_len in *; rewrite length_alter; exact Hnew|].
  2:{ fold kn. intros x Hx. rewrite list_lookup_alter_ne in Hx by exact Hk.
      rewrite Hpn in Hx. injection Hx as <-.
      eapply with_question_text_restyle; eauto. }
  cbn [mbind Result_bind]. fold kn.
  rewrite (py_modify_alter _ _ _ (QuestionPanel.set_display false));
    [|unfold py_len in *; rewrite !length_alter; exact Hcur|auto].
  cbn [mbind Result_bind]. fold kc.
  rewrite (py_modify_alter _ _ _ (QuestionPanel.set_display true));
    [|unfold py_len in *; rewrite !length_alter; exact Hnew|auto].
  cbn [mbind Result_bind]. fold kn.
  cbn [QuestionApp.set_current_tab QuestionApp.set_panel_widgets
       QuestionApp.args QuestionApp.questions QuestionApp.tab_widgets
       QuestionApp.max_choices QuestionApp.panel_widgets].
  assert (Hfinal :
    alter (QuestionPanel.set_display true) kn
      (alter (QuestionPanel.set_display false) kc
         (alter (restyle (add_class "question-text-active")) kn
            (alter (restyle (remove_class "question-text-active")) kc
               (QuestionApp.panel_widgets a)))) !! kn
    = Some (QuestionPanel.set_display true
              (restyle (add_class "question-text-active") pn))).
  { rewrite list_lookup_alter_eq, list_lookup_alter_ne by exact Hk.
    rewrite list_lookup_alter_eq, list_lookup_alter_ne by exact Hk.
    rewrite Hpn. reflexivity. }
  unfold py_get. rewrite py_norm_in_range
    by (unfold py_len in *; rewrite !length_alter; exact Hnew).
  fold kn. rewrite Hfinal. cbn [mbind Result_bind].
  unfold QuestionApp.focus_effects, QuestionPanel.focus_input.
  cbn [QuestionPanel.set_display restyle QuestionPanel.set_question_text
       QuestionPanel.is_other_mode QuestionPanel.text_input
       QuestionPanel.index].
  rewrite (ok_other_mode _ _ Hokn).
  destruct (ok_input _ _ Hokn) as [i Hi]. rewrite Hi.
  rewrite bool_decide_eq_true_2 by eauto. rewrite andb_true_r.
  destruct (QuestionPanel.selected_option pn
            =? py_len (QuestionPanel.choices pn)); reflexivity.
Qed.

Lemma compose_frame (p : QuestionPanel.t) :
  QuestionPanel.question_text (QuestionPanel.compose p)
  = Some (mkStatic (AskUser.question (QuestionPanel.question_data p))
                   ["question-text"])
  /\ QuestionPanel.max_choices (QuestionPanel.compose p)
     = QuestionPanel.max_choices p
  /\ QuestionPanel.choices (QuestionPanel.compose p) = QuestionPanel.choices p
  /\ QuestionPanel.question_data (QuestionPanel.compose p)
     = QuestionPanel.question_data p
  /\ (QuestionPanel.padding p = None ->
      QuestionPanel.padding (QuestionPanel.compose p)
      = padding_for (QuestionPanel.max_choices p)
          (py_len (QuestionPanel.choices p))).
Proof.
  destruct p as [qd ix cs mc sel tot ows ti oc om qt pd dp].
  unfold QuestionPanel.compose, padding_for.
  cbn [QuestionPanel.set_question_text
       QuestionPanel.set_option_widgets QuestionPanel.set_other_cursor
       QuestionPanel.set_text_input QuestionPanel.question_data
       QuestionPanel.index QuestionPanel.choices
       QuestionPanel.max_choices QuestionPanel.selected_option
       QuestionPanel.total_options QuestionPanel.option_widgets
       QuestionPanel.text_input QuestionPanel.other_cursor
       QuestionPanel.is_other_mode QuestionPanel.question_text
       QuestionPanel.padding QuestionPanel.display].
  destruct (0 <? mc - py_len cs); cbn; repeat split; auto; discriminate.
Qed.

Lemma update_frame (p0 p : QuestionPanel.t) (fs : list FocusTarget) :
  widgets_fit p0 ->
  QuestionPanel._update_options p0 = Ok (p, fs) ->
  same_frame p0 p.
Proof.
  intros Hfit H.
  destruct (_update_options_spec p0 Hfit) as (ws & oc & fs2 & _ & Hupd).
  rewrite Hupd in H. injection H as <- _.
  unfold same_frame. cbn. repeat split; reflexivity.
Qed.

(** A freshly built panel once mounted, with all that is laid out. *)
Lemma mount_fresh_panel_frame (q : AskUser.Question) (idx mc : Z) (d : bool)
    (p : QuestionPanel.t) (fs : list FocusTarget) :
  QuestionPanel.on_mount
    (QuestionPanel.compose
       (QuestionPanel.set_display d (QuestionPanel.__init__ q idx mc)))
  = Ok (p, fs) ->
  panel_ok q p
  /\ pristine p
  /\ QuestionPanel.index p = idx
  /\ QuestionPanel.display p = d
  /\ QuestionPanel.question_text p
     = Some (mkStatic (AskUser.question q) ["question-text"])
  /\ QuestionPanel.max_choices p = mc
  /\ QuestionPanel.padding p = padding_for mc (py_len (QuestionPanel.choices p))
  /\ QuestionPanel.question_data p = q.
Proof.
  intros Hm.
  destruct (mount_fresh_panel q idx mc d)
    as (p1 & fs1 & E & Hok & Hsel & Hidx & Hin & Hd).
  assert (p1 = p) as -> by congruence.
  split; [exact Hok|]. split; [split; assumption|].
  split; [exact Hidx|]. split; [exact Hd|].
  pose proof (compose_frame
                (QuestionPanel.set_display d (QuestionPanel.__init__ q idx mc)))
    as (Hqt & Hmc & Hcs & Hqd & Hpad).
  specialize (Hpad eq_refl).
  pose proof (compose_fresh_panel q idx mc d) as Hc. cbv zeta in Hc.
  destruct Hc as (_ & Hc1 & _ & _ & Hc2 & _).
  rewrite on_mount_unfold in Hm.
  revert Hm Hqt Hmc Hcs Hqd Hpad Hc1 Hc2.
  generalize (QuestionPanel.compose
                (QuestionPanel.set_display d (QuestionPanel.__init__ q idx mc))).
  intros p0 Hm Hqt Hmc Hcs Hqd Hpad Hc1 Hc2.
  destruct (update_frame p0 p fs) as (F1 & F2 & F3 & F4 & F5 & F6 & F7);
    [unfold widgets_fit; rewrite Hc1, Hc2; lia | exact Hm |].
  rewrite F5, F4, F6, F3, F1, Hqt, Hmc, Hpad, Hcs, Hqd.
  repeat split; reflexivity.
Qed.

Lemma mount_panels_lookup (ps ps' : list QuestionPanel.t) (es : list Effect) :
  Session.mount_panels ps = Ok (ps', es) ->
  length ps' = length ps
  /\ forall (i : nat) p',
       ps' !! i = Some p' ->
       exists p fs,
         ps !! i = Some p
         /\ QuestionPanel.on_mount (QuestionPanel.compose p) = Ok (p', fs).
Proof.
  revert ps' es. induction ps as [|p ps IH]; intros ps' es H.
  - cbn in H. injection H as <- _. split; [reflexivity|].
    intros i p' Hi. rewrite lookup_nil in Hi. discriminate.
  - cbn [Session.mount_panels] in H.
    destruct (QuestionPanel.on_mount (QuestionPanel.compose p))
      as [[p1 fs]|e] eqn:E1; [|discriminate].
    cbn [mbind Result_bind] in H.
    destruct (Session.mount_panels ps) as [[rest es']|e] eqn:E2; [|discriminate].
    cbn [mbind Result_bind] in H. injection H as <- _.
    destruct (IH rest es' eq_refl) as [Hlen Hrec].
    split; [cbn [length]; congruence|].
    intros [|i] p' Hi.
    + cbn in Hi. injection Hi as <-. exists p, fs. split; [reflexivity|exact E1].
    + cbn in Hi. apply Hrec. exact Hi.
Qed.

(** The state in which mounting leaves the question widget. *)
Lemma start_exact (args : AskUser.AskUserArgs) :
  exists ps es1,
    Session.mount_panels (fresh_panels (AskUser.questions args)) = Ok (ps, es1)
    /\ Session.start args
       = Ok (QuestionApp.mk args (AskUser.questions args) 0
               (QuestionTab.on_mount <$> fresh_tabs (AskUser.questions args))
               (alter (restyle (add_class "question-text-active")) 0%nat ps)
               (QuestionApp.initial_max_choices (AskUser.questions args)),
             es1
             ++ match ps with
                | [] => []
                | p :: _ =>
                    let p0 := restyle (add_class "question-text-active") p in
                    QuestionApp.focus_effects p0 (QuestionPanel.focus_input p0)
                end).
Proof.
  set (qs := AskUser.questions args).
  destruct (mount_panels_ok qs
              (fun i q =>
                 QuestionPanel.set_display (Z.of_nat i =? 0)
                   (QuestionPanel.__init__ q (Z.of_nat i)
                      (QuestionApp.initial_max_choices qs))))
    as (ps & es1 & E & F & _); [eauto|].
  exists ps, es1. fold (fresh_panels qs) in E.
  unfold Session.start.
  assert (Ha0 : QuestionApp.compose (QuestionApp.__init__ args)
                = QuestionApp.mk args qs 0 (fresh_tabs qs) (fresh_panels qs)
                    (QuestionApp.initial_max_choices qs)).
  { unfold QuestionApp.compose, QuestionApp.__init__, fresh_tabs, fresh_panels.
    fold qs. cbn. destruct (1 <? py_len qs); reflexivity. }
  rewrite Ha0.
  cbn [QuestionApp.panel_widgets QuestionApp.set_tab_widgets
       QuestionApp.tab_widgets QuestionApp.set_panel_widgets].
  rewrite E. cbn [mbind Result_bind].
  unfold QuestionApp.on_mount.
  cbn [QuestionApp.panel_widgets QuestionApp.set_panel_widgets].
  destruct ps as [|p ps].
  - split; [reflexivity|]. cbn [mbind Result_bind]. reflexivity.
  - inversion F as [|q0 p0 qs0 ps0 Hq0 _ Hqs0]; subst.
    rewrite (py_modify_alter _ _ _
               (restyle (add_class "question-text-active")));
      [|unfold py_len; cbn [length]; lia|].
    2:{ intros x Hx. cbn in Hx. injection Hx as <-.
        eapply with_question_text_restyle; eauto. }
    cbn [mbind Result_bind Z.to_nat].
    split; [reflexivity|]. cbn. reflexivity.
Qed.

Lemma tab_set_active_exact (l : string) (idx : Z) (b0 b : bool) :
  QuestionTab.set_active b
    (QuestionTab.mk l idx b0 (mkStatic l (tab_classes b0)))
  = QuestionTab.mk l idx b (mkStatic l (tab_classes b)).
Proof. destruct b0, b; vm_compute; reflexivity. Qed.

Lemma tab_on_mount_exact (l : string) (idx : Z) (b : bool) :
  QuestionTab.on_mount (QuestionTab.__init__ l idx b)
  = QuestionTab.mk l idx b (mkStatic l (tab_classes b)).
Proof. destruct b; vm_compute; reflexivity. Qed.

Lemma tab_view_set_active (cur cur' : Z) (i : nat) (t : QuestionTab.t) :
  tab_view cur i t ->
  tab_view cur' i (QuestionTab.set_active (Z.of_nat i =? cur') t).
Proof.
  unfold tab_view. intros ->. apply tab_set_active_exact.
Qed.

Lemma question_text_add (r : string) (b : bool) :
  add_class "question-text-active" (mkStatic r (question_text_classes b))
  = mkStatic r (question_text_classes true).
Proof. destruct b; vm_compute; reflexivity. Qed.

Lemma question_text_remove (r : string) (b : bool) :
  remove_class "question-text-active" (mkStatic r (question_text_classes b))
  = mkStatic r (question_text_classes false).
Proof. destruct b; vm_compute; reflexivity. Qed.

Lemma panel_view_frame (cur mcs : Z) (i : nat) (p p' : QuestionPanel.t) :
  same_frame p p' -> panel_view cur mcs i p -> panel_view cur mcs i p'.
Proof.
  intros (F1 & F2 & F3 & F4 & F5 & F6 & F7) (V1 & V2 & V3 & V4 & V5).
  unfold panel_view. rewrite F1, F2, F3, F4, F5, F6, F7. auto.
Qed.

(** Restyling the question text and setting [display] on a panel whose
    frame is known. *)
Lemma panel_view_shown (cur cur' mcs : Z) (i : nat) (p : QuestionPanel.t) :
  panel_view cur mcs i p -> Z.of_nat i = cur' ->
  panel_view cur' mcs i
    (QuestionPanel.set_display true
       (restyle (add_class "question-text-active") p)).
Proof.
  intros (V1 & V2 & V3 & V4 & V5) Hi.
  unfold panel_view, restyle.
  cbn [QuestionPanel.set_display QuestionPanel.set_question_text
       QuestionPanel.index QuestionPanel.display QuestionPanel.question_text
       QuestionPanel.max_choices QuestionPanel.padding QuestionPanel.choices
       QuestionPanel.question_data].
  rewrite V3. cbn [fmap option_fmap option_map].
  rewrite question_text_add.
  apply Z.eqb_eq in Hi. rewrite Hi. auto.
Qed.

Lemma panel_view_hidden (cur cur' mcs : Z) (i : nat) (p : QuestionPanel.t) :
  panel_view cur mcs i p -> Z.of_nat i <> cur' ->
  panel_view cur' mcs i
    (QuestionPanel.set_display false
       (restyle (remove_class "question-text-active") p)).
Proof.
  intros (V1 & V2 & V3 & V4 & V5) Hi.
  unfold panel_view, restyle.
  cbn [QuestionPanel.set_display QuestionPanel.set_question_text
       QuestionPanel.index QuestionPanel.display QuestionPanel.question_text
       QuestionPanel.max_choices QuestionPanel.padding QuestionPanel.choices
       QuestionPanel.question_data].
  rewrite V3. cbn [fmap option_fmap option_map].
  rewrite question_text_remove.
  apply Z.eqb_neq in Hi. rewrite Hi. auto.
Qed.

Lemma panel_view_other (cur cur' mcs : Z) (i : nat) (p : QuestionPanel.t) :
  panel_view cur mcs i p -> Z.of_nat i <> cur -> Z.of_nat i <> cur' ->
  panel_view cur' mcs i p.
Proof.
  intros (V1 & V2 & V3 & V4 & V5) Hi Hi'.
  apply Z.eqb_neq in Hi, Hi'.
  unfold panel_view. rewrite Hi in V2, V3. rewrite Hi'. auto.
Qed.

Lemma fresh_panel_view (qs : list AskUser.Question) (ps : list QuestionPanel.t)
    (es : list Effect) (i : nat) (p : QuestionPanel.t) :
  Session.mount_panels (fresh_panels qs) = Ok (ps, es) ->
  ps !! i = Some p ->
  QuestionPanel.index p = Z.of_nat i
  /\ QuestionPanel.display p = (Z.of_nat i =? 0)
  /\ QuestionPanel.question_text p
     = Some (mkStatic (AskUser.question (QuestionPanel.question_data p))
               (question_text_classes false))
  /\ QuestionPanel.max_choices p = QuestionApp.initial_max_choices qs
  /\ QuestionPanel.padding p
     = padding_for (QuestionApp.initial_max_choices qs)
         (py_len (QuestionPanel.choices p)).
Proof.
  intros Em Hi.
  destruct (mount_panels_lookup _ _ _ Em) as [_ Hlook].
  destruct (Hlook i p Hi) as (p0 & fs & Hp0 & Hm).
  unfold fresh_panels in Hp0. rewrite list_lookup_imap in Hp0.
  destruct (qs !! i) as [q|]; [|discriminate].
  cbn [fmap option_fmap option_map] in Hp0. injection Hp0 as <-.
  destruct (mount_fresh_panel_frame _ _ _ _ _ _ Hm)
    as (_ & _ & H1 & H2 & H3 & H4 & H5 & H6).
  rewrite H6. auto.
Qed.

(** Mounting leaves the question widget as [session_view] describes it,
    on its first tab, with every panel untouched. *)
Lemma start_view (args : AskUser.AskUserArgs) :
  exists a es,
    Session.start args = Ok (a, es)
    /\ session_view a
    /\ QuestionApp.questions a = AskUser.questions args
    /\ QuestionApp.args a = args
    /\ QuestionApp.current_tab a = 0
    /\ Forall pristine (QuestionApp.panel_widgets a).
Proof.
  destruct (start_exact args) as (ps & es1 & Em & Es).
  destruct (start_ok args) as (a & es' & E & Hok & Hq & Hc & Hpr).
  rewrite Es in E. injection E as <- <-.
  eexists _, _. split; [exact Es|].
  split; [|repeat split; auto].
  set (qs := AskUser.questions args) in *.
  constructor;
    cbn [QuestionApp.panel_widgets QuestionApp.tab_widgets
         QuestionApp.current_tab QuestionApp.max_choices
         QuestionApp.questions].
  - exact Hok.
  - intros i p Hi. rewrite list_lookup_alter in Hi.
    destruct (decide (0%nat = i)) as [<-|Hne].
    + destruct (ps !! 0%nat) as [p0|] eqn:Hp0; [|discriminate].
      cbn [fmap option_fmap option_map] in Hi. injection Hi as <-.
      destruct (fresh_panel_view _ _ _ _ _ Em Hp0) as (V1 & V2 & V3 & V4 & V5).
      unfold panel_view, restyle.
      cbn [QuestionPanel.set_question_text
           QuestionPanel.index QuestionPanel.display QuestionPanel.question_text
           QuestionPanel.max_choices QuestionPanel.padding QuestionPanel.choices
           QuestionPanel.question_data].
      rewrite V3. cbn [fmap option_fmap option_map].
      rewrite question_text_add. auto.
    + destruct (fresh_panel_view _ _ _ _ _ Em Hi) as (V1 & V2 & V3 & V4 & V5).
      assert (Hb : (Z.of_nat i =? 0) = false) by (apply Z.eqb_neq; lia).
      unfold panel_view. rewrite Hb in *. auto.
  - intros i t Hi. rewrite list_lookup_fmap in Hi. unfold fresh_tabs in Hi.
    destruct (1 <? py_len qs); [|rewrite lookup_nil in Hi; discriminate].
    rewrite list_lookup_imap in Hi.
    destruct (qs !! i); [|discriminate].
    cbn [fmap option_fmap option_map] in Hi. injection Hi as <-.
    unfold tab_view. apply tab_on_mount_exact.
  - rewrite length_fmap. unfold fresh_tabs.
    destruct (1 <? py_len qs); [apply length_imap | reflexivity].
  - reflexivity.
Qed.

(** ** The question widget, command by command *)

Lemma on_current_panel_exact (a : QuestionApp.t)
    (m : QuestionPanel.t -> Result (QuestionPanel.t * list FocusTarget)) :
  session_ok a ->
  QuestionApp.on_current_panel m a
  = match QuestionApp.panel_widgets a !! Z.to_nat (QuestionApp.current_tab a) with
    | Some p =>
        '(p', fs) ← m p;
        Ok (QuestionApp.set_panel_widgets
              (<[Z.to_nat (QuestionApp.current_tab a) := p']>
                 (QuestionApp.panel_widgets a)) a,
            QuestionApp.focus_effects p' fs)
    | None => Ok (a, [])
    end.
Proof.
  intros [_ _ [Hc0 Hc1]].
  unfold QuestionApp.on_current_panel, QuestionApp._get_current_panel.
  destruct (Z.leb_spec 0 (QuestionApp.current_tab a)); [|lia].
  destruct (Z.ltb_spec (QuestionApp.current_tab a)
              (py_len (QuestionApp.panel_widgets a))) as [Hlt|Hge];
    cbn [andb].
  - destruct (py_get_in_range (QuestionApp.panel_widgets a)
                (QuestionApp.current_tab a)) as (p & Hp & E); [lia|].
    rewrite E, Hp. reflexivity.
  - cbn [mbind Result_bind].
    destruct (QuestionApp.panel_widgets a !! _) as [p|] eqn:Hp; [|reflexivity].
    apply lookup_lt_Some in Hp. unfold py_len in *. lia.
Qed.

Lemma move_up_frame (q : AskUser.Question) (p p' : QuestionPanel.t)
    (fs : list FocusTarget) :
  panel_ok q p -> QuestionPanel.move_up p = Ok (p', fs) -> same_frame p p'.
Proof.
  intros Hok H.
  destruct (move_up_spec p) as (ws & oc & fs1 & _ & Hmove);
    [eapply panel_ok_total_nonzero; eauto | eapply panel_ok_fit; eauto |].
  rewrite Hmove in H. injection H as <- _.
  unfold same_frame. cbn. repeat split; reflexivity.
Qed.

Lemma move_down_frame (q : AskUser.Question) (p p' : QuestionPanel.t)
    (fs : list FocusTarget) :
  panel_ok q p -> QuestionPanel.move_down p = Ok (p', fs) -> same_frame p p'.
Proof.
  intros Hok H.
  destruct (move_down_spec p) as (ws & oc & fs1 & _ & Hmove);
    [eapply panel_ok_total_nonzero; eauto | eapply panel_ok_fit; eauto |].
  rewrite Hmove in H. injection H as <- _.
  unfold same_frame. cbn. repeat split; reflexivity.
Qed.

Lemma edit_text_frame (s : string) (p : QuestionPanel.t) :
  same_frame p (QuestionPanel.edit_text s p).
Proof.
  unfold same_frame, QuestionPanel.edit_text.
  destruct (QuestionPanel.text_input p); cbn; repeat split; reflexivity.
Qed.

Lemma current_panel_view (a a' : QuestionApp.t) (es : list Effect)
    (m : QuestionPanel.t -> Result (QuestionPanel.t * list FocusTarget)) :
  session_view a ->
  (forall q p p' fs, panel_ok q p -> m p = Ok (p', fs) -> same_frame p p') ->
  session_ok a' ->
  QuestionApp.on_current_panel m a = Ok (a', es) ->
  session_view a'.
Proof.
  intros [Hok Hps Hts Htc Hmx] Hm Hok' H.
  rewrite on_current_panel_exact in H by exact Hok.
  destruct (QuestionApp.panel_widgets a !! _) as [p|] eqn:Hp.
  2:{ injection H as <- _. constructor; assumption. }
  destruct (m p) as [[p' fs]|e] eqn:E; [|discriminate].
  cbn [mbind Result_bind] in H. injection H as <- _.
  destruct (Forall2_lookup_r _ _ _ _ _ (so_panels _ Hok) Hp) as (q & _ & Hqp).
  constructor;
    cbn [QuestionApp.set_panel_widgets QuestionApp.panel_widgets
         QuestionApp.tab_widgets QuestionApp.current_tab
         QuestionApp.max_choices QuestionApp.questions]; try assumption.
  intros i x Hi. rewrite list_lookup_insert in Hi.
  destruct (decide _) as [[<- _]|_].
  - injection Hi as <-. eapply panel_view_frame; eauto.
  - auto.
Qed.

Lemma switch_view (a a' : QuestionApp.t) (es : list Effect) (new_tab : Z) :
  session_view a ->
  0 <= new_tab < py_len (QuestionApp.panel_widgets a) ->
  new_tab <> QuestionApp.current_tab a ->
  session_ok a' ->
  QuestionApp._switch_tab new_tab a = Ok (a', es) ->
  session_view a'.
Proof.
  intros [Hok Hps Hts Htc Hmx] Hnew Hne Hok' H.
  destruct (switch_tab_exact a new_tab Hok Hnew Hne) as (pn & Hpn & E).
  rewrite E in H. injection H as <- _. clear E.
  pose proof (so_current _ Hok) as [Hc0 _].
  set (kn := Z.to_nat new_tab) in *.
  set (kc := Z.to_nat (QuestionApp.current_tab a)) in *.
  assert (Hk : kc <> kn) by (subst kn kc; lia).
  assert (Hkn : Z.of_nat kn = new_tab) by (subst kn; lia).
  assert (Hkc : Z.of_nat kc = QuestionApp.current_tab a) by (subst kc; lia).
  assert (Hmatch :
    match QuestionApp.tab_widgets a with
    | [] => []
    | _ :: _ =>
        alter (QuestionTab.set_active true) kn
          (alter (QuestionTab.set_active false) kc (QuestionApp.tab_widgets a))
    end
    = alter (QuestionTab.set_active true) kn
        (alter (QuestionTab.set_active false) kc (QuestionApp.tab_widgets a)))
    by (destruct (QuestionApp.tab_widgets a); reflexivity).
  rewrite Hmatch in *. clear Hmatch.
  constructor;
    cbn [QuestionApp.panel_widgets QuestionApp.tab_widgets
         QuestionApp.current_tab QuestionApp.max_choices
         QuestionApp.questions]; try assumption.
  - intros i p Hi.
    destruct (decide (i = kn)) as [->|Hin].
    + rewrite list_lookup_alter_eq, list_lookup_alter_ne in Hi by exact Hk.
      rewrite list_lookup_alter_eq, list_lookup_alter_ne in Hi by exact Hk.
      rewrite Hpn in Hi. injection Hi as <-.
      apply (panel_view_shown (QuestionApp.current_tab a)); auto.
    + rewrite list_lookup_alter_ne in Hi by auto.
      destruct (decide (i = kc)) as [->|Hic].
      * rewrite list_lookup_alter_eq, list_lookup_alter_ne in Hi by auto.
        rewrite list_lookup_alter_eq in Hi.
        destruct (QuestionApp.panel_widgets a !! kc) as [pc|] eqn:Hpc;
          [|discriminate].
        injection Hi as <-.
        apply (panel_view_hidden (QuestionApp.current_tab a)); auto. lia.
      * rewrite !list_lookup_alter_ne in Hi by auto.
        apply (panel_view_other (QuestionApp.current_tab a)); auto; lia.
  - intros i t Hi.
    destruct (decide (i = kn)) as [->|Hin].
    + rewrite list_lookup_alter_eq, list_lookup_alter_ne in Hi by exact Hk.
      destruct (QuestionApp.tab_widgets a !! kn) as [tn|] eqn:Htn;
        [|discriminate].
      injection Hi as <-.
      assert (Hb : true = (Z.of_nat kn =? new_tab))
        by (symmetry; apply Z.eqb_eq; exact Hkn).
      rewrite Hb. eapply tab_view_set_active; eauto.
    + rewrite list_lookup_alter_ne in Hi by auto.
      destruct (decide (i = kc)) as [->|Hic].
      * rewrite list_lookup_alter_eq in Hi.
        destruct (QuestionApp.tab_widgets a !! kc) as [tc|] eqn:Htc';
          [|discriminate].
        injection Hi as <-.
        assert (Hb : false = (Z.of_nat kc =? new_tab))
          by (symmetry; apply Z.eqb_neq; lia).
        rewrite Hb. eapply tab_view_set_active; eauto.
      * rewrite list_lookup_alter_ne in Hi by auto.
        pose proof (Hts i t Hi) as Hv. unfold tab_view in *.
        assert (H1 : (Z.of_nat i =? QuestionApp.current_tab a) = false)
          by (apply Z.eqb_neq; lia).
        assert (H2 : (Z.of_nat i =? new_tab) = false)
          by (apply Z.eqb_neq; lia).
        rewrite H1 in Hv. rewrite H2. exact Hv.
  - rewrite !length_alter. exact Htc.
Qed.

Lemma next_tab_target (cur n : Z) :
  0 <= cur < n -> 1 < n ->
  0 <= (cur + 1) `mod` n < n /\ (cur + 1) `mod` n <> cur.
Proof.
  intros Hc Hn. split; [apply Z.mod_pos_bound; lia|].
  destruct (Z.eq_dec (cur + 1) n) as [E|E].
  - rewrite E, Z.mod_same by lia. lia.
  - rewrite Z.mod_small by lia. lia.
Qed.

Lemma prev_tab_target (cur n : Z) :
  0 <= cur < n -> 1 < n ->
  0 <= (cur - 1) `mod` n < n /\ (cur - 1) `mod` n <> cur.
Proof.
  intros Hc Hn. split; [apply Z.mod_pos_bound; lia|].
  destruct (Z.eq_dec cur 0) as [E|E].
  - subst cur.
    assert (Hm : n - 1 = (0 - 1) `mod` n)
      by (apply (Z.mod_unique_pos _ _ (-1)); lia).
    lia.
  - rewrite Z.mod_small by lia. lia.
Qed.

(** The current tab of a mounted widget with at least one panel is in
    range. *)
Lemma current_in_range (a : QuestionApp.t) :
  session_ok a -> 0 < py_len (QuestionApp.panel_widgets a) ->
  0 <= QuestionApp.current_tab a < py_len (QuestionApp.panel_widgets a).
Proof. intros [_ _ [H0 H1]] Hn. lia. Qed.

Lemma step_view (c : Session.Command) (a a' : QuestionApp.t)
    (es : list Effect) :
  session_view a -> Session.step c a = Ok (a', es) -> session_view a'.
Proof.
  intros Hv H.
  pose proof (sv_ok _ Hv) as Hok.
  destruct (step_ok c a Hok) as (a1 & es1 & E1 & Hok' & _).
  rewrite H in E1. injection E1 as <- <-.
  destruct c; cbn [Session.step] in H.
  - eapply current_panel_view; [exact Hv| |exact Hok'|exact H].
    intros q p p' fs. apply move_up_frame.
  - eapply current_panel_view; [exact Hv| |exact Hok'|exact H].
    intros q p p' fs. apply move_down_frame.
  - unfold QuestionApp.action_next_tab in H.
    destruct (Z.ltb_spec 1 (py_len (QuestionApp.panel_widgets a))) as [Hn|Hn].
    + rewrite py_mod_ok in H by lia. cbn [mbind Result_bind] in H.
      destruct (next_tab_target (QuestionApp.current_tab a)
                  (py_len (QuestionApp.panel_widgets a))); [|lia|].
      { apply current_in_range; [exact Hok | lia]. }
      eapply switch_view; eauto.
    + injection H as <- _. exact Hv.
  - unfold QuestionApp.action_prev_tab in H.
    destruct (Z.ltb_spec 1 (py_len (QuestionApp.panel_widgets a))) as [Hn|Hn].
    + rewrite py_mod_ok in H by lia. cbn [mbind Result_bind] in H.
      destruct (prev_tab_target (QuestionApp.current_tab a)
                  (py_len (QuestionApp.panel_widgets a))); [|lia|].
      { apply current_in_range; [exact Hok | lia]. }
      eapply switch_view; eauto.
    + injection H as <- _. exact Hv.
  - eapply current_panel_view; [exact Hv| |exact Hok'|exact H].
    intros q p p' fs _ Hm. injection Hm as <- _. apply edit_text_frame.
  - unfold QuestionApp.action_submit, QuestionApp._do_submit in H.
    destruct (QuestionApp.collect_answers _); [|discriminate].
    injection H as <- _. exact Hv.
  - injection H as <- _. exact Hv.
Qed.

Lemma run_view (cs : list Session.Command) (a a' : QuestionApp.t)
    (es : list Effect) :
  session_view a -> Session.run cs a = Ok (a', es) -> session_view a'.
Proof.
  revert a es. induction cs as [|c cs IH]; intros a es Hv H.
  - injection H as <- _. exact Hv.
  - cbn [Session.run] in H.
    destruct (Session.step c a) as [[a1 es1]|e] eqn:E1; [|discriminate].
    cbn [mbind Result_bind] in H.
    destruct (Session.run cs a1) as [[a2 es2]|e] eqn:E2; [|discriminate].
    cbn [mbind Result_bind] in H. injection H as <- _.
    eapply IH; [|exact E2]. eapply step_view; eauto.
Qed.

(** With option texts that [update] accepts, every state of the prompt:
    mounting, then any commands. *)
Lemma reach_view (args : AskUser.AskUserArgs) (cs : list Session.Command) :
  exists a0 es0 a es,
    Session.start args = Ok (a0, es0)
    /\ Session.run cs a0 = Ok (a, es)
    /\ session_view a
    /\ QuestionApp.questions a = AskUser.questions args.
Proof.
  destruct (start_view args) as (a0 & es0 & E0 & Hv0 & Hq0 & _).
  destruct (run_ok cs a0 (sv_ok _ Hv0)) as (a & es & E & _ & Hq & _).
  exists a0, es0, a, es. split; [exact E0|]. split; [exact E|].
  split; [eapply run_view; eauto | congruence].
Qed.

Lemma reach_inv (args : AskUser.AskUserArgs) (cs : list Session.Command)
    (a0 a : QuestionApp.t) (es0 es : list Effect) :
  Session.start args = Ok (a0, es0) ->
  Session.run cs a0 = Ok (a, es) ->
  session_view a /\ QuestionApp.questions a = AskUser.questions args.
Proof.
  intros H0 H.
  destruct (reach_view args cs) as (a0' & es0' & a' & es' & E0 & E & Hv & Hq).
  rewrite H0 in E0. injection E0 as <- <-.
  rewrite H in E. injection E as <- <-. auto.
Qed.

(** ** What the prompt shows *)

Lemma foldl_max_spec (l : list Z) (a : Z) :
  a <= foldl Z.max a l
  /\ Forall (fun x => x <= foldl Z.max a l) l
  /\ (foldl Z.max a l = a \/ foldl Z.max a l ∈ l).
Proof.
  revert a. induction l as [|x l IH]; intros a; cbn [foldl].
  - split; [lia|]. split; [constructor | left; reflexivity].
  - destruct (IH (Z.max a x)) as (H1 & H2 & H3).
    split; [lia|]. split; [constructor; [lia | exact H2]|].
    destruct H3 as [H3|H3].
    + rewrite H3. destruct (Z.max_spec a x) as [[_ ->]|[_ ->]];
        [right; left | left; reflexivity].
    + right. right. exact H3.
Qed.

(** [max_choices] is the largest number of choices of a question. *)
Lemma initial_max_choices_spec (qs : list AskUser.Question) :
  (forall q, q ∈ qs ->
     py_len (AskUser.choices q) <= QuestionApp.initial_max_choices qs)
  /\ (qs <> [] ->
      exists q, q ∈ qs
                /\ py_len (AskUser.choices q)
                   = QuestionApp.initial_max_choices qs).
Proof.
  destruct qs as [|q0 qs]; [split; [intros q Hq; inversion Hq | congruence]|].
  cbn [QuestionApp.initial_max_choices].
  destruct (foldl_max_spec
              ((fun q => py_len (AskUser.choices q)) <$> qs)
              (py_len (AskUser.choices q0))) as (H1 & H2 & H3).
  split.
  - intros q Hq. apply elem_of_cons in Hq as [->|Hq]; [exact H1|].
    rewrite Forall_fmap, Forall_forall in H2. apply (H2 q Hq).
  - intros _. destruct H3 as [H3|H3].
    + exists q0. split; [left | symmetry; exact H3].
    + apply list_elem_of_fmap in H3 as (q & Hq & Hin).
      exists q. split; [right; exact Hin | symmetry; exact Hq].
Qed.

Lemma py_repeat_newline_length (n : Z) :
  String.length (py_repeat newline n) = Z.to_nat n.
Proof.
  unfold py_repeat. induction (Z.to_nat n) as [|k IH]; [reflexivity|].
  rewrite Nat.iter_succ. unfold newline at 1.
  rewrite append_cons, append_nil.
  cbn [String.length]. rewrite IH. reflexivity.
Qed.

(** The panel of question number [i] in a well-formed widget. *)
Lemma view_panel (a : QuestionApp.t) (i : nat) (q : AskUser.Question) :
  session_view a -> QuestionApp.questions a !! i = Some q ->
  exists p,
    QuestionApp.panel_widgets a !! i = Some p
    /\ panel_ok q p
    /\ panel_view (QuestionApp.current_tab a) (QuestionApp.max_choices a) i p.
Proof.
  intros Hv Hi.
  destruct (Forall2_lookup_l _ _ _ _ _ (so_panels _ (sv_ok _ Hv)) Hi)
    as (p & Hp & Hqp).
  exists p. split; [exact Hp|]. split; [exact Hqp|].
  apply (sv_panels _ Hv). exact Hp.
Qed.

(** X10. In every state the prompt reaches when mounting and the
    commands succeed, [max_choices] is the largest number of choices
    among the questions (at least that of each
    question, and equal to that of one of them), and every panel is
    padded up to it: the panel of a question with as many choices has no
    padding, the panel of a question with fewer has one padding widget of
    class [question-padding] whose text is [max_choices - len(choices) - 1]
    line breaks, so that with the free-text line every panel takes
    [max_choices + 1] lines. *)
Theorem panels_padded_alike (args : AskUser.AskUserArgs)
    (cs : list Session.Command)
    (a0 a : QuestionApp.t) (es0 es : list Effect) :
  Session.start args = Ok (a0, es0) ->
  Session.run cs a0 = Ok (a, es) ->
  (forall q, q ∈ AskUser.questions args ->
          py_len (AskUser.choices q) <= QuestionApp.max_choices a)
    /\ (AskUser.questions args <> [] ->
        exists q, q ∈ AskUser.questions args
                  /\ py_len (AskUser.choices q) = QuestionApp.max_choices a)
    /\ (forall (i : nat) q,
          AskUser.questions args !! i = Some q ->
          exists p,
            QuestionApp.panel_widgets a !! i = Some p
            /\ QuestionPanel.max_choices p = QuestionApp.max_choices a
            /\ length (QuestionPanel.option_widgets p)
               = length (AskUser.choices q)
            /\ match QuestionPanel.padding p with
               | None =>
                   py_len (AskUser.choices q) = QuestionApp.max_choices a
               | Some w =>
                   py_len (AskUser.choices q) < QuestionApp.max_choices a
                   /\ classes w = ["question-padding"]
                   /\ renderable w
                      = py_repeat newline
                          (QuestionApp.max_choices a
                           - py_len (AskUser.choices q) - 1)
                   /\ Z.of_nat (String.length (renderable w))
                      = QuestionApp.max_choices a
                        - py_len (AskUser.choices q) - 1
               end).
Proof.
  intros H0 H. destruct (reach_inv _ _ _ _ _ _ H0 H) as (Hv & Hq).
  destruct (initial_max_choices_spec (AskUser.questions args)) as [Hle Hex].
  rewrite (sv_max _ Hv), Hq.
  split; [exact Hle|]. split; [exact Hex|].
  intros i q Hi. rewrite <- Hq in Hi.
  destruct (view_panel a i q Hv Hi) as (p & Hp & Hok & _ & _ & _ & Hmc & Hpad).
  exists p. split; [exact Hp|].
  rewrite (sv_max _ Hv), Hq in Hmc, Hpad.
  split; [exact Hmc|].
  split; [rewrite (ok_widgets _ _ Hok), (ok_choices _ _ Hok); reflexivity|].
  rewrite Hpad, (ok_choices _ _ Hok). unfold padding_for.
  assert (Hb : py_len (AskUser.choices q)
               <= QuestionApp.initial_max_choices (AskUser.questions args)).
  { apply Hle. rewrite Hq in Hi. eapply list_elem_of_lookup_2; eauto. }
  destruct (Z.ltb_spec 0 (QuestionApp.initial_max_choices (AskUser.questions args)
                          - py_len (AskUser.choices q))) as [Hlt|Hge].
  - cbn [renderable classes]. split; [lia|]. split; [reflexivity|].
    split; [reflexivity|]. rewrite py_repeat_newline_length. lia.
  - lia.
Qed.

Lemma panels_padded_alike_witness :
  Session.start example_args = Ok (example_started.1, example_started.2)
  /\ Session.run example_commands example_started.1
     = Ok (example_state.1, example_state.2)
  /\ (forall q, q ∈ AskUser.questions example_args ->
        py_len (AskUser.choices q)
        <= QuestionApp.max_choices example_state.1).
Proof.
  split; [vm_compute; reflexivity|]. split; [vm_compute; reflexivity|].
  destruct (panels_padded_alike example_args example_commands
              example_started.1 example_state.1
              example_started.2 example_state.2)
    as (Hb & _); [vm_compute; reflexivity | vm_compute; reflexivity |].
  exact Hb.
Defined.

(** X11. In every state the prompt reaches when mounting and the
    commands succeed there is one panel per question, in question order,
    holding that question and its position; exactly the panel of the
    current tab is displayed, and exactly its question
    text carries the class [question-text-active] besides
    [question-text]; the text shown is the question.  With at least one
    question the current tab is the position of a panel. *)
Theorem current_panel_shown (args : AskUser.AskUserArgs)
    (cs : list Session.Command)
    (a0 a : QuestionApp.t) (es0 es : list Effect) :
  Session.start args = Ok (a0, es0) ->
  Session.run cs a0 = Ok (a, es) ->
  length (QuestionApp.panel_widgets a) = length (AskUser.questions args)
    /\ (AskUser.questions args <> [] ->
        0 <= QuestionApp.current_tab a
           < py_len (QuestionApp.panel_widgets a))
    /\ (forall (i : nat) q,
          AskUser.questions args !! i = Some q ->
          exists p,
            QuestionApp.panel_widgets a !! i = Some p
            /\ QuestionPanel.question_data p = q
            /\ QuestionPanel.index p = Z.of_nat i
            /\ QuestionPanel.display p
               = (Z.of_nat i =? QuestionApp.current_tab a)
            /\ QuestionPanel.question_text p
               = Some (mkStatic (AskUser.question q)
                         (if Z.of_nat i =? QuestionApp.current_tab a
                          then ["question-text"; "question-text-active"]
                          else ["question-text"]))).
Proof.
  intros H0 H. destruct (reach_inv _ _ _ _ _ _ H0 H) as (Hv & Hq).
  pose proof (Forall2_length _ _ _ (so_panels _ (sv_ok _ Hv))) as Hlen.
  rewrite Hq in Hlen.
  split; [symmetry; exact Hlen|].
  split.
  - intros Hne. apply current_in_range; [exact (sv_ok _ Hv)|].
    unfold py_len. rewrite <- Hlen.
    destruct (AskUser.questions args); [congruence | cbn [length]; lia].
  - intros i q Hi. rewrite <- Hq in Hi.
    destruct (view_panel a i q Hv Hi) as (p & Hp & Hok & V1 & V2 & V3 & _).
    exists p. rewrite (ok_question _ _ Hok) in V3.
    split; [exact Hp|]. split; [exact (ok_question _ _ Hok)|].
    split; [exact V1|]. split; [exact V2 | exact V3].
Qed.

Lemma current_panel_shown_witness :
  Session.start example_args = Ok (example_started.1, example_started.2)
  /\ Session.run example_commands example_started.1
     = Ok (example_state.1, example_state.2)
  /\ length (QuestionApp.panel_widgets example_state.1)
     = length (AskUser.questions example_args).
Proof.
  split; [vm_compute; reflexivity|]. split; [vm_compute; reflexivity|].
  destruct (current_panel_shown example_args example_commands
              example_started.1 example_state.1
              example_started.2 example_state.2)
    as (Hl & _); [vm_compute; reflexivity | vm_compute; reflexivity |].
  exact Hl.
Defined.

(** X12. In every state the prompt reaches when mounting and the
    commands succeed the tab bar exists exactly when there is more than
    one question; it then has one tab per question, in
    question order, labelled [Q1], [Q2], ... and showing its label, and
    exactly the tab of the current question is active and carries the
    class [question-tab-active] besides [question-tab]. *)
Theorem tab_bar_shown (args : AskUser.AskUserArgs)
    (cs : list Session.Command)
    (a0 a : QuestionApp.t) (es0 es : list Effect) :
  Session.start args = Ok (a0, es0) ->
  Session.run cs a0 = Ok (a, es) ->
  QuestionApp.tab_widgets a
       = if 1 <? py_len (AskUser.questions args)
         then imap (fun i _ =>
                      let active :=
                        Z.of_nat i =? QuestionApp.current_tab a in
                      QuestionTab.mk
                        ("Q" +:+ pretty (Z.of_nat i + 1)) (Z.of_nat i) active
                        (mkStatic ("Q" +:+ pretty (Z.of_nat i + 1))
                           (if active
                            then ["question-tab"; "question-tab-active"]
                            else ["question-tab"])))
                (AskUser.questions args)
         else [].
Proof.
  intros H0 H. destruct (reach_inv _ _ _ _ _ _ H0 H) as (Hv & Hq).
  pose proof (sv_tab_count _ Hv) as Hn. rewrite Hq in Hn.
  destruct (1 <? py_len (AskUser.questions args)).
  - apply list_eq. intros i. rewrite list_lookup_imap.
    destruct (QuestionApp.tab_widgets a !! i) as [t|] eqn:Ht.
    + pose proof (sv_tabs _ Hv i t Ht) as Hview. unfold tab_view in Hview.
      apply lookup_lt_Some in Ht. rewrite Hn in Ht.
      apply lookup_lt_is_Some in Ht as [q ->].
      cbn [fmap option_fmap option_map]. rewrite Hview. reflexivity.
    + apply lookup_ge_None in Ht. rewrite Hn in Ht.
      apply lookup_ge_None in Ht. rewrite Ht. reflexivity.
  - apply nil_length_inv. exact Hn.
Qed.

Lemma tab_bar_shown_witness :
  Session.start example_args = Ok (example_started.1, example_started.2)
  /\ Session.run example_commands example_started.1
     = Ok (example_state.1, example_state.2)
  /\ length (QuestionApp.tab_widgets example_state.1) = 2%nat.
Proof.
  split; [vm_compute; reflexivity|]. split; [vm_compute; reflexivity|].
  rewrite (tab_bar_shown example_args example_commands
              example_started.1 example_state.1
              example_started.2 example_state.2)
    by (vm_compute; reflexivity).
  reflexivity.
Defined.

(** ** Switching tabs *)

Lemma switch_tab_session (a a' : QuestionApp.t) (es : list Effect)
    (new_tab : Z) :
  session_ok a ->
  0 <= new_tab < py_len (QuestionApp.panel_widgets a) ->
  QuestionApp._switch_tab new_tab a = Ok (a', es) ->
  session_ok a'
  /\ QuestionApp.current_tab a' = new_tab
  /\ Forall2 cosmetic (QuestionApp.panel_widgets a)
                      (QuestionApp.panel_widgets a').
Proof.
  intros Hok Hr H.
  destruct (switch_tab_ok a _ Hok Hr) as (a1 & es1 & E & Hc & Hq & F & Ht).
  rewrite H in E. injection E as <- <-.
  split; [|split; assumption].
  eapply Forall2_cosmetic_session; eauto. rewrite Hc. exact Hr.
Qed.

Lemma cosmetic_get_answer (p p' : QuestionPanel.t) :
  cosmetic p p' -> QuestionPanel.get_answer p' = QuestionPanel.get_answer p.
Proof.
  intros (_ & _ & E3 & E4 & _ & _ & E7 & _).
  unfold QuestionPanel.get_answer. rewrite E3, E4, E7. reflexivity.
Qed.

Lemma cosmetic_collect (ps ps' : list QuestionPanel.t) :
  Forall2 cosmetic ps ps' ->
  QuestionApp.collect_answers ps' = QuestionApp.collect_answers ps.
Proof.
  induction 1 as [|p p' ps ps' Hc _ IH]; [reflexivity|].
  cbn [QuestionApp.collect_answers].
  rewrite (cosmetic_get_answer _ _ Hc), IH.
  destruct Hc as (-> & _). reflexivity.
Qed.

(** The answer of a mounted panel is a free-text answer exactly when the
    selection is on the free-text line. *)
Lemma get_answer_other (q : AskUser.Question) (p : QuestionPanel.t) :
  panel_ok q p ->
  exists s,
    QuestionPanel.get_answer p
    = Ok (s, QuestionPanel.selected_option p
             =? py_len (QuestionPanel.choices p)).
Proof.
  intros Hok. pose proof (ok_selected _ _ Hok) as Hs.
  rewrite (ok_total _ _ Hok) in Hs.
  unfold QuestionPanel.get_answer.
  destruct (Z.ltb_spec (QuestionPanel.selected_option p)
              (py_len (QuestionPanel.choices p))) as [Hlt|Hge].
  - destruct (py_get_in_range (QuestionPanel.choices p)
                (QuestionPanel.selected_option p)) as (c & _ & E); [lia|].
    rewrite E. cbn [mbind Result_bind].
    assert (Hb : (QuestionPanel.selected_option p
                  =? py_len (QuestionPanel.choices p)) = false)
      by (apply Z.eqb_neq; lia).
    rewrite Hb. eauto.
  - assert (Hb : (QuestionPanel.selected_option p
                  =? py_len (QuestionPanel.choices p)) = true)
      by (apply Z.eqb_eq; lia).
    rewrite Hb. destruct (ok_input _ _ Hok) as [inp ->]. eauto.
Qed.

Lemma switch_focus (a : QuestionApp.t) (new_tab : Z) :
  session_view a ->
  0 <= new_tab < py_len (QuestionApp.panel_widgets a) ->
  new_tab <> QuestionApp.current_tab a ->
  exists a' p s o,
    QuestionApp._switch_tab new_tab a
    = Ok (a', [Focus new_tab (if o : bool then FocusTextInput else FocusPanel)])
    /\ QuestionApp.current_tab a' = new_tab
    /\ QuestionApp.panel_widgets a !! Z.to_nat new_tab = Some p
    /\ QuestionPanel.get_answer p = Ok (s, o).
Proof.
  intros Hv Hr Hne. pose proof (sv_ok _ Hv) as Hok.
  destruct (switch_tab_exact a new_tab Hok Hr Hne) as (pn & Hpn & E).
  destruct (sv_panels _ Hv _ _ Hpn) as (Hidx & _).
  destruct (Forall2_lookup_r _ _ _ _ _ (so_panels _ Hok) Hpn) as (q & _ & Hqp).
  destruct (get_answer_other q pn Hqp) as (s & Hs).
  rewrite Hidx, Z2Nat.id in E by lia.
  eexists _, pn, s, _. split; [exact E|]. split; [reflexivity|].
  split; [exact Hpn | exact Hs].
Qed.

(** The target of [next_tab] and of [prev_tab] on a widget with more than
    one panel. *)
Lemma tab_targets (a : QuestionApp.t) :
  session_ok a -> 1 < py_len (QuestionApp.panel_widgets a) ->
  let n := py_len (QuestionApp.panel_widgets a) in
  let cur := QuestionApp.current_tab a in
  QuestionApp.action_next_tab a = QuestionApp._switch_tab ((cur + 1) `mod` n) a
  /\ QuestionApp.action_prev_tab a
     = QuestionApp._switch_tab ((cur - 1) `mod` n) a
  /\ 0 <= (cur + 1) `mod` n < n /\ (cur + 1) `mod` n <> cur
  /\ 0 <= (cur - 1) `mod` n < n /\ (cur - 1) `mod` n <> cur
  /\ ((cur + 1) `mod` n - 1) `mod` n = cur
  /\ ((cur - 1) `mod` n + 1) `mod` n = cur.
Proof.
  intros Hok Hn n cur.
  assert (Hc : 0 <= cur < n) by (apply current_in_range; [exact Hok | lia]).
  unfold QuestionApp.action_next_tab, QuestionApp.action_prev_tab.
  fold n cur.
  destruct (Z.ltb_spec 1 n) as [_|]; [|lia].
  rewrite !py_mod_ok by lia. cbn [mbind Result_bind].
  destruct (next_tab_target cur n Hc Hn) as [H1 H2].
  destruct (prev_tab_target cur n Hc Hn) as [H3 H4].
  repeat (split; [first [reflexivity | assumption | lia]|]).
  split.
  - rewrite Zminus_mod_idemp_l. replace (cur + 1 - 1) with cur by lia.
    apply Z.mod_small. exact Hc.
  - rewrite Zplus_mod_idemp_l. replace (cur - 1 + 1) with cur by lia.
    apply Z.mod_small. exact Hc.
Qed.

(** X13. In every state a prompt with more than one question reaches
    when mounting and the commands succeed, [next_tab] and [prev_tab]
    succeed, post no message and issue exactly one focus
    request, for the panel that becomes current: to its free-text input
    when the answer of that panel is a free-text answer, to the panel
    itself otherwise.  With at most one question both do nothing. *)
Theorem tab_switch_focus (args : AskUser.AskUserArgs)
    (cs : list Session.Command)
    (a0 a : QuestionApp.t) (es0 es : list Effect) :
  Session.start args = Ok (a0, es0) ->
  Session.run cs a0 = Ok (a, es) ->
  exists an esn ap esp,
    QuestionApp.action_next_tab a = Ok (an, esn)
    /\ QuestionApp.action_prev_tab a = Ok (ap, esp)
    /\ (py_len (AskUser.questions args) <= 1 ->
        an = a /\ esn = [] /\ ap = a /\ esp = [])
    /\ (1 < py_len (AskUser.questions args) ->
        exists pn sn on pp sp op,
          QuestionApp.panel_widgets a !! Z.to_nat (QuestionApp.current_tab an)
          = Some pn
          /\ QuestionPanel.get_answer pn = Ok (sn, on)
          /\ esn = [Focus (QuestionApp.current_tab an)
                      (if on : bool then FocusTextInput else FocusPanel)]
          /\ QuestionApp.panel_widgets a !! Z.to_nat (QuestionApp.current_tab ap)
             = Some pp
          /\ QuestionPanel.get_answer pp = Ok (sp, op)
          /\ esp = [Focus (QuestionApp.current_tab ap)
                      (if op : bool then FocusTextInput else FocusPanel)]).
Proof.
  intros H0 H. destruct (reach_inv _ _ _ _ _ _ H0 H) as (Hv & Hq).
  pose proof (sv_ok _ Hv) as Hok.
  pose proof (py_len_Forall2 _ _ _ (so_panels _ Hok)) as Hlen.
  rewrite Hq in Hlen.
  destruct (Z.ltb_spec 1 (py_len (QuestionApp.panel_widgets a))) as [Hn|Hn].
  - destruct (tab_targets a Hok Hn)
      as (En & Ep & Hn1 & Hn2 & Hp1 & Hp2 & _).
    destruct (switch_focus a _ Hv Hn1 Hn2) as (an & pn & sn & on & E1 & C1 & L1 & G1).
    destruct (switch_focus a _ Hv Hp1 Hp2) as (ap & pp & sp & op & E2 & C2 & L2 & G2).
    rewrite <- En in E1. rewrite <- Ep in E2.
    eexists an, _, ap, _.
    split; [exact E1|]. split; [exact E2|].
    split; [lia|]. intros _.
    exists pn, sn, on, pp, sp, op. rewrite C1, C2. auto 10.
  - exists a, [], a, [].
    unfold QuestionApp.action_next_tab, QuestionApp.action_prev_tab.
    destruct (Z.ltb_spec 1 (py_len (QuestionApp.panel_widgets a))); [lia|].
    split; [reflexivity|]. split; [reflexivity|].
    split; [auto | lia].
Qed.

Lemma tab_switch_focus_witness :
  Session.start example_args = Ok (example_started.1, example_started.2)
  /\ Session.run example_commands example_started.1
     = Ok (example_state.1, example_state.2)
  /\ exists an esn ap esp,
       QuestionApp.action_next_tab example_state.1 = Ok (an, esn)
       /\ QuestionApp.action_prev_tab example_state.1 = Ok (ap, esp).
Proof.
  split; [vm_compute; reflexivity|]. split; [vm_compute; reflexivity|].
  destruct (tab_switch_focus example_args example_commands
              example_started.1 example_state.1
              example_started.2 example_state.2)
    as (an & esn & ap & esp & En & Ep & _);
    [vm_compute; reflexivity | vm_compute; reflexivity |].
  exists an, esn, ap, esp. split; [exact En | exact Ep].
Defined.

Lemma switch_panels_lookup (l : list QuestionPanel.t) (kc kn i : nat) :
  kc <> kn ->
  alter (QuestionPanel.set_display true) kn
    (alter (QuestionPanel.set_display false) kc
       (alter (restyle (add_class "question-text-active")) kn
          (alter (restyle (remove_class "question-text-active")) kc l))) !! i
  = (if decide (i = kn)
     then fun p => QuestionPanel.set_display true
                     (restyle (add_class "question-text-active") p)
     else if decide (i = kc)
     then fun p => QuestionPanel.set_display false
                     (restyle (remove_class "question-text-active") p)
     else fun p => p) <$> l !! i.
Proof.
  intros Hk.
  destruct (decide (i = kn)) as [->|Hin].
  - rewrite list_lookup_alter_eq, list_lookup_alter_ne by exact Hk.
    rewrite list_lookup_alter_eq, list_lookup_alter_ne by exact Hk.
    destruct (l !! kn); reflexivity.
  - rewrite list_lookup_alter_ne by auto.
    destruct (decide (i = kc)) as [->|Hic].
    + rewrite list_lookup_alter_eq, list_lookup_alter_ne by auto.
      rewrite list_lookup_alter_eq. destruct (l !! kc); reflexivity.
    + rewrite !list_lookup_alter_ne by auto. destruct (l !! i); reflexivity.
Qed.

Lemma switch_tabs_lookup (l : list QuestionTab.t) (kc kn i : nat) :
  kc <> kn ->
  alter (QuestionTab.set_active true) kn
    (alter (QuestionTab.set_active false) kc l) !! i
  = (if decide (i = kn) then QuestionTab.set_active true
     else if decide (i = kc) then QuestionTab.set_active false
     else fun t => t) <$> l !! i.
Proof.
  intros Hk.
  destruct (decide (i = kn)) as [->|Hin].
  - rewrite list_lookup_alter_eq, list_lookup_alter_ne by exact Hk.
    reflexivity.
  - rewrite list_lookup_alter_ne by auto.
    destruct (decide (i = kc)) as [->|Hic].
    + rewrite list_lookup_alter_eq. reflexivity.
    + rewrite list_lookup_alter_ne by auto. destruct (l !! i); reflexivity.
Qed.

Lemma hide_show_panel (cur mcs : Z) (i : nat) (p : QuestionPanel.t) :
  panel_view cur mcs i p -> Z.of_nat i = cur ->
  QuestionPanel.set_display true
    (restyle (add_class "question-text-active")
       (QuestionPanel.set_display false
          (restyle (remove_class "question-text-active") p))) = p.
Proof.
  intros (_ & V2 & V3 & _) Hi. apply Z.eqb_eq in Hi. rewrite Hi in V2, V3.
  destruct p as [qd ix chs mc sel tot ows ti oc om qt pd dp].
  unfold restyle. cbn [QuestionPanel.set_display QuestionPanel.set_question_text
       QuestionPanel.question_data QuestionPanel.index QuestionPanel.choices
       QuestionPanel.max_choices QuestionPanel.selected_option
       QuestionPanel.total_options QuestionPanel.option_widgets
       QuestionPanel.text_input QuestionPanel.other_cursor
       QuestionPanel.is_other_mode QuestionPanel.question_text
       QuestionPanel.padding QuestionPanel.display
       fmap option_fmap option_map] in *.
  subst dp qt. cbn [QuestionPanel.set_display QuestionPanel.set_question_text
       QuestionPanel.question_data QuestionPanel.index QuestionPanel.choices
       QuestionPanel.max_choices QuestionPanel.selected_option
       QuestionPanel.total_options QuestionPanel.option_widgets
       QuestionPanel.text_input QuestionPanel.other_cursor
       QuestionPanel.is_other_mode QuestionPanel.question_text
       QuestionPanel.padding QuestionPanel.display
       fmap option_fmap option_map].
  rewrite question_text_remove, question_text_add. reflexivity.
Qed.

Lemma show_hide_panel (cur mcs : Z) (i : nat) (p : QuestionPanel.t) :
  panel_view cur mcs i p -> Z.of_nat i <> cur ->
  QuestionPanel.set_display false
    (restyle (remove_class "question-text-active")
       (QuestionPanel.set_display true
          (restyle (add_class "question-text-active") p))) = p.
Proof.
  intros (_ & V2 & V3 & _) Hi. apply Z.eqb_neq in Hi. rewrite Hi in V2, V3.
  destruct p as [qd ix chs mc sel tot ows ti oc om qt pd dp].
  unfold restyle. cbn [QuestionPanel.set_display QuestionPanel.set_question_text
       QuestionPanel.question_data QuestionPanel.index QuestionPanel.choices
       QuestionPanel.max_choices QuestionPanel.selected_option
       QuestionPanel.total_options QuestionPanel.option_widgets
       QuestionPanel.text_input QuestionPanel.other_cursor
       QuestionPanel.is_other_mode QuestionPanel.question_text
       QuestionPanel.padding QuestionPanel.display
       fmap option_fmap option_map] in *.
  subst dp qt. cbn [QuestionPanel.set_display QuestionPanel.set_question_text
       QuestionPanel.question_data QuestionPanel.index QuestionPanel.choices
       QuestionPanel.max_choices QuestionPanel.selected_option
       QuestionPanel.total_options QuestionPanel.option_widgets
       QuestionPanel.text_input QuestionPanel.other_cursor
       QuestionPanel.is_other_mode QuestionPanel.question_text
       QuestionPanel.padding QuestionPanel.display
       fmap option_fmap option_map].
  rewrite question_text_add, question_text_remove. reflexivity.
Qed.

Lemma tab_off_on (cur : Z) (i : nat) (t : QuestionTab.t) :
  tab_view cur i t -> Z.of_nat i = cur ->
  QuestionTab.set_active true (QuestionTab.set_active false t) = t.
Proof.
  unfold tab_view. intros -> Hi. apply Z.eqb_eq in Hi. rewrite Hi.
  rewrite !tab_set_active_exact. reflexivity.
Qed.

Lemma tab_on_off (cur : Z) (i : nat) (t : QuestionTab.t) :
  tab_view cur i t -> Z.of_nat i <> cur ->
  QuestionTab.set_active false (QuestionTab.set_active true t) = t.
Proof.
  unfold tab_view. intros -> Hi. apply Z.eqb_neq in Hi. rewrite Hi.
  rewrite !tab_set_active_exact. reflexivity.
Qed.

(** Switching to another tab and back leaves the widget as it was. *)
Lemma switch_back (a a' : QuestionApp.t) (es : list Effect) (new_tab : Z) :
  session_view a ->
  0 <= new_tab < py_len (QuestionApp.panel_widgets a) ->
  new_tab <> QuestionApp.current_tab a ->
  QuestionApp._switch_tab new_tab a = Ok (a', es) ->
  exists es',
    QuestionApp._switch_tab (QuestionApp.current_tab a) a' = Ok (a, es').
Proof.
  intros Hv Hnew Hne H. pose proof (sv_ok _ Hv) as Hok.
  destruct (switch_tab_session a a' es new_tab Hok Hnew H) as (Hok' & Hc' & F).
  assert (Hcur : 0 <= QuestionApp.current_tab a
                 < py_len (QuestionApp.panel_widgets a))
    by (apply current_in_range; [exact Hok | lia]).
  destruct (switch_tab_exact a' (QuestionApp.current_tab a)) as (pc & _ & E');
    [exact Hok' | pose proof (py_len_Forall2 _ _ _ F); lia
     | rewrite Hc'; congruence |].
  rewrite E'. eexists. f_equal. f_equal. clear E'.
  destruct (switch_tab_exact a new_tab Hok Hnew Hne) as (pn & _ & E).
  rewrite E in H. injection H as <- _. clear E.
  cbn [QuestionApp.args QuestionApp.questions QuestionApp.current_tab
       QuestionApp.tab_widgets QuestionApp.panel_widgets
       QuestionApp.max_choices].
  set (kn := Z.to_nat new_tab) in *.
  set (kc := Z.to_nat (QuestionApp.current_tab a)) in *.
  assert (Hk : kc <> kn) by (subst kn kc; lia).
  assert (Hkc : forall i : nat,
             i = kc <-> Z.of_nat i = QuestionApp.current_tab a)
    by (intros i; subst kc; lia).
  destruct Hv as [_ Hps Hts _ _].
  destruct a as [ar qs c ts ps mc].
  cbn [QuestionApp.args QuestionApp.questions QuestionApp.current_tab
       QuestionApp.tab_widgets QuestionApp.panel_widgets
       QuestionApp.max_choices] in *.
  f_equal.
  - assert (Hm : forall (l : list QuestionTab.t) k1 k2,
               match l with
               | [] => []
               | _ :: _ => alter (QuestionTab.set_active true) k1
                             (alter (QuestionTab.set_active false) k2 l)
               end
               = alter (QuestionTab.set_active true) k1
                   (alter (QuestionTab.set_active false) k2 l))
      by (intros [|? ?] ? ?; reflexivity).
    rewrite !Hm. apply list_eq. intros i.
    rewrite switch_tabs_lookup by auto.
    rewrite switch_tabs_lookup by auto.
    destruct (ts !! i) as [t|] eqn:Ht;
      [|repeat destruct (decide _); reflexivity].
    pose proof (Hts i t Ht) as Hview.
    cbn [fmap option_fmap option_map]. f_equal.
    destruct (decide (i = kc)) as [->|Hic].
    + destruct (decide (kc = kn)); [contradiction|].
      eapply tab_off_on; [exact Hview | apply Hkc; reflexivity].
    + destruct (decide (i = kn)) as [->|Hin]; [|reflexivity].
      eapply tab_on_off; [exact Hview|]. intros Hx. apply Hkc in Hx. auto.
  - apply list_eq. intros i.
    rewrite switch_panels_lookup by auto.
    rewrite switch_panels_lookup by auto.
    destruct (ps !! i) as [p|] eqn:Hp;
      [|repeat destruct (decide _); reflexivity].
    pose proof (Hps i p Hp) as Hview.
    cbn [fmap option_fmap option_map]. f_equal.
    destruct (decide (i = kc)) as [->|Hic].
    + destruct (decide (kc = kn)); [contradiction|].
      eapply hide_show_panel; [exact Hview | apply Hkc; reflexivity].
    + destruct (decide (i = kn)) as [->|Hin]; [|reflexivity].
      eapply show_hide_panel; [exact Hview|]. intros Hx. apply Hkc in Hx. auto.
Qed.

Lemma tab_step_cosmetic (a a' : QuestionApp.t) (es : list Effect) :
  session_ok a ->
  QuestionApp.action_next_tab a = Ok (a', es)
  \/ QuestionApp.action_prev_tab a = Ok (a', es) ->
  Forall2 cosmetic (QuestionApp.panel_widgets a) (QuestionApp.panel_widgets a').
Proof.
  intros Hok H.
  destruct (Z.ltb_spec 1 (py_len (QuestionApp.panel_widgets a))) as [Hn|Hn].
  - destruct (tab_targets a Hok Hn) as (En & Ep & Hn1 & _ & Hp1 & _).
    rewrite En, Ep in H.
    destruct H as [H|H]; eapply switch_tab_session in H; eauto; apply H.
  - unfold QuestionApp.action_next_tab, QuestionApp.action_prev_tab in H.
    destruct (Z.ltb_spec 1 (py_len (QuestionApp.panel_widgets a))); [lia|].
    destruct H as [H|H]; injection H as <- _; apply Forall2_cosmetic_refl.
Qed.

(** X14. In every state the prompt reaches when mounting and the
    commands succeed, [next_tab] followed by [prev_tab], and [prev_tab]
    followed by [next_tab], succeed and give back the widget exactly as
    it was: current tab, tabs, panels, their
    visibility and their highlighting. *)
Theorem next_prev_tab_restore (args : AskUser.AskUserArgs)
    (cs : list Session.Command)
    (a0 a : QuestionApp.t) (es0 es : list Effect) :
  Session.start args = Ok (a0, es0) ->
  Session.run cs a0 = Ok (a, es) ->
  exists an esn esb ap esp esf,
    QuestionApp.action_next_tab a = Ok (an, esn)
    /\ QuestionApp.action_prev_tab an = Ok (a, esb)
    /\ QuestionApp.action_prev_tab a = Ok (ap, esp)
    /\ QuestionApp.action_next_tab ap = Ok (a, esf).
Proof.
  intros H0 H. destruct (reach_inv _ _ _ _ _ _ H0 H) as (Hv & Hq).
  pose proof (sv_ok _ Hv) as Hok.
  destruct (Z.ltb_spec 1 (py_len (QuestionApp.panel_widgets a))) as [Hn|Hn].
  - destruct (tab_targets a Hok Hn)
      as (En & Ep & Hn1 & Hn2 & Hp1 & Hp2 & Hnb & Hpb).
    destruct (switch_tab_ok a _ Hok Hn1) as (an & esn & E1 & _).
    destruct (switch_tab_ok a _ Hok Hp1) as (ap & esp & E2 & _).
    destruct (switch_tab_session a an esn _ Hok Hn1 E1) as (Hokn & Hcn & Fn).
    destruct (switch_tab_session a ap esp _ Hok Hp1 E2) as (Hokp & Hcp & Fp).
    destruct (switch_back a an esn _ Hv Hn1 Hn2 E1) as (esb & Eb).
    destruct (switch_back a ap esp _ Hv Hp1 Hp2 E2) as (esf & Ef).
    pose proof (py_len_Forall2 _ _ _ Fn) as Ln.
    pose proof (py_len_Forall2 _ _ _ Fp) as Lp.
    destruct (tab_targets an Hokn) as (_ & Epn & _); [lia|].
    destruct (tab_targets ap Hokp) as (Enp & _); [lia|].
    rewrite Hcn in Epn. rewrite Hcp in Enp.
    replace (py_len (QuestionApp.panel_widgets an))
      with (py_len (QuestionApp.panel_widgets a)) in Epn by lia.
    replace (py_len (QuestionApp.panel_widgets ap))
      with (py_len (QuestionApp.panel_widgets a)) in Enp by lia.
    rewrite Hnb in Epn. rewrite Hpb in Enp.
    exists an, esn, esb, ap, esp, esf.
    split; [rewrite En; exact E1|]. split; [rewrite Epn; exact Eb|].
    split; [rewrite Ep; exact E2|]. rewrite Enp. exact Ef.
  - exists a, [], [], a, [], [].
    unfold QuestionApp.action_next_tab, QuestionApp.action_prev_tab.
    destruct (Z.ltb_spec 1 (py_len (QuestionApp.panel_widgets a))); [lia|].
    repeat split; reflexivity.
Qed.

Lemma next_prev_tab_restore_witness :
  Session.start example_args = Ok (example_started.1, example_started.2)
  /\ Session.run example_commands example_started.1
     = Ok (example_state.1, example_state.2)
  /\ exists an esn esb,
       QuestionApp.action_next_tab example_state.1 = Ok (an, esn)
       /\ QuestionApp.action_prev_tab an = Ok (example_state.1, esb).
Proof.
  split; [vm_compute; reflexivity|]. split; [vm_compute; reflexivity|].
  destruct (next_prev_tab_restore example_args example_commands
              example_started.1 example_state.1
              example_started.2 example_state.2)
    as (an & esn & esb & _ & _ & _ & En & Eb & _);
    [vm_compute; reflexivity | vm_compute; reflexivity |].
  exists an, esn, esb. split; [exact En | exact Eb].
Defined.

(** X15. In every state the prompt reaches when mounting and the
    commands succeed, [action_move_down] and [action_move_up] succeed;
    they run [move_down] and [move_up] on the panel of the current tab, put the result back at its position, leave
    the current tab, the tabs and the other panels as they are, post no
    message, and hand the focus requests of the panel over under the
    number of the current tab.  Without questions there is no current
    panel and both do nothing. *)
Theorem move_acts_on_current_panel (args : AskUser.AskUserArgs)
    (cs : list Session.Command)
    (a0 a : QuestionApp.t) (es0 es : list Effect) :
  Session.start args = Ok (a0, es0) ->
  Session.run cs a0 = Ok (a, es) ->
  match QuestionApp.panel_widgets a
             !! Z.to_nat (QuestionApp.current_tab a) with
       | Some p =>
           exists pd fd pu fu,
             QuestionPanel.move_down p = Ok (pd, fd)
             /\ QuestionPanel.move_up p = Ok (pu, fu)
             /\ QuestionApp.action_move_down a
                = Ok (QuestionApp.set_panel_widgets
                        (<[Z.to_nat (QuestionApp.current_tab a) := pd]>
                           (QuestionApp.panel_widgets a)) a,
                      Focus (QuestionApp.current_tab a) <$> fd)
             /\ QuestionApp.action_move_up a
                = Ok (QuestionApp.set_panel_widgets
                        (<[Z.to_nat (QuestionApp.current_tab a) := pu]>
                           (QuestionApp.panel_widgets a)) a,
                      Focus (QuestionApp.current_tab a) <$> fu)
       | None =>
           AskUser.questions args = []
           /\ QuestionApp.action_move_down a = Ok (a, [])
           /\ QuestionApp.action_move_up a = Ok (a, [])
       end.
Proof.
  intros H0 H. destruct (reach_inv _ _ _ _ _ _ H0 H) as (Hv & Hq).
  pose proof (sv_ok _ Hv) as Hok.
  unfold QuestionApp.action_move_down, QuestionApp.action_move_up.
  rewrite !on_current_panel_exact by exact Hok.
  destruct (QuestionApp.panel_widgets a !! _) as [p|] eqn:Hp.
  - destruct (Forall2_lookup_r _ _ _ _ _ (so_panels _ Hok) Hp) as (q & _ & Hqp).
    destruct (sv_panels _ Hv _ _ Hp) as (Hidx & _).
    destruct (so_current _ Hok) as [Hc0 _].
    rewrite Z2Nat.id in Hidx by exact Hc0.
    destruct (panel_ok_move_down q p Hqp) as (pd & fd & Ed & _ & Id).
    destruct (panel_ok_move_up q p Hqp) as (pu & fu & Eu & _ & Iu).
    exists pd, fd, pu, fu. rewrite Ed, Eu. cbn [mbind Result_bind].
    unfold QuestionApp.focus_effects. rewrite Id, Iu, Hidx. auto.
  - split; [|split; reflexivity].
    apply lookup_ge_None in Hp.
    pose proof (Forall2_length _ _ _ (so_panels _ Hok)) as Hlen.
    rewrite Hq in Hlen.
    destruct (so_current _ Hok) as [Hc0 [Hc1| Hc1]];
      [unfold py_len in Hc1; lia|].
    rewrite Hc1 in Hp. cbn in Hp.
    destruct (AskUser.questions args); [reflexivity | cbn in Hlen; lia].
Qed.

Lemma move_acts_on_current_panel_witness :
  Session.start example_args = Ok (example_started.1, example_started.2)
  /\ Session.run example_commands example_started.1
     = Ok (example_state.1, example_state.2)
  /\ exists a' es',
       QuestionApp.action_move_down example_state.1 = Ok (a', es').
Proof.
  split; [vm_compute; reflexivity|]. split; [vm_compute; reflexivity|].
  pose proof (move_acts_on_current_panel example_args example_commands
              example_started.1 example_state.1
              example_started.2 example_state.2)
    as Hw.
  destruct (QuestionApp.panel_widgets example_state.1
              !! Z.to_nat (QuestionApp.current_tab example_state.1)).
  - destruct Hw as (pd & fd & pu & fu & _ & _ & E & _);
      [vm_compute; reflexivity | vm_compute; reflexivity |].
    eexists _, _. exact E.
  - destruct Hw as (_ & E & _);
      [vm_compute; reflexivity | vm_compute; reflexivity |].
    eexists _, _. exact E.
Defined.

(** X16. In every state the prompt reaches when mounting and the
    commands succeed, a further command that succeeds keeps one panel per
    question and changes neither the question nor the answer
    of a panel other than the current one; the commands that do not act
    on a panel ([next_tab], [prev_tab], [submit], [cancel]) leave the
    answers [submit] collects as they are. *)
Theorem answers_change_only_on_current (args : AskUser.AskUserArgs)
    (cs : list Session.Command) (c : Session.Command)
    (a0 a a' : QuestionApp.t) (es0 es es' : list Effect) :
  Session.start args = Ok (a0, es0) ->
  Session.run cs a0 = Ok (a, es) ->
  Session.step c a = Ok (a', es') ->
  length (QuestionApp.panel_widgets a')
       = length (AskUser.questions args)
    /\ (forall (i : nat) p,
          QuestionApp.panel_widgets a !! i = Some p ->
          Z.of_nat i <> QuestionApp.current_tab a ->
          exists p',
            QuestionApp.panel_widgets a' !! i = Some p'
            /\ QuestionPanel.question_data p' = QuestionPanel.question_data p
            /\ QuestionPanel.get_answer p' = QuestionPanel.get_answer p)
    /\ match c with
       | Session.MoveUp | Session.MoveDown | Session.EditText _ => True
       | _ => QuestionApp.collect_answers (QuestionApp.panel_widgets a')
              = QuestionApp.collect_answers (QuestionApp.panel_widgets a)
       end.
Proof.
  intros H0 H Es. destruct (reach_inv _ _ _ _ _ _ H0 H) as (Hv & Hq).
  pose proof (sv_ok _ Hv) as Hok.
  destruct (step_ok c a Hok) as (a1 & es1 & Es1 & Hok' & Hq' & Hkeep).
  rewrite Es in Es1. injection Es1 as <- <-.
  split.
  { rewrite <- (Forall2_length _ _ _ (so_panels _ Hok')). congruence. }
  split.
  { intros i p Hp Hi. destruct (Hkeep i p Hp Hi) as (p' & Hp' & Hc).
    exists p'. split; [exact Hp'|].
    split; [apply Hc | apply cosmetic_get_answer; exact Hc]. }
  destruct c; cbn [Session.step] in Es; try exact I.
  - apply cosmetic_collect. eapply tab_step_cosmetic; eauto.
  - apply cosmetic_collect. eapply tab_step_cosmetic; eauto.
  - unfold QuestionApp.action_submit, QuestionApp._do_submit in Es.
    destruct (QuestionApp.collect_answers (QuestionApp.panel_widgets a))
      eqn:Ec; [|discriminate].
    injection Es as <- _. congruence.
  - injection Es as <- _. reflexivity.
Qed.

Lemma answers_change_only_on_current_witness :
  Session.start example_args = Ok (example_started.1, example_started.2)
  /\ Session.run example_commands example_started.1
     = Ok (example_state.1, example_state.2)
  /\ exists a' es',
       Session.step Session.MoveUp example_state.1 = Ok (a', es')
       /\ length (QuestionApp.panel_widgets a')
          = length (AskUser.questions example_args).
Proof.
  split; [vm_compute; reflexivity|]. split; [vm_compute; reflexivity|].
  eexists _, _. split; [vm_compute; reflexivity|].
  refine (proj1 (answers_change_only_on_current
                   example_args example_commands Session.MoveUp
                   example_started.1 example_state.1 _
                   example_started.2 example_state.2 _ _ _ _));
    vm_compute; reflexivity.
Defined.

(** ** Submitting from the free-text input, and the prompt without
    questions *)

(** X17. In every state the prompt reaches when mounting and the
    commands succeed, the [Input.Submitted] message
    the free-text input posts when Enter is pressed in it is handled by
    no widget below the question widget, whose [on_input_submitted] posts
    exactly the [Answered] message [action_submit] posts, with the same
    answers; the state is unchanged, and this holds whatever the order
    in which the pending messages are handled. *)
Theorem input_enter_submits (args : AskUser.AskUserArgs)
    (cs : list Session.Command) (k1 k2 k3 k4 : nat) (sched : list nat)
    (a0 a : QuestionApp.t) (es0 es : list Effect) :
  Session.start args = Ok (a0, es0) ->
  Session.run cs a0 = Ok (a, es) ->
  exists answers,
    QuestionApp.action_submit a = Ok (a, [Post (Answered answers)])
    /\ Dispatch.pump (k1 :: k2 :: k3 :: k4 :: sched)
         [(Dispatch.NInput, InputSubmitted)] a []
       = Some (Ok (a, [Post InputSubmitted; Post (Answered answers)]))
    /\ Session.session_events [Post InputSubmitted; Post (Answered answers)]
       = [Answered answers].
Proof.
  intros H0 H. destruct (reach_inv _ _ _ _ _ _ H0 H) as (Hv & Hq).
  destruct (collect_answers_ok _ _ (so_panels _ (sv_ok _ Hv)))
    as (answers & Ec & _).
  exists answers.
  assert (Hs : QuestionApp._do_submit a = Ok (a, [Post (Answered answers)])).
  { unfold QuestionApp._do_submit. rewrite Ec. reflexivity. }
  split; [exact Hs|]. split; [|reflexivity].
  cbn [Dispatch.pump Dispatch.take_nth Dispatch.handle Dispatch.parent
       stopped posted fmap list_fmap app].
  unfold QuestionApp.on_input_submitted. rewrite Hs.
  cbn [mbind Result_bind].
  cbn [Dispatch.posts Dispatch.focuses omap list_omap
       Dispatch.pump Dispatch.take_nth Dispatch.handle Dispatch.parent
       stopped posted fmap list_fmap app].
  destruct sched; reflexivity.
Qed.

Lemma input_enter_submits_witness :
  Session.start example_args = Ok (example_started.1, example_started.2)
  /\ Session.run example_commands example_started.1
     = Ok (example_state.1, example_state.2)
  /\ exists answers,
       QuestionApp.action_submit example_state.1
       = Ok (example_state.1, [Post (Answered answers)])
       /\ Dispatch.pump [0; 0; 0; 0]%nat
            [(Dispatch.NInput, InputSubmitted)] example_state.1 []
          = Some (Ok (example_state.1,
                      [Post InputSubmitted; Post (Answered answers)])).
Proof.
  split; [vm_compute; reflexivity|]. split; [vm_compute; reflexivity|].
  destruct (input_enter_submits example_args example_commands
              0%nat 0%nat 0%nat 0%nat []
              example_started.1 example_state.1
              example_started.2 example_state.2)
    as (answers & Hs & Hp & _);
    [vm_compute; reflexivity | vm_compute; reflexivity |].
  exists answers. split; [exact Hs | exact Hp].
Defined.

(** X18. A prompt without questions still mounts: it has no tab and no
    panel, [max_choices] is 6 and mounting requests no focus.  In it
    the moves, the tab switches and text edits do nothing, [submit] posts
    [Answered] with an empty list and [cancel] posts [Cancelled]; no
    command changes the state. *)
Theorem empty_prompt_inert (args : AskUser.AskUserArgs)
    (cs : list Session.Command) :
  AskUser.questions args = [] ->
  let a := QuestionApp.mk args [] 0 [] [] 6 in
  Session.start args = Ok (a, [])
  /\ (forall c,
        Session.step c a
        = Ok (a, match c with
                 | Session.Submit => [Post (Answered [])]
                 | Session.Cancel => [Post Cancelled]
                 | _ => []
                 end))
  /\ exists es,
       Session.run cs a = Ok (a, es)
       /\ Forall (fun e => e = Post (Answered []) \/ e = Post Cancelled) es.
Proof.
  intros Hq a.
  assert (Hstep : forall c,
            Session.step c a
            = Ok (a, match c with
                     | Session.Submit => [Post (Answered [])]
                     | Session.Cancel => [Post Cancelled]
                     | _ => []
                     end))
    by (intros []; reflexivity).
  split; [|split; [exact Hstep|]].
  - unfold Session.start, QuestionApp.__init__, QuestionApp.compose.
    rewrite Hq. reflexivity.
  - induction cs as [|c cs (es & IH & HF)].
    + exists []. split; [reflexivity | constructor].
    + cbn [Session.run]. rewrite Hstep. cbn [mbind Result_bind].
      rewrite IH. cbn [mbind Result_bind].
      eexists. split; [reflexivity|].
      apply Forall_app. split; [|exact HF].
      destruct c; constructor; first [solve [auto] | constructor].
Qed.

Lemma empty_prompt_inert_witness :
  let args := AskUser.mkArgs [] in
  let a := QuestionApp.mk args [] 0 [] [] 6 in
  Session.start args = Ok (a, [])
  /\ Session.step Session.Submit a = Ok (a, [Post (Answered [])])
  /\ exists es, Session.run [Session.MoveDown; Session.Submit] a = Ok (a, es).
Proof.
  destruct (empty_prompt_inert (AskUser.mkArgs [])
              [Session.MoveDown; Session.Submit] eq_refl)
    as (H1 & H2 & es & H3 & _).
  split; [exact H1|]. split; [exact (H2 Session.Submit)|].
  exists es. exact H3.
Defined.

(** ** The focus requests of mounting *)

Lemma mount_fresh_panel_focus (q : AskUser.Question) (idx mc : Z) (d : bool)
    (p : QuestionPanel.t) (fs : list FocusTarget) :
  QuestionPanel.on_mount
    (QuestionPanel.compose
       (QuestionPanel.set_display d (QuestionPanel.__init__ q idx mc)))
  = Ok (p, fs) ->
  fs = if py_len (AskUser.choices q) =? 0 then [FocusTextInput] else [].
Proof.
  intros Hm. rewrite on_mount_unfold in Hm.
  pose proof (compose_fresh_panel q idx mc d) as Hc. cbv zeta in Hc.
  destruct Hc as (_ & Hcs & _ & Hsel & Hws & Hin & _).
  assert (Hom : QuestionPanel.is_other_mode
                  (QuestionPanel.compose
                     (QuestionPanel.set_display d
                        (QuestionPanel.__init__ q idx mc))) = false).
  { unfold QuestionPanel.compose, QuestionPanel.__init__.
    cbn [QuestionPanel.set_display QuestionPanel.set_question_text
         QuestionPanel.set_option_widgets QuestionPanel.set_other_cursor
         QuestionPanel.set_text_input QuestionPanel.question_data
         QuestionPanel.index QuestionPanel.choices
         QuestionPanel.max_choices QuestionPanel.selected_option
         QuestionPanel.total_options QuestionPanel.option_widgets
         QuestionPanel.text_input QuestionPanel.other_cursor
         QuestionPanel.is_other_mode QuestionPanel.question_text
         QuestionPanel.padding QuestionPanel.display].
    destruct (0 <? _); reflexivity. }
  revert Hm Hcs Hsel Hws Hin Hom.
  generalize (QuestionPanel.compose
                (QuestionPanel.set_display d (QuestionPanel.__init__ q idx mc))).
  intros p0 Hm Hcs Hsel Hws Hin Hom.
  destruct (update_option_widgets_ok (QuestionPanel.choices p0)
              (QuestionPanel.selected_option p0)
              (QuestionPanel.option_widgets p0) 0) as (ws & Hupd & _);
    [lia | unfold py_len; rewrite Hws, Hcs; lia |].
  rewrite (_update_options_eq p0 ws Hupd) in Hm.
  injection Hm as _ <-.
  rewrite Hin, Hsel, Hom, Hcs.
  rewrite (Z.eqb_sym 0). destruct (py_len (AskUser.choices q) =? 0); reflexivity.
Qed.

Lemma mount_panels_focus (qs : list AskUser.Question)
    (g : nat -> AskUser.Question -> QuestionPanel.t) (idx : nat -> Z)
    (ps : list QuestionPanel.t) (es : list Effect) :
  (forall i q, exists mc d,
      g i q = QuestionPanel.set_display d (QuestionPanel.__init__ q (idx i) mc)) ->
  Session.mount_panels (imap g qs) = Ok (ps, es) ->
  es = concat (imap (fun i q =>
                       if py_len (AskUser.choices q) =? 0
                       then [Focus (idx i) FocusTextInput] else []) qs).
Proof.
  revert g idx ps es. induction qs as [|q qs IH]; intros g idx ps es Hg H.
  - cbn in H. injection H as _ <-. reflexivity.
  - cbn [imap Session.mount_panels] in H.
    destruct (Hg 0%nat q) as (mc & d & Eg). rewrite Eg in H.
    destruct (QuestionPanel.on_mount _) as [[p fs]|e] eqn:E1; [|discriminate].
    cbn [mbind Result_bind] in H.
    destruct (Session.mount_panels _) as [[rest es']|e] eqn:E2; [|discriminate].
    cbn [mbind Result_bind] in H. injection H as _ <-.
    pose proof (mount_fresh_panel_focus _ _ _ _ _ _ E1) as Hfs.
    destruct (mount_fresh_panel_frame _ _ _ _ _ _ E1) as (_ & _ & Hidx & _).
    rewrite (IH (g ∘ S) (idx ∘ S) rest es'); [|intros i q'; apply Hg|exact E2].
    cbn [imap concat]. unfold QuestionApp.focus_effects.
    rewrite Hidx, Hfs.
    destruct (py_len (AskUser.choices q) =? 0); reflexivity.
Qed.

(** X19. Mounting the prompt, when it succeeds, posts no message.  Each
    panel of a
    question without choices asks, when it is mounted, for the focus on
    its free-text input, whether it is displayed or not; the last request
    is the one of the question widget, for the first panel: on its
    free-text input when the first question has no choices, on the panel
    otherwise.  A prompt without questions requests nothing. *)
Theorem mounting_focus (args : AskUser.AskUserArgs) (a : QuestionApp.t)
    (es : list Effect) :
  Session.start args = Ok (a, es) ->
  es = (concat (imap (fun i q =>
                          if py_len (AskUser.choices q) =? 0
                          then [Focus (Z.of_nat i) FocusTextInput] else [])
                    (AskUser.questions args))
          ++ match AskUser.questions args with
             | [] => []
             | q :: _ =>
                 [Focus 0 (if py_len (AskUser.choices q) =? 0
                           then FocusTextInput else FocusPanel)]
             end)%list.
Proof.
  intros H0.
  destruct (start_exact args) as (ps & es1 & Em & Es).
  rewrite Es in H0. injection H0 as _ <-.
  set (qs := AskUser.questions args) in *.
  pose proof Em as Em'. unfold fresh_panels in Em'.
  apply (mount_panels_focus qs _ (fun i => Z.of_nat i)) in Em'; [|eauto].
  rewrite Em'. f_equal.
  destruct (mount_panels_lookup _ _ _ Em) as [Hlen _].
  unfold fresh_panels in Hlen. rewrite length_imap in Hlen.
  destruct ps as [|p ps], qs as [|q qs'] eqn:Eq; try discriminate;
    [reflexivity|].
  destruct (mount_panels_lookup _ _ _ Em) as [_ Hlook].
  destruct (Hlook 0%nat p eq_refl) as (p0 & fs & Hp0 & Hm).
  cbn in Hp0. injection Hp0 as <-.
  destruct (mount_fresh_panel_frame _ _ _ _ _ _ Hm)
    as (Hok & [Hsel Hin] & Hidx & _).
  cbv zeta. unfold QuestionApp.focus_effects, QuestionPanel.focus_input, restyle.
  cbn [QuestionPanel.set_question_text QuestionPanel.index
       QuestionPanel.is_other_mode QuestionPanel.text_input].
  rewrite (ok_other_mode _ _ Hok), Hsel, Hin, Hidx, (ok_choices _ _ Hok).
  rewrite (Z.eqb_sym 0).
  destruct (py_len (AskUser.choices q) =? 0); reflexivity.
Qed.

Lemma mounting_focus_witness :
  Session.start example_args = Ok (example_started.1, example_started.2)
  /\ example_started.2 = [Focus 1 FocusTextInput; Focus 0 FocusPanel].
Proof.
  split; [vm_compute; reflexivity|].
  etransitivity;
    [apply (mounting_focus example_args example_started.1);
     vm_compute; reflexivity
    | vm_compute; reflexivity].
Defined.
